(** * Conversation assistant backend: a shallow embedding of the services

  The development follows the layout of the repository:

  - [JS]: the fragments of the language runtime the services rely on
    (strings, truthiness, property lookup on object literals, local
    time, [Math.ceil], [Math.round], exceptions);
  - [AiConfig]: [src/config/aiConfig.js];
  - [Database]: [src/config/database.js] together with the relational
    reading of every SQL statement the services send through it, what
    the engine does with a batch (which statements it accepts, what an
    error in the middle of a batch leaves behind), and the world (tables,
    clock, identifier source, fate of the requests to come) that
    asynchronous service code transforms;
  - [ConversationManager]: [src/services/conversationManager.js];
  - [AIService]: [src/services/aiService.js];
  - [BrokerService]: [src/services/brokerService.js];
  - [Persisted], [Scenario], [Examples]: views of the tables, series of
    calls and concrete worlds used to state and illustrate the properties.

  Logging and performance timers have no influence on any returned value
  or persisted row and are left out. Service code is modelled as run by
  one task at a time: each call is awaited before the next one starts. *)

From Stdlib Require Import String Ascii List ZArith QArith Qround Lia Bool.
From Stdlib Require Import Sorted Permutation.
Import ListNotations.

Local Open Scope string_scope.
Local Open Scope list_scope.
Local Open Scope Z_scope.

(* ===================================================================== *)
(** ** The language runtime *)
(* ===================================================================== *)

Module JS.

(** A string is its sequence of UTF-16 code units; the model keeps the
    code units below 256, one [ascii] each, so [String.length] is the
    [.length] property. *)
Definition str_length (text : string) : Z := Z.of_nat (String.length text).

(** A Number is a double (IEEE 754 binary64), given here by its exact
    rational value. The result of an arithmetic operation is the double
    nearest to the exact result, ties going to the even significand. The
    values the services compute with are counts, averages and their
    quotients, all in the normal range of the format. *)
Definition half_even (n d : Z) : Z :=
  let q := n / d in
  match 2 * (n mod d) ?= d with
  | Lt => q
  | Gt => q + 1
  | Eq => if Z.even q then q else q + 1
  end.

(** The double nearest to [n / d], for [n > 0]: with [2^e <= n / d <
    2^(e+1)], the significand is [n / d * 2^(52 - e)] rounded to an
    integer. *)
Definition nearest_double (n : Z) (d : positive) : Q :=
  let e0 := Z.log2 n - Z.log2 (Zpos d) in
  let reaches := if 0 <=? e0 then 2 ^ e0 * Zpos d <=? n
                 else Zpos d <=? n * 2 ^ (- e0) in
  let e := if reaches then e0 else e0 - 1 in
  let s := 52 - e in
  if 0 <=? s
  then half_even (n * 2 ^ s) (Zpos d) # Z.to_pos (2 ^ s)
  else inject_Z (half_even n (Zpos d * 2 ^ (- s)) * 2 ^ (- s)).

Definition to_double (x : Q) : Q :=
  let x := Qred x in
  match Qnum x with
  | 0 => 0%Q
  | Zpos _ => nearest_double (Qnum x) (Qden x)
  | Zneg _ => (- nearest_double (- Qnum x) (Qden x))%Q
  end.

(** [x / y] and [x * y] on Numbers. *)
Definition Number_divide (x y : Q) : Q := to_double (x / y)%Q.
Definition Number_multiply (x y : Q) : Q := to_double (x * y)%Q.

(** [Math.ceil] and [Math.round] of a Number: the least integer not
    below it, and the integer nearest to it, the greater one of two
    that are equally near. The estimators apply [Math.ceil] to
    [text.length / 4], a quotient by a power of two, which is exact. *)
Definition Math_ceil (x : Q) : Z := Qceiling x.
Definition Math_round (x : Q) : Z := Qfloor (x + (1 # 2))%Q.

(** [String.prototype.includes] (search from position 0). *)
Fixpoint includes (text search : string) : bool :=
  if String.prefix search text then true
  else match text with
       | EmptyString => false
       | String _ rest => includes rest search
       end.

(** [String.prototype.toLowerCase] on code units below 256: the basic
    Latin capitals and the Latin-1 capitals (U+00C0..U+00DE without the
    multiplication sign U+00D7) move up by 32. *)
Definition lower_unit (c : ascii) : ascii :=
  let n := N_of_ascii c in
  if ((65 <=? n) && (n <=? 90))%N then ascii_of_N (n + 32)
  else if ((192 <=? n) && (n <=? 222) && negb (n =? 215))%N
       then ascii_of_N (n + 32)
       else c.

Fixpoint toLowerCase (text : string) : string :=
  match text with
  | EmptyString => EmptyString
  | String c rest => String (lower_unit c) (toLowerCase rest)
  end.

(** Dynamically typed values, as far as the services can meet them in a
    message's [content]. *)
Inductive Value :=
| Undefined
| Null
| Boolean (b : bool)
| Number (n : Z)
| Str (s : string)
| Object.

Definition truthy (v : Value) : bool :=
  match v with
  | Undefined | Null => false
  | Boolean b => b
  | Number n => negb (n =? 0)
  | Str s => negb (String.eqb s "")
  | Object => true
  end.

(** [a || b] *)
Definition or_else (a b : Value) : Value := if truthy a then a else b.

(** [new Error(message)] *)
Inductive Error := mkError (message : string).

Definition message (e : Error) : string := let (m) := e in m.

(** JSON values. A column or parameter that carries JSON text is
    represented by the value the text denotes, so [JSON.stringify] on the
    way in and [JSON.parse] on the way out do not appear. *)
#[warnings="-register-all"]
Inductive Json :=
| JNull
| JBool (b : bool)
| JNumber (q : Q)
| JString (s : string)
| JInstant (t : Z)            (* the ISO-8601 text of an instant *)
| JObject (fields : list (string * Json)).

(** Truthiness of a JSON value: [null], [false], 0 and the empty string
    are falsy. *)
Definition truthy_json (v : Json) : bool :=
  match v with
  | JNull => false
  | JBool b => b
  | JNumber q => negb (Qeq_bool q 0)
  | JString s => negb (String.eqb s "")
  | JInstant _ => true
  | JObject _ => true
  end.

(** The completion of a call: a returned value or a thrown error. *)
Inductive Completion (A : Type) :=
| Returns (a : A)
| Throws (e : Error).
Arguments Returns {A} a.
Arguments Throws {A} e.

(** [parseInt(process.env.X) || dflt]: an unset or non-numeric variable
    parses to NaN, and NaN and 0 are both falsy. *)
Definition parseInt_or (env : option Z) (dflt : Z) : Z :=
  match env with
  | Some n => if n =? 0 then dflt else n
  | None => dflt
  end.

(** [s || dflt] for an optional string. *)
Definition string_or (s : option string) (dflt : string) : string :=
  match s with
  | Some v => if String.eqb v "" then dflt else v
  | None => dflt
  end.

(** *** Property lookup on object literals

    [table[key]] on an object literal finds the literal's own keys and,
    for any other key, what the literal inherits from [Object.prototype]:
    under the names below a function, and under [__proto__] the prototype
    itself. Such a value is truthy, has none of the properties the
    services go on to read from it ([base], [good], ...), and spreads to
    nothing. Any other key gives [undefined]. *)
Definition Object_prototype_keys : list string :=
  [ "constructor"; "__defineGetter__"; "__defineSetter__"; "hasOwnProperty";
    "__lookupGetter__"; "__lookupSetter__"; "isPrototypeOf";
    "propertyIsEnumerable"; "toString"; "valueOf"; "__proto__";
    "toLocaleString" ].

Definition inherited (key : string) : bool :=
  existsb (String.eqb key) Object_prototype_keys.

Inductive Property (A : Type) :=
| Own (value : A)
| Inherited
| Missing.
Arguments Own {A} value.
Arguments Inherited {A}.
Arguments Missing {A}.

Fixpoint own_property {A : Type} (table : list (string * A)) (key : string)
  : option A :=
  match table with
  | [] => None
  | (k, v) :: rest => if String.eqb k key then Some v else own_property rest key
  end.

Definition get {A : Type} (table : list (string * A)) (key : string)
  : Property A :=
  match own_property table key with
  | Some v => Own v
  | None => if inherited key then Inherited else Missing
  end.

(** A text that may be [undefined], as a value. *)
Definition text_value (text : option string) : Value :=
  match text with
  | Some s => Str s
  | None => Undefined
  end.

(** *** Local time

    The time zone of the process: the offset of local time from UTC, in
    milliseconds, at an instant given in UTC ([LocalTZA(t, true)]) and at
    an instant given as local time ([LocalTZA(t, false)]). *)
Record TimeZone := {
  offset_at_utc : Z -> Z;
  offset_at_local : Z -> Z
}.

Definition UTC : TimeZone :=
  {| offset_at_utc := fun _ => 0; offset_at_local := fun _ => 0 |}.

(** [d.setDate(d.getDate() - n)] on a date at instant [t]: the local
    calendar date moves back by [n] days, the local time of day is kept,
    and the result is read as local time again. *)
Definition setDate_days_back (zone : TimeZone) (t n : Z) : Z :=
  let local := t + offset_at_utc zone t in
  let moved := local - n * 86400000 in
  moved - offset_at_local zone moved.

End JS.
Export JS.

(* ===================================================================== *)
(** ** src/config/aiConfig.js *)
(* ===================================================================== *)

Module AiConfig.

Record AI_CONFIG_t := {
  model : string;
  temperature : Q;
  systemPromptVersion : string;
  conversationMemoryLimit : Z
}.

(** The part of [process.env] the configuration reads. *)
Record Env := {
  AI_MODEL : option string;
  AI_TEMPERATURE : option Q;
  AI_SYSTEM_PROMPT_VERSION : option string;
  AI_CONVERSATION_MEMORY_LIMIT : option Z;
  DATA_RETENTION_DAYS : option Z
}.

Definition AI_CONFIG (env : Env) : AI_CONFIG_t :=
  {| model := string_or (AI_MODEL env) "gpt-4-turbo-preview";
     temperature := match AI_TEMPERATURE env with
                    | Some q => if Qeq_bool q 0 then 7 # 10 else q
                    | None => 7 # 10
                    end;
     systemPromptVersion := string_or (AI_SYSTEM_PROMPT_VERSION env) "v2.0";
     conversationMemoryLimit :=
       parseInt_or (AI_CONVERSATION_MEMORY_LIMIT env) 20 |}.

Record Prompts := {
  base : string;
  conversation : string;
  error : string
}.

Definition prompts_v2_0 : Prompts :=
  {| base := "You are Rachel, a knowledgeable real estate assistant. Help with property searches, market analysis, viewings, and guidance. Be professional, warm, patient with first-time buyers, efficient with investors. Ask clarifying questions, provide actionable information, respect privacy, never guarantee values.";
     conversation := "Continue as Rachel, the real estate assistant. Maintain consistency with conversation history and adapt based on client's experience level, preferences, communication style, and process stage. Reference previous points, ask follow-ups, provide next steps.";
     error := "I apologize for the technical issue. As Rachel, I can help with property searches, market analysis, viewings, process guidance, and agent connections. Please rephrase your question." |}.

(** The own keys of [SYSTEM_PROMPTS]. *)
Definition SYSTEM_PROMPTS : list (string * Prompts) :=
  [ ("v2.0", prompts_v2_0) ].

(** The prompt types: 'base', 'conversation' and 'error', the keys of a
    version of prompts. *)
Inductive PromptType := type_base | type_conversation | type_error.

(** [prompts[type] || prompts.base] *)
Definition select (p : Prompts) (type : PromptType) : string :=
  let chosen := match type with
                | type_base => base p
                | type_conversation => conversation p
                | type_error => error p
                end in
  if String.eqb chosen "" then base p else chosen.

(** [getSystemPrompt(type, version)]. A version that is no key at all
    falls back to 'v2.0'. A version that names something inherited from
    [Object.prototype] passes the test [!prompts], and neither
    [prompts[type]] nor [prompts.base] exists on it: the result is
    [undefined], [None] here. *)
Definition getSystemPrompt (cfg : AI_CONFIG_t) (type : PromptType)
           (version : option string) : option string :=
  let promptVersion := string_or version (systemPromptVersion cfg) in
  match get SYSTEM_PROMPTS promptVersion with
  | Missing => Some (select prompts_v2_0 type)
  | Own prompts => Some (select prompts type)
  | Inherited => None
  end.

End AiConfig.


(* ===================================================================== *)
(** ** src/config/database.js and the SQL the services send through it *)
(* ===================================================================== *)

Module Database.

(** Instants are milliseconds since the epoch, on one time axis shared by
    the application clock ([new Date()], [Date.now()]) and the database
    clock ([GETDATE()]). *)
Definition msPerDay : Z := 86400000.

(** *** Tables *)

Record ConversationRow := {
  conversation_id : string;
  user_id : string;
  created_at : Z;
  updated_at : Z;
  status : string;
  metadata : Json;
  message_count : Z
}.

Record MessageRow := {
  message_id : string;
  m_conversation_id : string;
  role : string;
  content : string;
  m_created_at : Z;
  m_metadata : Json;
  token_count : Z
}.

(** The columns of Properties that the queries name. The schema is not
    part of the sources: prices and square footage are taken as whole
    numbers here, and the properties proved of the market analysis are
    about its counts and its answer over no rows, not about averages of
    prices. *)
Record PropertyRow := {
  city : string;
  state : string;
  zip_code : string;
  property_type : string;
  listing_price : Z;
  listing_date : Z;
  p_status : string;
  sold_date : option Z;
  square_footage : Z
}.

Record Tables := {
  Conversations : list ConversationRow;
  Messages : list MessageRow;
  Properties : list PropertyRow
}.

Definition empty : Tables :=
  {| Conversations := []; Messages := []; Properties := [] |}.

(** *** Calendar functions of the engine *)

(** Day number (days since the epoch) of a civil date, and back. *)
Definition days_from_civil (y m d : Z) : Z :=
  let y' := if m <=? 2 then y - 1 else y in
  let era := y' / 400 in
  let yoe := y' - era * 400 in
  let mp := if 2 <? m then m - 3 else m + 9 in
  let doy := (153 * mp + 2) / 5 + d - 1 in
  let doe := yoe * 365 + yoe / 4 - yoe / 100 + doy in
  era * 146097 + doe - 719468.

Definition civil_from_days (z : Z) : Z * Z * Z :=
  let z' := z + 719468 in
  let era := z' / 146097 in
  let doe := z' - era * 146097 in
  let yoe := (doe - doe / 1460 + doe / 36524 - doe / 146096) / 365 in
  let doy := doe - (365 * yoe + yoe / 4 - yoe / 100) in
  let mp := (5 * doy + 2) / 153 in
  let d := doy - (153 * mp + 2) / 5 + 1 in
  let m := if mp <? 10 then mp + 3 else mp - 9 in
  let y := yoe + era * 400 in
  (if m <=? 2 then y + 1 else y, m, d).

Definition leap_year (y : Z) : bool :=
  ((y mod 4 =? 0) && negb (y mod 100 =? 0)) || (y mod 400 =? 0).

Definition days_in_month (y m : Z) : Z :=
  if m =? 2 then (if leap_year y then 29 else 28)
  else if (m =? 4) || (m =? 6) || (m =? 9) || (m =? 11) then 30
  else 31.

(** [DATEADD(month, n, t)]: same day of the month [n] months away, or the
    last day of that month when it is shorter; the time of day is kept. *)
Definition DATEADD_month (n : Z) (t : Z) : Z :=
  let '(y, m, d) := civil_from_days (t / msPerDay) in
  let total := y * 12 + (m - 1) + n in
  let y' := total / 12 in
  let m' := total mod 12 + 1 in
  let d' := Z.min d (days_in_month y' m') in
  days_from_civil y' m' d' * msPerDay + t mod msPerDay.

(** [DATEDIFF(day, a, b)]: the number of day boundaries between the two
    instants. *)
Definition DATEDIFF_day (a b : Z) : Z := b / msPerDay - a / msPerDay.

(** *** Relational operators *)

Section Relational.
Context {A : Type}.

(** [UPDATE ... SET ... WHERE p]: the rows that satisfy the condition are
    rewritten in place, and their number is reported. *)
Definition update_where (p : A -> bool) (f : A -> A) (rows : list A) : list A :=
  map (fun r => if p r then f r else r) rows.

Definition count_where (p : A -> bool) (rows : list A) : Z :=
  Z.of_nat (List.length (filter p rows)).

(** [ORDER BY key DESC]. Rows with equal keys stay in scan order here; the
    engine promises no particular order among them, and no property
    below depends on this choice. *)
Fixpoint insert_desc (key : A -> Z) (x : A) (sorted : list A) : list A :=
  match sorted with
  | [] => [x]
  | y :: rest => if key y <=? key x then x :: y :: rest
                 else y :: insert_desc key x rest
  end.

Fixpoint order_by_desc (key : A -> Z) (rows : list A) : list A :=
  match rows with
  | [] => []
  | x :: rest => insert_desc key x (order_by_desc key rest)
  end.

(** The order of two rows by a key, largest first. *)
Definition descending (key : A -> Z) (a b : A) : Prop := key b <= key a.

(** [OFFSET offset ROWS] followed by a row limit ([TOP (limit)] or
    [FETCH NEXT limit ROWS ONLY]). *)
Definition offset_limit (offset limit : Z) (rows : list A) : list A :=
  firstn (Z.to_nat limit) (skipn (Z.to_nat offset) rows).

End Relational.

Definition sum_Z (l : list Z) : Z := fold_right Z.add 0 l.

(** [AVG] over exact numerics, as the exact quotient (the engine keeps
    the scale of the column type); [NULL] over no rows. *)
Definition AVG (l : list Z) : option Q :=
  match l with
  | [] => None
  | _ => Some (inject_Z (sum_Z l) / inject_Z (Z.of_nat (List.length l)))%Q
  end.

(** [AVG] over an [int] expression is an [int] again (truncated). *)
Definition AVG_int (l : list Z) : option Z :=
  match l with
  | [] => None
  | _ => Some (Z.quot (sum_Z l) (Z.of_nat (List.length l)))
  end.

Definition MIN (l : list Z) : option Z :=
  match l with
  | [] => None
  | x :: rest => Some (fold_right Z.min x rest)
  end.

Definition MAX (l : list Z) : option Z :=
  match l with
  | [] => None
  | x :: rest => Some (fold_right Z.max x rest)
  end.

(** [x LIKE '%fragment%']: containment of the fragment (wildcards inside
    the fragment and collation rules are not interpreted). *)
Definition LIKE_contains (x fragment : string) : bool := includes x fragment.

(** *** Statements

    One constructor per SQL statement text of the services, carrying the
    named parameters bound by the caller. *)

Inductive Statement :=
| BEGIN_TRANSACTION
| COMMIT_TRANSACTION
  (* INSERT INTO Conversations (...) VALUES (@conversationId, @userId,
     GETDATE(), GETDATE(), 'active', @metadata, 0) *)
| insert_conversation (conversationId userId : string) (metadata : Json)
  (* SELECT ... FROM Conversations
     WHERE conversation_id = @conversationId AND status != 'deleted' *)
| select_conversation (conversationId : string)
  (* INSERT INTO Messages (...) VALUES (@messageId, @conversationId, @role,
     @content, GETDATE(), @metadata, @tokenCount) *)
| insert_message (messageId conversationId role content : string)
                 (metadata : Json) (tokenCount : Z)
  (* UPDATE Conversations SET message_count = message_count + 1,
     updated_at = GETDATE() WHERE conversation_id = @conversationId *)
| update_message_count (conversationId : string)
  (* SELECT TOP (@limit) ... FROM Messages
     WHERE conversation_id = @conversationId
     ORDER BY created_at DESC OFFSET @offset ROWS *)
| select_history (conversationId : string) (limit offset : Z)
  (* UPDATE Conversations SET status = @status, updated_at = GETDATE()
     [, metadata = @metadata] WHERE conversation_id = @conversationId *)
| update_status (conversationId status : string) (metadata : option Json)
  (* SELECT ... FROM Conversations
     WHERE user_id = @userId AND status != 'deleted'
     ORDER BY updated_at DESC OFFSET @offset ROWS
     FETCH NEXT @limit ROWS ONLY *)
| select_user_conversations (userId : string) (limit offset : Z)
  (* UPDATE Conversations SET status = 'deleted', updated_at = GETDATE()
     WHERE created_at < @cutoffDate AND status != 'deleted' *)
| update_cleanup (cutoffDate : Z)
  (* SELECT COUNT( * ), AVG(listing_price), MIN(listing_price),
     MAX(listing_price), AVG(DATEDIFF(day, listing_date, CASE WHEN
     status = 'sold' THEN sold_date ELSE GETDATE() END)),
     COUNT(CASE WHEN status = 'sold' THEN 1 END),
     COUNT(CASE WHEN status = 'active' THEN 1 END), AVG(square_footage)
     FROM Properties
     WHERE (city LIKE @location OR state LIKE @location
            OR zip_code LIKE @location)
       AND property_type = @propertyType
       AND listing_date >= DATEADD(month, -6, GETDATE()) *)
| select_market_analysis (location propertyType : string).

(** The single row of the market aggregate. *)
Record MarketRow := {
  total_listings : Z;
  avg_price : option Q;
  min_price : option Z;
  max_price : option Z;
  avg_days_on_market : option Z;
  sold_count : Z;
  active_count : Z;
  avg_square_footage : option Q
}.

Inductive Recordset :=
| NoRecordset
| ConversationRecords (rows : list ConversationRow)
| MessageRecords (rows : list MessageRow)
| MarketRecords (rows : list MarketRow).

(** What the driver hands back: the first record set of the batch and the
    row counts of its statements, in order. *)
Record QueryResult := {
  recordset : Recordset;
  rowsAffected : list Z
}.

(** *** Conditions and row functions of the statements *)

Definition is_conversation (conversationId : string) (r : ConversationRow) : bool :=
  String.eqb (conversation_id r) conversationId.

Definition not_deleted (r : ConversationRow) : bool :=
  negb (String.eqb (status r) "deleted").

Definition visible_conversation (conversationId : string) (r : ConversationRow) : bool :=
  is_conversation conversationId r && not_deleted r.

Definition visible_for_user (userId : string) (r : ConversationRow) : bool :=
  String.eqb (user_id r) userId && not_deleted r.

Definition is_message_of (conversationId : string) (r : MessageRow) : bool :=
  String.eqb (m_conversation_id r) conversationId.

Definition expired (cutoffDate : Z) (r : ConversationRow) : bool :=
  (created_at r <? cutoffDate) && not_deleted r.

Definition bump_message_count (now : Z) (r : ConversationRow) : ConversationRow :=
  {| conversation_id := conversation_id r; user_id := user_id r;
     created_at := created_at r; updated_at := now;
     status := status r; metadata := metadata r;
     message_count := message_count r + 1 |}.

Definition set_status (now : Z) (newStatus : string) (newMetadata : option Json)
           (r : ConversationRow) : ConversationRow :=
  {| conversation_id := conversation_id r; user_id := user_id r;
     created_at := created_at r; updated_at := now;
     status := newStatus;
     metadata := match newMetadata with Some m => m | None => metadata r end;
     message_count := message_count r |}.

Definition in_market (now : Z) (location propertyType : string) (r : PropertyRow) : bool :=
  (LIKE_contains (city r) location || LIKE_contains (state r) location
   || LIKE_contains (zip_code r) location)
  && String.eqb (property_type r) propertyType
  && (DATEADD_month (-6) now <=? listing_date r).

Definition is_sold (r : PropertyRow) : bool := String.eqb (p_status r) "sold".
Definition is_active (r : PropertyRow) : bool := String.eqb (p_status r) "active".

(** [DATEDIFF(day, listing_date, CASE WHEN status = 'sold' THEN sold_date
    ELSE GETDATE() END)]; [NULL] when a sold row has no sold date. *)
Definition days_on_market (now : Z) (r : PropertyRow) : option Z :=
  if is_sold r
  then option_map (DATEDIFF_day (listing_date r)) (sold_date r)
  else Some (DATEDIFF_day (listing_date r) now).

Fixpoint non_null {A : Type} (l : list (option A)) : list A :=
  match l with
  | [] => []
  | Some x :: rest => x :: non_null rest
  | None :: rest => non_null rest
  end.

(** An aggregate without GROUP BY yields exactly one row, whatever the
    number of rows that satisfy the condition. *)
Definition market_aggregate (now : Z) (rows : list PropertyRow) : MarketRow :=
  {| total_listings := Z.of_nat (List.length rows);
     avg_price := AVG (map listing_price rows);
     min_price := MIN (map listing_price rows);
     max_price := MAX (map listing_price rows);
     avg_days_on_market := AVG_int (non_null (map (days_on_market now) rows));
     sold_count := count_where is_sold rows;
     active_count := count_where is_active rows;
     avg_square_footage := AVG (map square_footage rows) |}.

Definition with_conversations (t : Tables) (c : list ConversationRow) : Tables :=
  {| Conversations := c; Messages := Messages t; Properties := Properties t |}.

Definition with_messages (t : Tables) (m : list MessageRow) : Tables :=
  {| Conversations := Conversations t; Messages := m; Properties := Properties t |}.

(** What the engine compiles. TOP and OFFSET cannot be used in the same
    query expression: the engine refuses the history query, whatever its
    parameters, and a batch that does not compile is not run at all. *)
Definition compiles (s : Statement) : bool :=
  match s with
  | select_history _ _ _ => false
  | _ => true
  end.

(** One data statement at instant [now]: the tables after it, its record
    set and its row count. The history query has no reading: it is never
    run. *)
Definition exec_statement (now : Z) (s : Statement) (t : Tables)
  : Tables * Recordset * Z :=
  match s with
  | BEGIN_TRANSACTION | COMMIT_TRANSACTION => (t, NoRecordset, 0)
  | insert_conversation conversationId userId md =>
      (with_conversations t
         (Conversations t ++
            [ {| conversation_id := conversationId; user_id := userId;
                 created_at := now; updated_at := now; status := "active";
                 metadata := md; message_count := 0 |} ]),
       NoRecordset, 1)
  | select_conversation conversationId =>
      let rows := filter (visible_conversation conversationId) (Conversations t) in
      (t, ConversationRecords rows, Z.of_nat (List.length rows))
  | insert_message messageId conversationId r c md tokenCount =>
      (with_messages t
         (Messages t ++
            [ {| message_id := messageId; m_conversation_id := conversationId;
                 role := r; content := c; m_created_at := now;
                 m_metadata := md; token_count := tokenCount |} ]),
       NoRecordset, 1)
  | update_message_count conversationId =>
      (with_conversations t
         (update_where (is_conversation conversationId) (bump_message_count now)
            (Conversations t)),
       NoRecordset, count_where (is_conversation conversationId) (Conversations t))
  | select_history _ _ _ => (t, NoRecordset, 0)
  | update_status conversationId newStatus newMetadata =>
      (with_conversations t
         (update_where (is_conversation conversationId)
            (set_status now newStatus newMetadata) (Conversations t)),
       NoRecordset, count_where (is_conversation conversationId) (Conversations t))
  | select_user_conversations userId limit offset =>
      let rows := offset_limit offset limit
                    (order_by_desc updated_at
                       (filter (visible_for_user userId) (Conversations t))) in
      (t, ConversationRecords rows, Z.of_nat (List.length rows))
  | update_cleanup cutoffDate =>
      (with_conversations t
         (update_where (expired cutoffDate) (set_status now "deleted" None)
            (Conversations t)),
       NoRecordset, count_where (expired cutoffDate) (Conversations t))
  | select_market_analysis location propertyType =>
      (t, MarketRecords
            [ market_aggregate now
                (filter (in_market now location propertyType) (Properties t)) ],
       1)
  end.

(** *** Batches and transactions

    A batch runs its statements in order. Statements outside a
    transaction take effect one by one; between BEGIN TRANSACTION and
    COMMIT TRANSACTION they work on a private copy that replaces the
    tables at the commit.

    A request can go wrong in two ways. A data statement can raise an
    error: that statement has no effect and the batch goes on with the
    next one, since the driver leaves XACT_ABORT off, [database.js] does
    not set it, and no batch of the services has TRY/CATCH or ROLLBACK;
    the driver reports the error when the batch has ended. Or the request
    is cut short (the connection is lost, or the error is raised by BEGIN
    or COMMIT TRANSACTION itself): the batch stops there and the work of a
    transaction that has not committed is discarded. *)

Inductive Fate :=
| Completes
| FailsAt (k : nat)           (* statement number [k] raises an error *)
| AbortsAt (k : nat).         (* the request is cut short at statement [k] *)

(** The request goes wrong at statement [k]. *)
Definition fails_here (f : Fate) (k : nat) : bool :=
  match f with
  | Completes => false
  | FailsAt j | AbortsAt j => Nat.eqb j k
  end.

Definition cut_short (f : Fate) : bool :=
  match f with
  | AbortsAt _ => true
  | _ => false
  end.

Definition transaction_control (s : Statement) : bool :=
  match s with
  | BEGIN_TRANSACTION | COMMIT_TRANSACTION => true
  | _ => false
  end.

Definition first_recordset (a b : Recordset) : Recordset :=
  match a with
  | NoRecordset => b
  | _ => a
  end.

Definition RequestError : Error := mkError "database request failed".

Fixpoint run_batch (now : Z) (f : Fate) (k : nat) (batch : list Statement)
         (committed : Tables) (open : option Tables) (acc : QueryResult)
         (failed : bool)
  : Completion QueryResult * Tables :=
  match batch with
  | [] => (if failed then Throws RequestError else Returns acc, committed)
  | s :: rest =>
      if fails_here f k
      then if cut_short f || transaction_control s
           then (Throws RequestError, committed)
           else run_batch now f (S k) rest committed open acc true
      else
        let current := match open with Some t => t | None => committed end in
        match s with
        | BEGIN_TRANSACTION =>
            run_batch now f (S k) rest committed (Some current) acc failed
        | COMMIT_TRANSACTION =>
            run_batch now f (S k) rest current None acc failed
        | _ =>
            let '(t', rs, n) := exec_statement now s current in
            let acc' := {| recordset := first_recordset (recordset acc) rs;
                           rowsAffected := rowsAffected acc ++ [n] |} in
            match open with
            | Some _ => run_batch now f (S k) rest committed (Some t') acc' failed
            | None => run_batch now f (S k) rest t' None acc' failed
            end
        end
  end.

(** *** The world the services run in *)

(** What happens around the next request to the database: the time that
    has passed since the previous one, and whether it fails. *)
Record Tick := {
  elapsed : N;
  fate : Fate
}.

Record World := {
  store : Tables;             (* the persisted tables *)
  clock : Z;                  (* the current instant *)
  uuid_counter : nat;         (* source of fresh identifiers *)
  script : list Tick          (* the requests to come *)
}.

(** Asynchronous service code: a transformer of the world that returns or
    throws. *)
Definition M (A : Type) : Type := World -> Completion A * World.

Definition ret {A} (a : A) : M A := fun w => (Returns a, w).

Definition throw {A} (e : Error) : M A := fun w => (Throws e, w).

Definition bind {A B} (m : M A) (k : A -> M B) : M B :=
  fun w => match m w with
           | (Returns a, w') => k a w'
           | (Throws e, w') => (Throws e, w')
           end.

(** [try { body } catch (error) { handler }] *)
Definition try_catch {A} (body : M A) (handler : Error -> M A) : M A :=
  fun w => match body w with
           | (Returns a, w') => (Returns a, w')
           | (Throws e, w') => handler e w'
           end.

(** [new Date()], [Date.now()] *)
Definition Date_now : M Z := fun w => (Returns (clock w), w).

Definition hex_digit (n : nat) : ascii :=
  match n with
  | 0%nat => "0" | 1%nat => "1" | 2%nat => "2" | 3%nat => "3"
  | 4%nat => "4" | 5%nat => "5" | 6%nat => "6" | 7%nat => "7"
  | 8%nat => "8" | 9%nat => "9" | 10%nat => "a" | 11%nat => "b"
  | 12%nat => "c" | 13%nat => "d" | 14%nat => "e" | _ => "f"
  end%char.

Fixpoint hex (width n : nat) (suffix : string) : string :=
  match width with
  | O => suffix
  | S w => hex w (Nat.div n 16) (String (hex_digit (Nat.modulo n 16)) suffix)
  end.

(** [uuidv4()]: identifiers are drawn from a counter. *)
Definition uuid_of (n : nat) : string :=
  ("00000000-0000-4000-8000-" ++ hex 12 n "")%string.

Definition after_uuid (w : World) : World :=
  {| store := store w; clock := clock w;
     uuid_counter := S (uuid_counter w); script := script w |}.

Definition uuidv4 : M string :=
  fun w => (Returns (uuid_of (uuid_counter w)), after_uuid w).

Definition next_tick (w : World) : Tick :=
  match script w with
  | [] => {| elapsed := 0; fate := Completes |}
  | t :: _ => t
  end.

(** The instant at which the next request reaches the engine. *)
Definition request_time (w : World) : Z :=
  clock w + Z.of_N (elapsed (next_tick w)).

Definition after_request (w : World) (tables : Tables) : World :=
  {| store := tables; clock := request_time w;
     uuid_counter := uuid_counter w; script := tl (script w) |}.

(** [executeQuery(query, params, operation)]: connects if needed, binds
    the parameters, sends the batch and returns the driver's result; any
    failure, the engine's refusal of the batch included, is thrown again
    to the caller. *)
Definition executeQuery (query : list Statement) : M QueryResult :=
  fun w =>
    if forallb compiles query
    then
      let '(outcome, tables) :=
        run_batch (request_time w) (fate (next_tick w)) 0 query (store w) None
          {| recordset := NoRecordset; rowsAffected := [] |} false in
      (outcome, after_request w tables)
    else (Throws RequestError, after_request w (store w)).

End Database.

Declare Scope service_scope.
Delimit Scope service_scope with service.
Notation "x <- m ;; k" := (Database.bind m (fun x => k))
  (at level 61, m at next level, right associativity) : service_scope.

(* ===================================================================== *)
(** ** src/services/conversationManager.js *)
(* ===================================================================== *)

Module Conversation.
Record t := {
  conversationId : string;
  userId : option string;     (* absent in the listing of a user *)
  createdAt : Z;
  updatedAt : option Z;       (* absent in what createConversation returns *)
  status : string;
  metadata : Json;
  messageCount : Z
}.
End Conversation.

Module Message.
Record t := {
  messageId : string;
  conversationId : option string;   (* not selected by the history query *)
  role : string;
  content : string;
  createdAt : Z;
  metadata : Json;
  tokenCount : Z
}.
End Message.

(** An entry of the context handed to the response generator. *)
Module Turn.
Record t := {
  role : string;
  content : Value
}.
End Turn.

Module ConversationManager.
Import Database.
Local Open Scope service_scope.

(** The fields set by the constructor. *)
Record t := {
  maxConversationLength : Z;
  dataRetentionDays : Z
}.

Definition constructor (env : AiConfig.Env) : t :=
  {| maxConversationLength :=
       parseInt_or (AiConfig.AI_CONVERSATION_MEMORY_LIMIT env) 20;
     dataRetentionDays := parseInt_or (AiConfig.DATA_RETENTION_DAYS env) 90 |}.

Definition estimateTokenCount (text : string) : Z :=
  Math_ceil (inject_Z (str_length text) / inject_Z 4)%Q.

Definition createConversation (userId : option string) (metadata : Json)
  : M Conversation.t :=
  conversationId <- uuidv4 ;;
  try_catch
    (_ <- executeQuery
            [ insert_conversation conversationId
                (string_or userId "anonymous") metadata ] ;;
     now <- Date_now ;;
     ret {| Conversation.conversationId := conversationId;
            Conversation.userId := Some (string_or userId "anonymous");
            Conversation.status := "active";
            Conversation.createdAt := now;
            Conversation.updatedAt := None;
            Conversation.metadata := metadata;
            Conversation.messageCount := 0 |})
    (fun error => throw error).

Definition conversation_of_row (conversation : ConversationRow) : Conversation.t :=
  {| Conversation.conversationId := conversation_id conversation;
     Conversation.userId := Some (user_id conversation);
     Conversation.createdAt := created_at conversation;
     Conversation.updatedAt := Some (updated_at conversation);
     Conversation.status := status conversation;
     Conversation.metadata := metadata conversation;
     Conversation.messageCount := message_count conversation |}.

Definition getConversation (conversationId : string)
  : M (option Conversation.t) :=
  try_catch
    (result <- executeQuery [ select_conversation conversationId ] ;;
     match recordset result with
     | ConversationRecords (conversation :: _) =>
         ret (Some (conversation_of_row conversation))
     | _ => ret None
     end)
    (fun error => throw error).

Definition addMessage (conversationId role content : string) (metadata : Json)
  : M Message.t :=
  messageId <- uuidv4 ;;
  try_catch
    (let tokenCount := estimateTokenCount content in
     let query :=
       [ BEGIN_TRANSACTION;
         insert_message messageId conversationId role content metadata tokenCount;
         update_message_count conversationId;
         COMMIT_TRANSACTION ] in
     _ <- executeQuery query ;;
     now <- Date_now ;;
     ret {| Message.messageId := messageId;
            Message.conversationId := Some conversationId;
            Message.role := role;
            Message.content := content;
            Message.createdAt := now;
            Message.metadata := metadata;
            Message.tokenCount := tokenCount |})
    (fun error => throw error).

Definition message_of_row (msg : MessageRow) : Message.t :=
  {| Message.messageId := message_id msg;
     Message.conversationId := None;
     Message.role := Database.role msg;
     Message.content := Database.content msg;
     Message.createdAt := m_created_at msg;
     Message.metadata := m_metadata msg;
     Message.tokenCount := token_count msg |}.

(** [limit || this.maxConversationLength] *)
Definition messageLimit (this : t) (limit : option Z) : Z :=
  match limit with
  | Some n => if n =? 0 then maxConversationLength this else n
  | None => maxConversationLength this
  end.

Definition getConversationHistory (this : t) (conversationId : string)
           (limit : option Z) (offset : Z) : M (list Message.t) :=
  try_catch
    (result <- executeQuery
                 [ select_history conversationId (messageLimit this limit) offset ] ;;
     match recordset result with
     | MessageRecords rows => ret (rev (map message_of_row rows))
     | _ => throw (mkError "Cannot read properties of undefined (reading 'map')")
     end)
    (fun error => throw error).

Definition buildConversationContext (this : t) (cfg : AiConfig.AI_CONFIG_t)
           (conversationId : string) (includeSystemPrompt : bool)
  : M (list Turn.t) :=
  try_catch
    (messages <- getConversationHistory this conversationId None 0 ;;
     let context :=
       if includeSystemPrompt
       then [ {| Turn.role := "system";
                 Turn.content :=
                   text_value
                     (AiConfig.getSystemPrompt cfg AiConfig.type_conversation None) |} ]
       else [] in
     ret (context ++
          map (fun msg => {| Turn.role := Message.role msg;
                             Turn.content := Str (Message.content msg) |})
              messages)%list)
    (fun error => throw error).

(** [if (metadata)]: the clause [metadata = @metadata] is added for a
    truthy value only. *)
Definition given_metadata (metadata : option Json) : option Json :=
  match metadata with
  | Some m => if truthy_json m then Some m else None
  | None => None
  end.

Definition updateConversationStatus (conversationId status : string)
           (metadata : option Json) : M unit :=
  try_catch
    (result <- executeQuery
                 [ update_status conversationId status (given_metadata metadata) ] ;;
     match rowsAffected result with
     | n :: _ => if n =? 0 then throw (mkError "Conversation not found")
                 else ret tt
     | [] => ret tt
     end)
    (fun error => throw error).

Definition summary_of_row (conv : ConversationRow) : Conversation.t :=
  {| Conversation.conversationId := conversation_id conv;
     Conversation.userId := None;
     Conversation.createdAt := created_at conv;
     Conversation.updatedAt := Some (updated_at conv);
     Conversation.status := status conv;
     Conversation.metadata := metadata conv;
     Conversation.messageCount := message_count conv |}.

Definition getUserConversations (userId : string) (limit offset : Z)
  : M (list Conversation.t) :=
  try_catch
    (result <- executeQuery [ select_user_conversations userId limit offset ] ;;
     match recordset result with
     | ConversationRecords rows => ret (map summary_of_row rows)
     | _ => throw (mkError "Cannot read properties of undefined (reading 'map')")
     end)
    (fun error => throw error).

(** [cutoffDate.setDate(cutoffDate.getDate() - this.dataRetentionDays)]:
    the retention is counted in calendar days of the time zone the
    process runs in. *)
Definition cutoff (zone : TimeZone) (this : t) (now : Z) : Z :=
  setDate_days_back zone now (dataRetentionDays this).

Definition cleanupOldConversations (zone : TimeZone) (this : t) : M Z :=
  try_catch
    (now <- Date_now ;;
     let cutoffDate := cutoff zone this now in
     result <- executeQuery [ update_cleanup cutoffDate ] ;;
     ret (hd 0 (rowsAffected result)))
    (fun error => throw error).

End ConversationManager.

(* ===================================================================== *)
(** ** src/services/aiService.js *)
(* ===================================================================== *)

Module AIService.
Import Database.
Local Open Scope service_scope.

(** The service object: its conversation manager and the configuration
    constants it reads. The request counter and start time, which only
    feed [getServiceStats], are left out. *)
Record t := {
  conversationManager : ConversationManager.t;
  AI_CONFIG : AiConfig.AI_CONFIG_t
}.

Definition constructor (env : AiConfig.Env) : t :=
  {| conversationManager := ConversationManager.constructor env;
     AI_CONFIG := AiConfig.AI_CONFIG env |}.

Definition estimateTokenCount (text : string) : Z :=
  Math_ceil (inject_Z (str_length text) / inject_Z 4)%Q.

(** The canned paragraphs of [simulateAIResponse]. *)
Definition property_paragraph : string :=
  "I'd be happy to help you with your property search! To provide you with the best recommendations, I'd like to know more about what you're looking for. What type of property interests you - residential, commercial, or investment? Also, do you have a preferred location or price range in mind?".

Definition pricing_paragraph : string :=
  "Market analysis is one of my specialties! Property values can vary significantly based on location, property type, and current market conditions. To give you accurate pricing information, could you tell me the specific area you're interested in? I can provide recent sales data and market trends for that location.".

Definition scheduling_paragraph : string :=
  "I can absolutely help you schedule property viewings! I work with a network of experienced real estate agents who can arrange showings at your convenience. What properties are you interested in viewing, and what days/times work best for you?".

Definition agent_paragraph : string :=
  "I'd be pleased to connect you with one of our qualified real estate agents! Our agents specialize in different areas and property types. What type of real estate services do you need, and what's your preferred location? This will help me match you with the most suitable agent.".

Definition generic_greeting : string :=
  "Hello! I'm Rachel, your real estate assistant. I'm here to help you with property searches, market analysis, scheduling viewings, and connecting you with the right real estate professionals. What can I assist you with today?".

(** The chain of tests on [userMessage], once it is known to be a string. *)
Definition canned_response (userMessage : string) : string :=
  if includes (toLowerCase userMessage) "property"
     || includes (toLowerCase userMessage) "house"
  then property_paragraph
  else if includes (toLowerCase userMessage) "price"
          || includes (toLowerCase userMessage) "market"
  then pricing_paragraph
  else if includes (toLowerCase userMessage) "schedule"
          || includes (toLowerCase userMessage) "viewing"
  then scheduling_paragraph
  else if includes (toLowerCase userMessage) "agent"
          || includes (toLowerCase userMessage) "realtor"
  then agent_paragraph
  else generic_greeting.

(** [conversationContext[conversationContext.length - 1]?.content || ''] *)
Definition latest_content (conversationContext : list Turn.t) : Value :=
  or_else
    (match rev conversationContext with
     | [] => Undefined
     | last :: _ => Turn.content last
     end)
    (Str "").

(** [simulateAIResponse(conversationContext, context)]. A context that is
    [null] or [undefined] is [None]; reading its length throws, and so
    does calling [toLowerCase] on a value that is not a string. *)
Definition simulateAIResponse (conversationContext : option (list Turn.t))
  : M string :=
  match conversationContext with
  | None => throw (mkError "Cannot read properties of null (reading 'length')")
  | Some turns =>
      match latest_content turns with
      | Str userMessage => ret (canned_response userMessage)
      | _ => throw (mkError "userMessage.toLowerCase is not a function")
      end
  end.

(** The content is [undefined] ([None]) when the error prompt is. *)
Module AIResponse.
Record t := {
  content : option string;
  responseTime : Z;
  tokenCount : Z;
  model : string;
  error : bool
}.
End AIResponse.

Definition generateAIResponse (this : t)
           (conversationContext : option (list Turn.t)) : M AIResponse.t :=
  startTime <- Date_now ;;
  try_catch
    (response <- simulateAIResponse conversationContext ;;
     now <- Date_now ;;
     let responseTime := now - startTime in
     let tokenCount := estimateTokenCount response in
     ret {| AIResponse.content := Some response;
            AIResponse.responseTime := responseTime;
            AIResponse.tokenCount := tokenCount;
            AIResponse.model := AiConfig.model (AI_CONFIG this);
            AIResponse.error := false |})
    (fun error =>
       now <- Date_now ;;
       ret {| AIResponse.content :=
                AiConfig.getSystemPrompt (AI_CONFIG this) AiConfig.type_error None;
              AIResponse.responseTime := now - startTime;
              AIResponse.tokenCount := 100;
              AIResponse.model := AiConfig.model (AI_CONFIG this);
              AIResponse.error := true |}).

Module ChatMetadata.
Record t := {
  model : string;
  responseTime : Z;
  tokenCount : Z;
  messageCount : Z
}.
End ChatMetadata.

Module ChatResult.
Record t := {
  conversationId : string;
  response : string;
  metadata : ChatMetadata.t
}.
End ChatResult.

(** [if (conversationId)]: [null], [undefined] and the empty string take
    the else branch. *)
Definition given (conversationId : option string) : option string :=
  match conversationId with
  | Some id => if String.eqb id "" then None else Some id
  | None => None
  end.

Definition processChatMessage (this : t) (message : string)
           (conversationId userId : option string) (context : Json)
  : M ChatResult.t :=
  try_catch
    (opened <-
       match given conversationId with
       | Some conversationId =>
           conversation <- ConversationManager.getConversation conversationId ;;
           match conversation with
           | None => throw (mkError "Conversation not found")
           | Some conversation =>
               conversationContext <-
                 ConversationManager.buildConversationContext
                   (conversationManager this) (AI_CONFIG this) conversationId true ;;
               ret (conversation, conversationId, conversationContext)
           end
       | None =>
           conversation <- ConversationManager.createConversation userId context ;;
           ret (conversation, Conversation.conversationId conversation,
                [ {| Turn.role := "system";
                     Turn.content :=
                       text_value
                         (AiConfig.getSystemPrompt (AI_CONFIG this)
                            AiConfig.type_base None) |} ])
       end ;;
     let '(conversation, conversationId, conversationContext) := opened in
     now <- Date_now ;;
     _ <- ConversationManager.addMessage conversationId "user" message
            (JObject [ ("context", context); ("timestamp", JInstant now) ]) ;;
     let conversationContext :=
       (conversationContext
          ++ [ {| Turn.role := "user"; Turn.content := Str message |} ])%list in
     aiResponse <- generateAIResponse this (Some conversationContext) ;;
     match AIResponse.content aiResponse with
     | None =>
         (* addMessage draws its identifier, then fails on [content.length] *)
         _ <- uuidv4 ;;
         throw (mkError "Cannot read properties of undefined (reading 'length')")
     | Some response =>
         _ <- ConversationManager.addMessage conversationId "assistant" response
                (JObject
                   [ ("model", JString (AiConfig.model (AI_CONFIG this)));
                     ("temperature",
                      JNumber (AiConfig.temperature (AI_CONFIG this)));
                     ("responseTime",
                      JNumber (inject_Z (AIResponse.responseTime aiResponse)));
                     ("tokenCount",
                      JNumber (inject_Z (AIResponse.tokenCount aiResponse))) ]) ;;
         ret {| ChatResult.conversationId := conversationId;
                ChatResult.response := response;
                ChatResult.metadata :=
                  {| ChatMetadata.model := AiConfig.model (AI_CONFIG this);
                     ChatMetadata.responseTime := AIResponse.responseTime aiResponse;
                     ChatMetadata.tokenCount := AIResponse.tokenCount aiResponse;
                     ChatMetadata.messageCount :=
                       Conversation.messageCount conversation + 2 |} |}
     end)
    (fun error => throw error).

End AIService.

(* ===================================================================== *)
(** ** src/services/brokerService.js *)
(* ===================================================================== *)

Module BrokerService.
Import Database.
Local Open Scope service_scope.

Module PriceStatistics.
Record t := {
  average : Z;
  minimum : option Z;
  maximum : option Z;
  pricePerSquareFoot : option Z
}.
End PriceStatistics.

Module MarketActivity.
Record t := {
  averageDaysOnMarket : Z;
  soldProperties : Z;
  activeListings : Z;
  absorptionRate : Z
}.
End MarketActivity.

Module MarketAnalysis.
Record t := {
  location : string;
  propertyType : string;
  totalListings : Z;
  priceStatistics : PriceStatistics.t;
  marketActivity : MarketActivity.t;
  averageSquareFootage : Z;
  analysisDate : Z;
  dataRange : string
}.
End MarketAnalysis.

(** A nullable numeric column as the driver hands it over, read as a
    Number: the double nearest to the value, and [null] counts as 0. *)
Definition to_number (x : option Q) : Q :=
  match x with
  | Some q => to_double q
  | None => 0
  end.

(** [x > 0] on a nullable column. *)
Definition positive (x : option Q) : bool :=
  match Qcompare (to_number x) 0 with
  | Gt => true
  | _ => false
  end.

Definition getMarketAnalysis (location : string) (propertyType : option string)
  : M MarketAnalysis.t :=
  let propertyType := match propertyType with
                      | Some p => p
                      | None => "residential"
                      end in
  try_catch
    (result <- executeQuery [ select_market_analysis location propertyType ] ;;
     match recordset result with
     | MarketRecords (data :: _) =>
         now <- Date_now ;;
         ret {| MarketAnalysis.location := location;
                MarketAnalysis.propertyType := propertyType;
                MarketAnalysis.totalListings := total_listings data;
                MarketAnalysis.priceStatistics :=
                  {| PriceStatistics.average :=
                       Math_round (to_number (avg_price data));
                     PriceStatistics.minimum := min_price data;
                     PriceStatistics.maximum := max_price data;
                     PriceStatistics.pricePerSquareFoot :=
                       if positive (avg_square_footage data)
                       then Some (Math_round
                                    (Number_divide
                                       (to_number (avg_price data))
                                       (to_number (avg_square_footage data))))
                       else None |};
                MarketAnalysis.marketActivity :=
                  {| MarketActivity.averageDaysOnMarket :=
                       Math_round (to_number
                                     (option_map inject_Z (avg_days_on_market data)));
                     MarketActivity.soldProperties := sold_count data;
                     MarketActivity.activeListings := active_count data;
                     MarketActivity.absorptionRate :=
                       if 0 <? total_listings data
                       then Math_round
                              (Number_multiply
                                 (Number_divide
                                    (inject_Z (sold_count data))
                                    (inject_Z (total_listings data)))
                                 (inject_Z 100))
                       else 0 |};
                MarketAnalysis.averageSquareFootage :=
                  Math_round (to_number (avg_square_footage data));
                MarketAnalysis.analysisDate := now;
                MarketAnalysis.dataRange := "Last 6 months" |}
     | _ => throw (mkError "No market data found for the specified location")
     end)
    (fun error => throw error).

End BrokerService.

(* ===================================================================== *)
(** ** Views of the persisted tables and scenarios *)
(* ===================================================================== *)

Module Persisted.
Import Database.

(** The messages of a conversation, in the order of their insertion. *)
Definition messages (conversationId : string) (t : Tables) : list MessageRow :=
  filter (is_message_of conversationId) (Messages t).

(** All rows that carry the identifier, soft-deleted or not. *)
Definition rows (conversationId : string) (t : Tables) : list ConversationRow :=
  filter (is_conversation conversationId) (Conversations t).

(** The row [getConversation] reads: the first one that is not
    soft-deleted. *)
Definition visible (conversationId : string) (t : Tables) : option ConversationRow :=
  hd_error (filter (visible_conversation conversationId) (Conversations t)).

(** No row of either table refers to the identifier. *)
Definition unused (conversationId : string) (t : Tables) : Prop :=
  rows conversationId t = [] /\ messages conversationId t = [].

(** The next request to the database, a batch of [n] statements that
    the engine accepts, fails. *)
Definition request_fails (w : World) (n : nat) : bool :=
  match fate (next_tick w) with
  | Completes => false
  | FailsAt k | AbortsAt k => Nat.ltb k n
  end.

(** The effect of the add-message batch at instant [now]. *)
Definition message_row (now : Z) (messageId conversationId role content : string)
           (metadata : Json) : MessageRow :=
  {| message_id := messageId; m_conversation_id := conversationId;
     Database.role := role; Database.content := content; m_created_at := now;
     m_metadata := metadata;
     token_count := ConversationManager.estimateTokenCount content |}.

Definition with_message (now : Z) (row : MessageRow) (t : Tables) : Tables :=
  {| Conversations :=
       update_where (is_conversation (m_conversation_id row))
         (bump_message_count now) (Conversations t);
     Messages := Messages t ++ [row];
     Properties := Properties t |}.

(** What an add-message batch leaves behind when its request fails: the
    counter without the message when the INSERT raised the error, the
    message without the counter when the UPDATE did, nothing otherwise. *)
Definition torn_message (f : Fate) (now : Z) (row : MessageRow) (t : Tables)
  : Tables :=
  match f with
  | FailsAt 1 =>
      with_conversations t
        (update_where (is_conversation (m_conversation_id row))
           (bump_message_count now) (Conversations t))
  | FailsAt 2 => with_messages t (Messages t ++ [row])
  | _ => t
  end.

(** What identifies a message for a client: everything but the two
    fields that differ between what [addMessage] returns and what is read
    back from a stored row (the conversation identifier, which the
    history query does not select, and the creation instant, read from
    two clocks). *)
Definition payload (m : Message.t) : string * string * string * Json * Z :=
  (Message.messageId m, Message.role m, Message.content m,
   Message.metadata m, Message.tokenCount m).

End Persisted.

Module Scenario.
Import Database.

(** The arguments of one [addMessage] call. *)
Record AddCall := {
  call_role : string;
  call_content : string;
  call_metadata : Json
}.

(** A series of [addMessage] calls on one conversation, each awaited
    before the next, with nothing else writing in between; the outcome of
    every call is kept. *)
Fixpoint addMessages (conversationId : string) (calls : list AddCall) (w : World)
  : list (Completion Message.t) * World :=
  match calls with
  | [] => ([], w)
  | c :: rest =>
      let '(outcome, w1) :=
        ConversationManager.addMessage conversationId
          (call_role c) (call_content c) (call_metadata c) w in
      let '(outcomes, w2) := addMessages conversationId rest w1 in
      (outcome :: outcomes, w2)
  end.

(** Every request to come completes. *)
Definition calm (w : World) : Prop :=
  Forall (fun t => fate t = Completes) (script w).

Fixpoint returned {A : Type} (outcomes : list (Completion A)) : list A :=
  match outcomes with
  | [] => []
  | Returns a :: rest => a :: returned rest
  | Throws _ :: rest => returned rest
  end.

End Scenario.

(* ===================================================================== *)
(** ** Concrete configurations and worlds *)
(* ===================================================================== *)

Module Examples.
Import Database Scenario.

(** No variable of the environment is set: every default applies. *)
Definition env : AiConfig.Env :=
  {| AiConfig.AI_MODEL := None;
     AiConfig.AI_TEMPERATURE := None;
     AiConfig.AI_SYSTEM_PROMPT_VERSION := None;
     AiConfig.AI_CONVERSATION_MEMORY_LIMIT := None;
     AiConfig.DATA_RETENTION_DAYS := None |}.

Definition manager : ConversationManager.t := ConversationManager.constructor env.
Definition service : AIService.t := AIService.constructor env.

Definition tick (ms : N) : Tick := {| elapsed := ms; fate := Completes |}.
Definition failing_tick (ms : N) (k : nat) : Tick :=
  {| elapsed := ms; fate := FailsAt k |}.

(** An empty database at some instant; every request completes, 5 ms
    after the previous one. *)
Definition quiet : World :=
  {| store := empty; clock := 1700000000000; uuid_counter := 0;
     script := repeat (tick 5) 12 |}.

(** As [quiet], but the third request (the second [addMessage] batch
    after a [createConversation]) fails at its UPDATE statement. *)
Definition flaky : World :=
  {| store := empty; clock := 1700000000000; uuid_counter := 0;
     script := [ tick 5; tick 5; failing_tick 5 2; tick 5; tick 5; tick 5 ] |}.

Definition three_calls : list AddCall :=
  [ {| call_role := "user"; call_content := "I need a house";
       call_metadata := JNull |};
    {| call_role := "assistant"; call_content := "lost";
       call_metadata := JNull |};
    {| call_role := "user"; call_content := "what about price";
       call_metadata := JNull |} ].

Definition value_of {A : Type} (dflt : A) (outcome : Completion A) : A :=
  match outcome with
  | Returns a => a
  | Throws _ => dflt
  end.

Definition no_chat_result : AIService.ChatResult.t :=
  {| AIService.ChatResult.conversationId := "";
     AIService.ChatResult.response := "";
     AIService.ChatResult.metadata :=
       {| AIService.ChatMetadata.model := "";
          AIService.ChatMetadata.responseTime := 0;
          AIService.ChatMetadata.tokenCount := 0;
          AIService.ChatMetadata.messageCount := 0 |} |}.

(** A first exchange that opens a conversation in [quiet], and a second
    one on the identifier the first returned. *)
Definition first_chat : Completion AIService.ChatResult.t * World :=
  AIService.processChatMessage service "I need a house" None (Some "u1")
    (JObject []) quiet.

Definition second_chat : Completion AIService.ChatResult.t * World :=
  AIService.processChatMessage service "what about price"
    (Some (AIService.ChatResult.conversationId
             (value_of no_chat_result (fst first_chat))))
    (Some "u1") (JObject []) (snd first_chat).

(** An exchange about prices that opens a conversation of its own. *)
Definition price_chat : Completion AIService.ChatResult.t * World :=
  AIService.processChatMessage service "what about price" None (Some "u1")
    (JObject []) quiet.

(** A service configured with a prompt version that is no version but a
    name every object inherits. *)
Definition odd_env : AiConfig.Env :=
  {| AiConfig.AI_MODEL := None;
     AiConfig.AI_TEMPERATURE := None;
     AiConfig.AI_SYSTEM_PROMPT_VERSION := Some "constructor";
     AiConfig.AI_CONVERSATION_MEMORY_LIMIT := None;
     AiConfig.DATA_RETENTION_DAYS := None |}.

Definition odd_service : AIService.t := AIService.constructor odd_env.

(** Two conversations, created 91 and 89 days before the current
    instant, and one that was soft-deleted long ago. *)
Definition today : Z := 1700000000000.

(** A zone four hours behind UTC in summer and five in winter, with the
    clocks set back at 1699164000000 (02:00 local summer time); a local
    time met twice is read as the first of the two. *)
Definition eastern : TimeZone :=
  {| offset_at_utc :=
       fun t => if t <? 1699164000000 then -14400000 else -18000000;
     offset_at_local :=
       fun l => if l <? 1699164000000 - 14400000 then -14400000 else -18000000 |}.

Definition conversation_row (id : string) (age_days : Z) (st : string)
  : ConversationRow :=
  {| conversation_id := id; user_id := "u1";
     created_at := today - age_days * msPerDay;
     updated_at := today - age_days * msPerDay;
     status := st; metadata := JObject []; message_count := 3 |}.

Definition aged : World :=
  {| store :=
       {| Conversations := [ conversation_row "old" 91 "active";
                             conversation_row "recent" 89 "active";
                             conversation_row "gone" 400 "deleted" ];
          Messages := []; Properties := [] |};
     clock := today; uuid_counter := 7; script := [ tick 5; tick 5; tick 5 ] |}.

(** A market with one recent listing, in Dallas. *)
Definition dallas_listing : PropertyRow :=
  {| city := "Dallas"; state := "TX"; zip_code := "75201";
     property_type := "residential"; listing_price := 450000;
     listing_date := today - 30 * msPerDay; p_status := "active";
     sold_date := None; square_footage := 1800 |}.

Definition market : World :=
  {| store := {| Conversations := []; Messages := [];
                 Properties := [ dallas_listing ] |};
     clock := today; uuid_counter := 0; script := [ tick 5; tick 5 ] |}.

(** The analysis of nothing. *)
Definition empty_analysis (location propertyType : string) (now : Z)
  : BrokerService.MarketAnalysis.t :=
  {| BrokerService.MarketAnalysis.location := location;
     BrokerService.MarketAnalysis.propertyType := propertyType;
     BrokerService.MarketAnalysis.totalListings := 0;
     BrokerService.MarketAnalysis.priceStatistics :=
       {| BrokerService.PriceStatistics.average := 0;
          BrokerService.PriceStatistics.minimum := None;
          BrokerService.PriceStatistics.maximum := None;
          BrokerService.PriceStatistics.pricePerSquareFoot := None |};
     BrokerService.MarketAnalysis.marketActivity :=
       {| BrokerService.MarketActivity.averageDaysOnMarket := 0;
          BrokerService.MarketActivity.soldProperties := 0;
          BrokerService.MarketActivity.activeListings := 0;
          BrokerService.MarketActivity.absorptionRate := 0 |};
     BrokerService.MarketAnalysis.averageSquareFootage := 0;
     BrokerService.MarketAnalysis.analysisDate := now;
     BrokerService.MarketAnalysis.dataRange := "Last 6 months" |}.

(** A conversation created in [flaky], then [three_calls] on it. *)
Definition after_create : Completion Conversation.t * World :=
  ConversationManager.createConversation (Some "u1") JNull flaky.

Definition first_id : string := uuid_of 0.

Definition created : Conversation.t :=
  {| Conversation.conversationId := first_id;
     Conversation.userId := Some "u1";
     Conversation.createdAt := 1700000000005;
     Conversation.updatedAt := None;
     Conversation.status := "active";
     Conversation.metadata := JNull;
     Conversation.messageCount := 0 |}.

Definition after_calls : list (Completion Message.t) * World :=
  addMessages first_id three_calls (snd after_create).

End Examples.

(* ===================================================================== *)
(** ** Voice settings: src/config/aiConfig.js and AIService *)
(* ===================================================================== *)

Module Voice.

(** A voice-settings object. A key that is absent (or [undefined]) is
    [None]; the numeric values are the ones the route validators let
    through, numbers. *)
Record Settings := {
  stability : option Q;
  similarityBoost : option Q;
  style : option Q;
  useSpeakerBoost : option bool
}.

(** The part of [process.env] read by [ELEVENLABS_CONFIG]; numeric
    variables as [parseFloat] reads them ([None] when unset or not a
    number). *)
Record Env := {
  ELEVENLABS_API_KEY : option string;
  ELEVENLABS_VOICE_ID : option string;
  ELEVENLABS_STABILITY : option Q;
  ELEVENLABS_SIMILARITY_BOOST : option Q;
  ELEVENLABS_STYLE : option Q;
  ELEVENLABS_USE_SPEAKER_BOOST : option string;
  AI_MAX_TOKENS : option Z
}.

(** [parseFloat(process.env.X) || dflt] *)
Definition parseFloat_or (env : option Q) (dflt : Q) : Q :=
  match env with
  | Some q => if Qeq_bool q 0 then dflt else q
  | None => dflt
  end.

(** [ELEVENLABS_CONFIG.defaultSettings] *)
Definition defaultSettings (env : Env) : Settings :=
  {| stability := Some (parseFloat_or (ELEVENLABS_STABILITY env) (75 # 100));
     similarityBoost :=
       Some (parseFloat_or (ELEVENLABS_SIMILARITY_BOOST env) (75 # 100));
     style := Some (parseFloat_or (ELEVENLABS_STYLE env) 0);
     useSpeakerBoost :=
       Some (match ELEVENLABS_USE_SPEAKER_BOOST env with
             | Some v => String.eqb v "true"
             | None => false
             end) |}.

(** The own keys of [VOICE_CONFIG.qualitySettings]. *)
Definition preset (st sb sy : Q) : Settings :=
  {| stability := Some st; similarityBoost := Some sb; style := Some sy;
     useSpeakerBoost := None |}.

Definition qualitySettings : list (string * Settings) :=
  [ ("high", preset (8 # 10) (8 # 10) (2 # 10));
    ("medium", preset (75 # 100) (75 # 100) 0);
    ("fast", preset (7 # 10) (7 # 10) 0) ].

Definition or_field {A : Type} (over under : option A) : option A :=
  match over with
  | Some v => Some v
  | None => under
  end.

(** [{ ...under, ...over }] for two objects without keys set to
    [undefined]. *)
Definition spread (under over : Settings) : Settings :=
  {| stability := or_field (stability over) (stability under);
     similarityBoost := or_field (similarityBoost over) (similarityBoost under);
     style := or_field (style over) (style under);
     useSpeakerBoost := or_field (useSpeakerBoost over) (useSpeakerBoost under) |}.

Definition no_settings : Settings :=
  {| stability := None; similarityBoost := None; style := None;
     useSpeakerBoost := None |}.

(** A key of the custom settings: absent, or present with a value that
    may be [undefined]. A key that is present wins in a spread whatever
    its value. *)
Inductive Key (A : Type) :=
| Absent
| Present (value : option A).
Arguments Absent {A}.
Arguments Present {A} value.

Record CustomSettings := {
  custom_stability : Key Q;
  custom_similarityBoost : Key Q;
  custom_style : Key Q;
  custom_useSpeakerBoost : Key bool
}.

Definition no_custom : CustomSettings :=
  {| custom_stability := Absent; custom_similarityBoost := Absent;
     custom_style := Absent; custom_useSpeakerBoost := Absent |}.

Definition override {A : Type} (over : Key A) (under : option A) : option A :=
  match over with
  | Present v => v
  | Absent => under
  end.

(** [{ ...under, ...customSettings }] *)
Definition spread_custom (under : Settings) (over : CustomSettings) : Settings :=
  {| stability := override (custom_stability over) (stability under);
     similarityBoost :=
       override (custom_similarityBoost over) (similarityBoost under);
     style := override (custom_style over) (style under);
     useSpeakerBoost :=
       override (custom_useSpeakerBoost over) (useSpeakerBoost under) |}.

(** What a reader of the custom settings sees. *)
Definition seen (custom : CustomSettings) : Settings :=
  spread_custom no_settings custom.

(** [VOICE_CONFIG.qualitySettings[quality] ||
    VOICE_CONFIG.qualitySettings.medium]: a quality that names something
    inherited from [Object.prototype] is truthy and spreads to nothing. *)
Definition baseSettings (quality : string) : Settings :=
  match get qualitySettings quality with
  | Own s => s
  | Inherited => no_settings
  | Missing => match own_property qualitySettings "medium" with
               | Some s => s
               | None => no_settings
               end
  end.

(** [getVoiceSettings(quality = 'medium', customSettings = {})]; custom
    settings that are [null] spread to nothing, as absent ones do. *)
Definition getVoiceSettings (env : Env) (quality : option string)
           (customSettings : option CustomSettings) : Settings :=
  let quality := match quality with Some q => q | None => "medium" end in
  let customSettings := match customSettings with
                        | Some c => c
                        | None => no_custom
                        end in
  spread_custom (spread (defaultSettings env) (baseSettings quality))
    customSettings.

(** [value !== undefined && (value < 0 || value > 1)] *)
Definition out_of_unit_range (value : option Q) : bool :=
  match value with
  | None => false
  | Some q => match Qcompare q 0 with
              | Lt => true
              | _ => match Qcompare q 1 with
                     | Gt => true
                     | _ => false
                     end
              end
  end.

(** A field that is set lies between 0 and 1. *)
Definition within_unit_range (value : option Q) : Prop :=
  match value with
  | None => True
  | Some q => (0 <= q /\ q <= 1)%Q
  end.

(** [AIService.validateVoiceSettings(settings)] *)
Definition validateVoiceSettings (settings : Settings) : list string :=
  (if out_of_unit_range (stability settings)
   then [ "Stability must be between 0 and 1" ] else [])
  ++ (if out_of_unit_range (similarityBoost settings)
      then [ "Similarity boost must be between 0 and 1" ] else [])
  ++ (if out_of_unit_range (style settings)
      then [ "Style must be between 0 and 1" ] else []).

(** [issues.join(', ')] *)
Fixpoint join (parts : list string) : string :=
  match parts with
  | [] => ""
  | [ p ] => p
  | p :: rest => (p ++ ", " ++ join rest)%string
  end.

Definition outside (lo hi x : Q) : bool :=
  match Qcompare x lo with
  | Lt => true
  | _ => match Qcompare x hi with
         | Gt => true
         | _ => false
         end
  end.

Definition unset (v : option string) : bool :=
  match v with
  | Some s => String.eqb s ""
  | None => true
  end.

Definition number_of (v : option Q) : Q :=
  match v with
  | Some q => q
  | None => 0
  end.

(** The issues [validateConfiguration] collects, in order. *)
Definition configuration_issues (aenv : AiConfig.Env) (env : Env) : list string :=
  let cfg := AiConfig.AI_CONFIG aenv in
  let maxTokens := parseInt_or (AI_MAX_TOKENS env) 1000 in
  let s := defaultSettings env in
  (if String.eqb (AiConfig.model cfg) "" then [ "AI_MODEL not configured" ] else [])
  ++ (if outside 0 2 (AiConfig.temperature cfg)
      then [ "AI_TEMPERATURE must be between 0 and 2" ] else [])
  ++ (if (maxTokens <? 100) || (4000 <? maxTokens)
      then [ "AI_MAX_TOKENS must be between 100 and 4000" ] else [])
  ++ (if unset (ELEVENLABS_API_KEY env)
      then [ "ELEVENLABS_API_KEY not configured" ] else [])
  ++ (if unset (ELEVENLABS_VOICE_ID env)
      then [ "ELEVENLABS_VOICE_ID not configured" ] else [])
  ++ (if outside 0 1 (number_of (stability s))
      then [ "ELEVENLABS_STABILITY must be between 0 and 1" ] else [])
  ++ (if outside 0 1 (number_of (similarityBoost s))
      then [ "ELEVENLABS_SIMILARITY_BOOST must be between 0 and 1" ] else [])
  ++ (if outside 0 1 (number_of (style s))
      then [ "ELEVENLABS_STYLE must be between 0 and 1" ] else [])
  ++ (match get AiConfig.SYSTEM_PROMPTS (AiConfig.systemPromptVersion cfg) with
      | Missing => [ ("System prompt version "
                      ++ AiConfig.systemPromptVersion cfg ++ " not found")%string ]
      | _ => []
      end).

(** [validateConfiguration()] *)
Definition validateConfiguration (aenv : AiConfig.Env) (env : Env)
  : Database.M unit :=
  Database.try_catch
    (match configuration_issues aenv env with
     | [] => Database.ret tt
     | issues =>
         Database.throw
           (mkError ("Configuration validation failed: " ++ join issues)%string)
     end)
    (fun error => Database.throw error).

End Voice.

(* ===================================================================== *)
(** ** Performance categories: src/utils/logger.js and the middleware *)
(* ===================================================================== *)

Module Performance.

Record Threshold := {
  good : Z;
  acceptable : Z
}.

Definition default_threshold : Threshold := {| good := 1000; acceptable := 3000 |}.

(** The own keys of the table of [categorizePerformance]. *)
Definition operation_thresholds : list (string * Threshold) :=
  [ ("ai-chat", {| good := 2000; acceptable := 5000 |});
    ("voice-synthesis", {| good := 3000; acceptable := 8000 |});
    ("database-query", {| good := 100; acceptable := 500 |});
    ("conversation-processing", {| good := 1000; acceptable := 3000 |});
    ("broker-service", {| good := 500; acceptable := 2000 |});
    ("default", default_threshold) ].

(** The table of [categorizeRequestPerformance], without its default. *)
Definition route_thresholds : list (string * Threshold) :=
  [ ("/api/voice", {| good := 5000; acceptable := 10000 |});
    ("/api/chat", {| good := 2000; acceptable := 5000 |});
    ("/api/health", {| good := 100; acceptable := 500 |}) ].

Definition category (threshold : Threshold) (duration : Z) : string :=
  if duration <=? good threshold then "EXCELLENT"
  else if duration <=? acceptable threshold then "ACCEPTABLE"
  else "POOR".

(** [categorizePerformance(operation, duration)]. An operation that names
    something inherited from [Object.prototype] is judged by that value:
    its [good] and [acceptable] are [undefined], both comparisons are
    false, and the category is 'POOR' whatever the duration. *)
Definition categorizePerformance (operation : string) (duration : Z) : string :=
  match get operation_thresholds operation with
  | Own threshold => category threshold duration
  | Inherited => "POOR"
  | Missing => category default_threshold duration
  end.

(** [Object.keys(thresholds).find(route => route !== 'default' &&
    url.includes(route))] *)
Fixpoint find_route (table : list (string * Threshold)) (url : string)
  : option Threshold :=
  match table with
  | [] => None
  | (route, t) :: rest => if includes url route then Some t
                          else find_route rest url
  end.

(** [categorizeRequestPerformance(url, duration)] *)
Definition categorizeRequestPerformance (url : string) (duration : Z) : string :=
  let threshold := match find_route route_thresholds url with
                   | Some t => t
                   | None => default_threshold
                   end in
  category threshold duration.

(** Ranks of the categories, best first. *)
Definition rank (c : string) : Z :=
  if String.eqb c "EXCELLENT" then 0
  else if String.eqb c "ACCEPTABLE" then 1
  else 2.

End Performance.

(* ===================================================================== *)
(** ** src/services/brokerService.js: listings, showings and agents *)
(* ===================================================================== *)

Module Listings.
Import Database.

(** A row of Properties with all the columns the searches read: the
    columns of the market aggregate ([core]) and the others. *)
Record ListingRow := {
  property_id : string;
  address : string;
  core : PropertyRow;
  bedrooms : Z;
  bathrooms : Q;
  lot_size : Q;
  year_built : Z;
  description : string;
  agent_id : string;
  images_count : Z;
  latitude : Q;
  longitude : Q
}.

Record ShowingRow := {
  showing_id : string;
  s_property_id : string;
  s_agent_id : string;
  client_name : option string;
  client_email : option string;
  client_phone : option string;
  preferred_date : Z;
  time_slot : string;
  s_status : string;
  s_created_at : Z
}.

Record AgentRow := {
  a_agent_id : string;
  first_name : string;
  last_name : string;
  email : string;
  phone : string;
  license_number : string;
  specialties : option string;
  years_experience : Z;
  office_address : string;
  profile_image : string;
  bio : string;
  languages : option string;
  active_listings_count : Z;
  total_sales_ytd : Z;
  a_status : string;
  featured : bool
}.

Record Store := {
  Properties : list ListingRow;
  PropertyShowings : list ShowingRow;
  Agents : list AgentRow
}.

(** The service runs against these tables through the same gateway: the
    clock, the identifier source and the fate of each request are the
    ones of [Database.World]. *)
Record World := {
  market : Store;
  gateway : Database.World
}.

Definition M (A : Type) : Type := World -> Completion A * World.

Definition ret {A} (a : A) : M A := fun w => (Returns a, w).

Definition throw {A} (e : Error) : M A := fun w => (Throws e, w).

Definition bind {A B} (m : M A) (k : A -> M B) : M B :=
  fun w => match m w with
           | (Returns a, w') => k a w'
           | (Throws e, w') => (Throws e, w')
           end.

Definition try_catch {A} (body : M A) (handler : Error -> M A) : M A :=
  fun w => match body w with
           | (Returns a, w') => (Returns a, w')
           | (Throws e, w') => handler e w'
           end.

Definition Date_now : M Z := fun w => (Returns (clock (gateway w)), w).

Definition uuidv4 : M string :=
  fun w => (Returns (uuid_of (uuid_counter (gateway w))),
            {| market := market w; gateway := after_uuid (gateway w) |}).

(** [executeQuery] with a single statement, given by its effect on the
    tables and its record set at the instant of the request. *)
Definition executeQuery {R : Type} (statement : Z -> Store -> Store * R) : M R :=
  fun w =>
    let g := gateway w in
    let after := after_request g (store g) in
    if fails_here (fate (next_tick g)) 0
    then (Throws RequestError, {| market := market w; gateway := after |})
    else let '(m, r) := statement (request_time g) (market w) in
         (Returns r, {| market := m; gateway := after |}).

(** [status IN ('active', 'pending')] *)
Definition available (r : ListingRow) : bool :=
  String.eqb (p_status (core r)) "active"
  || String.eqb (p_status (core r)) "pending".

(** *** searchProperties *)

Record SquareFootage := {
  sf_min : option Z;
  sf_max : option Z
}.

Record SearchCriteria := {
  c_location : option string;
  c_propertyType : option string;
  c_minPrice : option Z;
  c_maxPrice : option Z;
  c_bedrooms : option Z;
  c_bathrooms : option Q;
  c_squareFootage : option SquareFootage;
  c_limit : option Z;
  c_offset : option Z
}.

(** A default of the destructuring pattern applies to an absent key. *)
Definition default_to {A : Type} (v : option A) (dflt : A) : A :=
  match v with
  | Some x => x
  | None => dflt
  end.

(** [if (v)] on an optional string, integer or number. *)
Definition given_string (v : option string) : option string :=
  match v with
  | Some s => if String.eqb s "" then None else Some s
  | None => None
  end.

Definition given_integer (v : option Z) : option Z :=
  match v with
  | Some n => if n =? 0 then None else Some n
  | None => None
  end.

Definition given_number (v : option Q) : option Q :=
  match v with
  | Some q => if Qeq_bool q 0 then None else Some q
  | None => None
  end.

(** One optional conjunct of the WHERE clause. *)
Definition when {A : Type} (v : option A) (test : A -> bool) : bool :=
  match v with
  | Some x => test x
  | None => true
  end.

(** The type filter: [propertyType && propertyType !== 'all']. *)
Definition type_filter (propertyType : string) : option string :=
  if String.eqb propertyType "" then None
  else if String.eqb propertyType "all" then None
  else Some propertyType.

(** The WHERE clause [searchProperties] builds from the criteria. *)
Definition search_condition (c : SearchCriteria) (r : ListingRow) : bool :=
  let propertyType := default_to (c_propertyType c) "residential" in
  let minPrice := default_to (c_minPrice c) 0 in
  let maxPrice := default_to (c_maxPrice c) 10000000 in
  available r
  && ((minPrice <=? listing_price (core r)) && (listing_price (core r) <=? maxPrice))
  && when (type_filter propertyType)
       (fun t => String.eqb (property_type (core r)) t)
  && when (given_string (c_location c))
       (fun l => LIKE_contains (city (core r)) l
                 || LIKE_contains (state (core r)) l
                 || LIKE_contains (zip_code (core r)) l)
  && when (given_integer (c_bedrooms c)) (fun b => b <=? bedrooms r)
  && when (given_number (c_bathrooms c)) (fun b => Qle_bool b (bathrooms r))
  && when (c_squareFootage c)
       (fun sf =>
          when (given_integer (sf_min sf)) (fun m => m <=? square_footage (core r))
          && when (given_integer (sf_max sf)) (fun m => square_footage (core r) <=? m)).

(** SELECT ... FROM Properties WHERE ... ORDER BY listing_date DESC
    OFFSET @offset ROWS FETCH NEXT @limit ROWS ONLY *)
Definition select_properties (c : SearchCriteria) (now : Z) (t : Store)
  : Store * list ListingRow :=
  (t, offset_limit (default_to (c_offset c) 0) (default_to (c_limit c) 20)
        (order_by_desc (fun r => listing_date (core r))
           (filter (search_condition c) (Properties t)))).

Module Property.
Record t := {
  propertyId : string;
  address : string;
  propertyType : string;
  price : Z;
  bedrooms : Z;
  bathrooms : Q;
  squareFootage : Z;
  lotSize : Q;
  yearBuilt : Z;
  listingDate : Z;
  status : string;
  description : string;
  agentId : string;
  imagesCount : Z;
  latitude : option Q;        (* coordinates.latitude *)
  longitude : option Q        (* coordinates.longitude *)
}.
End Property.

(** The object built for each row. The row has no column [locality], so
    [prop.locality] is [undefined]. *)
Definition property_of_row (prop : ListingRow) : Property.t :=
  {| Property.propertyId := property_id prop;
     Property.address :=
       (address prop ++ ", " ++ city (core prop) ++ ", "
        ++ state (core prop) ++ " " ++ zip_code (core prop))%string;
     Property.propertyType := property_type (core prop);
     Property.price := listing_price (core prop);
     Property.bedrooms := bedrooms prop;
     Property.bathrooms := bathrooms prop;
     Property.squareFootage := square_footage (core prop);
     Property.lotSize := lot_size prop;
     Property.yearBuilt := year_built prop;
     Property.listingDate := listing_date (core prop);
     Property.status := p_status (core prop);
     Property.description := description prop;
     Property.agentId := agent_id prop;
     Property.imagesCount := images_count prop;
     Property.latitude := None;
     Property.longitude := Some (longitude prop) |}.

Module SearchResult.
Record t := {
  properties : list Property.t;
  totalFound : Z;
  searchCriteria : SearchCriteria;
  timestamp : Z
}.
End SearchResult.

Definition searchProperties (searchCriteria : SearchCriteria) : M SearchResult.t :=
  try_catch
    (bind (executeQuery (select_properties searchCriteria)) (fun recordset =>
     let properties := map property_of_row recordset in
     bind Date_now (fun now =>
     ret {| SearchResult.properties := properties;
            SearchResult.totalFound := Z.of_nat (List.length properties);
            SearchResult.searchCriteria := searchCriteria;
            SearchResult.timestamp := now |})))
    (fun error => throw error).

(** *** scheduleShowing *)

Record ClientInfo := {
  clientName : option string;
  clientEmail : option string;
  clientPhone : option string
}.

(** SELECT ... FROM Properties WHERE property_id = @propertyId
    AND status IN ('active', 'pending') *)
Definition select_available_property (propertyId : string) (now : Z) (t : Store)
  : Store * list ListingRow :=
  (t, filter (fun r => String.eqb (property_id r) propertyId && available r)
        (Properties t)).

(** INSERT INTO PropertyShowings (...) VALUES (@showingId, @propertyId,
    @agentId, @clientName, @clientEmail, @clientPhone, @preferredDate,
    @timeSlot, 'requested', GETDATE()) *)
Definition insert_showing (showingId propertyId agentId : string)
           (client : ClientInfo) (preferredDate : Z) (timeSlot : string)
           (now : Z) (t : Store) : Store * unit :=
  ({| Properties := Properties t;
      PropertyShowings :=
        PropertyShowings t ++
          [ {| showing_id := showingId; s_property_id := propertyId;
               s_agent_id := agentId;
               client_name := clientName client;
               client_email := clientEmail client;
               client_phone := clientPhone client;
               preferred_date := preferredDate; time_slot := timeSlot;
               s_status := "requested"; s_created_at := now |} ];
      Agents := Agents t |}, tt).

Module ShowingDetails.
Record t := {
  showingId : string;
  propertyId : string;
  propertyAddress : string;
  clientName : option string;
  preferredDate : Z;
  timeSlot : string;
  status : string;
  agentId : string;
  createdAt : Z
}.
End ShowingDetails.

Definition scheduleShowing (propertyId : string) (clientInfo : ClientInfo)
           (preferredDate : Z) (timeSlot : option string) : M ShowingDetails.t :=
  let timeSlot := default_to timeSlot "afternoon" in
  try_catch
    (bind (executeQuery (select_available_property propertyId)) (fun recordset =>
     match recordset with
     | [] => throw (mkError "Property not found or not available for showing")
     | property :: _ =>
         bind uuidv4 (fun showingId =>
         bind (executeQuery
                 (insert_showing showingId propertyId (agent_id property)
                    clientInfo preferredDate timeSlot)) (fun _ =>
         bind Date_now (fun now =>
         ret {| ShowingDetails.showingId := showingId;
                ShowingDetails.propertyId := propertyId;
                ShowingDetails.propertyAddress :=
                  (address property ++ ", " ++ city (core property) ++ ", "
                   ++ state (core property))%string;
                ShowingDetails.clientName := clientName clientInfo;
                ShowingDetails.preferredDate := preferredDate;
                ShowingDetails.timeSlot := timeSlot;
                ShowingDetails.status := "requested";
                ShowingDetails.agentId := agent_id property;
                ShowingDetails.createdAt := now |})))
     end))
    (fun error => throw error).

(** *** getAgentInfo *)

(** [text.split(',')] *)
Fixpoint split_comma_from (current : string) (text : string) : list string :=
  match text with
  | EmptyString => [ current ]
  | String c rest =>
      if Ascii.eqb c ","%char
      then current :: split_comma_from "" rest
      else split_comma_from (current ++ String c "") rest
  end.

Definition split_comma (text : string) : list string := split_comma_from "" text.

(** [parts.join(',')] *)
Fixpoint join_comma (parts : list string) : string :=
  match parts with
  | [] => ""
  | [ p ] => p
  | p :: rest => (p ++ "," ++ join_comma rest)%string
  end.

Definition agent_active (r : AgentRow) : bool := String.eqb (a_status r) "active".

(** SELECT ... FROM Agents WHERE status = 'active' AND agent_id = @agentId *)
Definition select_agent (agentId : string) (now : Z) (t : Store)
  : Store * list AgentRow :=
  (t, filter (fun r => agent_active r && String.eqb (a_agent_id r) agentId)
        (Agents t)).

(** SELECT ... FROM Agents WHERE status = 'active' AND featured = 1
    ORDER BY total_sales_ytd DESC *)
Definition select_featured_agents (now : Z) (t : Store) : Store * list AgentRow :=
  (t, order_by_desc total_sales_ytd
        (filter (fun r => agent_active r && featured r) (Agents t))).

Module Agent.
Record t := {
  agentId : string;
  name : string;
  email : string;
  phone : string;
  licenseNumber : string;
  specialties : list string;
  yearsExperience : Z;
  officeAddress : string;
  profileImage : string;
  bio : string;
  languages : list string;
  activeListings : Z;
  totalSalesYTD : Z
}.
End Agent.

Definition agent_of_row (agent : AgentRow) : Agent.t :=
  {| Agent.agentId := a_agent_id agent;
     Agent.name := (first_name agent ++ " " ++ last_name agent)%string;
     Agent.email := email agent;
     Agent.phone := phone agent;
     Agent.licenseNumber := license_number agent;
     Agent.specialties :=
       match given_string (specialties agent) with
       | Some text => split_comma text
       | None => []
       end;
     Agent.yearsExperience := years_experience agent;
     Agent.officeAddress := office_address agent;
     Agent.profileImage := profile_image agent;
     Agent.bio := bio agent;
     Agent.languages :=
       match given_string (languages agent) with
       | Some text => split_comma text
       | None => [ "English" ]
       end;
     Agent.activeListings := active_listings_count agent;
     Agent.totalSalesYTD := total_sales_ytd agent |}.

(** What [getAgentInfo] returns: one agent or [null] when an identifier
    was given, the roster otherwise. *)
Inductive AgentInfo :=
| OneAgent (agent : option Agent.t)
| Roster (agents : list Agent.t).

Definition getAgentInfo (agentId : option string) : M AgentInfo :=
  try_catch
    (match given_string agentId with
     | Some id =>
         bind (executeQuery (select_agent id)) (fun recordset =>
         ret (OneAgent (hd_error (map agent_of_row recordset))))
     | None =>
         bind (executeQuery select_featured_agents) (fun recordset =>
         ret (Roster (map agent_of_row recordset)))
     end)
    (fun error => throw error).

End Listings.

(* ===================================================================== *)
(** ** src/routes/chatRoutes.js *)
(* ===================================================================== *)

(** The handlers of POST /message and PUT /conversation/:id/status, after
    the middleware in front of them has let the request through. A handler
    is given the fields it reads from the request; what it sends is the
    status code ([res.status], 200 when it is not set) and the JSON body.
    Timers and log lines are left out. The body of PUT is taken with a
    string in [status]. *)
Module ChatRoutes.
Import Database.
Local Open Scope service_scope.

Inductive Body :=
| ChatReply (conversationId response : string) (metadata : AIService.ChatMetadata.t)
            (requestId : option string) (timestamp : Z)
| StatusUpdated (conversationId status : string) (updatedAt : Z)
                (requestId : option string)
| Failure (error message : string) (requestId : option string).

Record Response := {
  statusCode : Z;
  body : Body
}.

(** [res.json(body)] and [res.status(code).json(body)] *)
Definition json (body : Body) : Response := {| statusCode := 200; body := body |}.
Definition status_json (code : Z) (body : Body) : Response :=
  {| statusCode := code; body := body |}.

(** [context || {}] *)
Definition context_or_empty (context : option Json) : Json :=
  match context with
  | Some v => if truthy_json v then v else JObject []
  | None => JObject []
  end.

(** router.post('/message', ...) *)
Definition post_message (aiService : AIService.t) (message : string)
           (conversationId userId : option string) (context : option Json)
           (requestId : option string) : M Response :=
  try_catch
    (result <- AIService.processChatMessage aiService message conversationId
                 userId (context_or_empty context) ;;
     now <- Date_now ;;
     ret (json (ChatReply (AIService.ChatResult.conversationId result)
                  (AIService.ChatResult.response result)
                  (AIService.ChatResult.metadata result) requestId now)))
    (fun error =>
       ret (status_json 500
              (Failure "Chat Processing Failed"
                 "Unable to process your message at this time" requestId))).

Definition validStatuses : list string :=
  [ "active"; "paused"; "completed"; "archived" ].

(** [list.includes(s)] *)
Definition includes (l : list string) (s : string) : bool :=
  existsb (String.eqb s) l.

(** router.put('/conversation/:conversationId/status', ...) *)
Definition put_conversation_status (conversationId status : string)
           (metadata : option Json) (requestId : option string) : M Response :=
  try_catch
    (if negb (includes validStatuses status)
     then ret (status_json 400
                 (Failure "Invalid Status"
                    ("Status must be one of: " ++ Voice.join validStatuses)
                    requestId))
     else
       _ <- ConversationManager.updateConversationStatus conversationId status
              metadata ;;
       now <- Date_now ;;
       ret (json (StatusUpdated conversationId status now requestId)))
    (fun error =>
       ret (status_json 500
              (Failure "Status Update Failed"
                 "Unable to update conversation status" requestId))).

End ChatRoutes.

(* ===================================================================== *)
(** ** Further concrete inputs *)
(* ===================================================================== *)

Module Samples.

(** An environment with nothing but the two ElevenLabs credentials. *)
Definition voice_env : Voice.Env :=
  {| Voice.ELEVENLABS_API_KEY := Some "key";
     Voice.ELEVENLABS_VOICE_ID := Some "voice";
     Voice.ELEVENLABS_STABILITY := None;
     Voice.ELEVENLABS_SIMILARITY_BOOST := None;
     Voice.ELEVENLABS_STYLE := None;
     Voice.ELEVENLABS_USE_SPEAKER_BOOST := None;
     Voice.AI_MAX_TOKENS := None |}.

(** The same with a stability far out of range. *)
Definition odd_voice_env : Voice.Env :=
  {| Voice.ELEVENLABS_API_KEY := Some "key";
     Voice.ELEVENLABS_VOICE_ID := Some "voice";
     Voice.ELEVENLABS_STABILITY := Some 5%Q;
     Voice.ELEVENLABS_SIMILARITY_BOOST := None;
     Voice.ELEVENLABS_STYLE := None;
     Voice.ELEVENLABS_USE_SPEAKER_BOOST := None;
     Voice.AI_MAX_TOKENS := None |}.

Definition listing (id cityName st : string) (price beds : Z) (age_days : Z)
           (agent : string) : Listings.ListingRow :=
  {| Listings.property_id := id;
     Listings.address := "1 Main St";
     Listings.core :=
       {| Database.city := cityName; Database.state := "TX";
          Database.zip_code := "75201";
          Database.property_type := "residential";
          Database.listing_price := price;
          Database.listing_date := Examples.today - age_days * Database.msPerDay;
          Database.p_status := st; Database.sold_date := None;
          Database.square_footage := 1800 |};
     Listings.bedrooms := beds; Listings.bathrooms := 2;
     Listings.lot_size := 0; Listings.year_built := 1999;
     Listings.description := ""; Listings.agent_id := agent;
     Listings.images_count := 0;
     Listings.latitude := 32; Listings.longitude := -96 |}.

Definition agent (id st : string) (feat : bool) (sales : Z)
           (langs : option string) : Listings.AgentRow :=
  {| Listings.a_agent_id := id; Listings.first_name := "Ann";
     Listings.last_name := "Lee"; Listings.email := "";
     Listings.phone := ""; Listings.license_number := "";
     Listings.specialties := Some "condos,land";
     Listings.years_experience := 5; Listings.office_address := "";
     Listings.profile_image := ""; Listings.bio := "";
     Listings.languages := langs;
     Listings.active_listings_count := 2; Listings.total_sales_ytd := sales;
     Listings.a_status := st; Listings.featured := feat |}.

(** Three listings (one of them sold) and three agents (one inactive). *)
Definition broker : Listings.World :=
  {| Listings.market :=
       {| Listings.Properties :=
            [ listing "p1" "Dallas" "active" 450000 3 30 "a1";
              listing "p2" "Dallas" "sold" 300000 2 60 "a2";
              listing "p3" "Austin" "pending" 700000 4 10 "a1" ];
          Listings.PropertyShowings := [];
          Listings.Agents :=
            [ agent "a1" "active" true 10 (Some "English,Spanish");
              agent "a2" "active" true 30 None;
              agent "a3" "inactive" true 50 None ] |};
     Listings.gateway := Examples.quiet |}.

Definition client : Listings.ClientInfo :=
  {| Listings.clientName := Some "Sam"; Listings.clientEmail := None;
     Listings.clientPhone := None |}.

Definition any_criteria : Listings.SearchCriteria :=
  {| Listings.c_location := None; Listings.c_propertyType := None;
     Listings.c_minPrice := None; Listings.c_maxPrice := None;
     Listings.c_bedrooms := None; Listings.c_bathrooms := None;
     Listings.c_squareFootage := None; Listings.c_limit := None;
     Listings.c_offset := None |}.

End Samples.

(* ===================================================================== *)
(** * Properties *)
(* ===================================================================== *)

(** ** Rounding *)

Section Rounding.

Lemma quarter_as_fraction (n : Z) :
  (inject_Z n / inject_Z 4 == n # 4)%Q.
Proof.
  unfold Qeq, Qdiv, Qmult, Qinv, inject_Z; simpl. lia.
Qed.

Lemma Math_ceil_quarter_bounds (n : Z) :
  let k := Math_ceil (inject_Z n / inject_Z 4)%Q in
  4 * (k - 1) < n <= 4 * k.
Proof.
  intros k. unfold Math_ceil in k.
  pose proof (Qle_ceiling (inject_Z n / inject_Z 4)%Q) as Hup.
  pose proof (Qceiling_lt (inject_Z n / inject_Z 4)%Q) as Hlow.
  fold k in Hup, Hlow.
  rewrite quarter_as_fraction in Hup, Hlow.
  unfold Qle, Qlt, inject_Z in Hup, Hlow; simpl in Hup, Hlow. lia.
Qed.

Lemma Math_ceil_quarter (n : Z) :
  Math_ceil (inject_Z n / inject_Z 4)%Q = (n + 3) / 4.
Proof.
  pose proof (Math_ceil_quarter_bounds n) as H; cbv zeta in H.
  set (k := Math_ceil _) in *.
  apply Z.div_unique with (r := n + 3 - 4 * k); lia.
Qed.

End Rounding.

(** ** C2: the token estimate *)

(** C2. For every string the token estimate is the ceiling of a quarter of
    its length: it is the least integer [k] with [length <= 4 * k]
    (equivalently [(length + 3) / 4] in integer division); the text "abcd"
    is estimated at 1 and "abcde" at 2; and the estimator of the
    conversation manager and the one of the AI service are the same
    function. *)
Theorem estimateTokenCount_ceiling_quarter_length :
  forall text : string,
    AIService.estimateTokenCount text
      = ConversationManager.estimateTokenCount text
    /\ 4 * (ConversationManager.estimateTokenCount text - 1)
         < str_length text <= 4 * ConversationManager.estimateTokenCount text
    /\ ConversationManager.estimateTokenCount text = (str_length text + 3) / 4
    /\ ConversationManager.estimateTokenCount "abcd" = 1
    /\ ConversationManager.estimateTokenCount "abcde" = 2
    /\ AIService.estimateTokenCount "abcd" = 1
    /\ AIService.estimateTokenCount "abcde" = 2.
Proof.
  intros text.
  unfold AIService.estimateTokenCount, ConversationManager.estimateTokenCount.
  split; [reflexivity|].
  split; [apply Math_ceil_quarter_bounds|].
  split; [apply Math_ceil_quarter|].
  repeat split; reflexivity.
Qed.

(** ** Single requests *)

Section Requests.
Import Database Persisted.

(** A batch of one data statement that the engine accepts takes effect
    unless its request fails. *)
Lemma executeQuery_single (s : Statement) (w : World) :
  s <> BEGIN_TRANSACTION -> s <> COMMIT_TRANSACTION -> compiles s = true ->
  executeQuery [s] w =
    if request_fails w 1 then (Throws RequestError, after_request w (store w))
    else let '(t, rs, n) := exec_statement (request_time w) s (store w) in
         (Returns {| recordset := rs; rowsAffected := [n] |}, after_request w t).
Proof.
  intros Hb Hc Hs. unfold executeQuery, request_fails.
  cbn [forallb]. rewrite Hs. cbn [andb].
  destruct (fate (next_tick w)) as [|[|k]|[|k]]; simpl;
    destruct s; try congruence; simpl; reflexivity.
Qed.

(** The history query never gets to run. *)
Lemma executeQuery_history conversationId limit offset (w : World) :
  executeQuery [ select_history conversationId limit offset ] w
  = (Throws RequestError, after_request w (store w)).
Proof. reflexivity. Qed.

(** The add-message batch takes effect as a whole when its request
    completes; a request that fails can leave half of it behind. *)
Lemma executeQuery_add_message (w : World) messageId conversationId r c md :
  let tokenCount := ConversationManager.estimateTokenCount c in
  let row := message_row (request_time w) messageId conversationId r c md in
  executeQuery
    [ BEGIN_TRANSACTION;
      insert_message messageId conversationId r c md tokenCount;
      update_message_count conversationId;
      COMMIT_TRANSACTION ] w =
    if request_fails w 4
    then (Throws RequestError,
          after_request w
            (torn_message (fate (next_tick w)) (request_time w) row (store w)))
    else (Returns {| recordset := NoRecordset;
                     rowsAffected :=
                       [1; count_where (is_conversation conversationId)
                             (Conversations (store w))] |},
          after_request w (with_message (request_time w) row (store w))).
Proof.
  intros tokenCount row. unfold executeQuery, request_fails.
  destruct (fate (next_tick w)) as [|[|[|[|[|k]]]]|[|[|[|[|k]]]]]; reflexivity.
Qed.

Lemma addMessage_run conversationId r c md (w : World) :
  let w1 := after_uuid w in
  let messageId := uuid_of (uuid_counter w) in
  let row := message_row (request_time w) messageId conversationId r c md in
  ConversationManager.addMessage conversationId r c md w =
    if request_fails w 4
    then (Throws RequestError,
          after_request w1
            (torn_message (fate (next_tick w)) (request_time w) row (store w)))
    else (Returns {| Message.messageId := messageId;
                     Message.conversationId := Some conversationId;
                     Message.role := r;
                     Message.content := c;
                     Message.createdAt := request_time w;
                     Message.metadata := md;
                     Message.tokenCount :=
                       ConversationManager.estimateTokenCount c |},
          after_request w1 (with_message (request_time w) row (store w))).
Proof.
  intros w1 messageId row.
  unfold ConversationManager.addMessage, bind, try_catch, uuidv4.
  rewrite executeQuery_add_message.
  change (request_fails (after_uuid w) 4) with (request_fails w 4).
  destruct (request_fails w 4); reflexivity.
Qed.

Lemma createConversation_run userId md (w : World) :
  let w1 := after_uuid w in
  let conversationId := uuid_of (uuid_counter w) in
  ConversationManager.createConversation userId md w =
    if request_fails w 1 then (Throws RequestError, after_request w1 (store w))
    else (Returns {| Conversation.conversationId := conversationId;
                     Conversation.userId := Some (string_or userId "anonymous");
                     Conversation.createdAt := request_time w;
                     Conversation.updatedAt := None;
                     Conversation.status := "active";
                     Conversation.metadata := md;
                     Conversation.messageCount := 0 |},
          after_request w1
            (with_conversations (store w)
               (Conversations (store w) ++
                  [ {| conversation_id := conversationId;
                       user_id := string_or userId "anonymous";
                       created_at := request_time w;
                       updated_at := request_time w;
                       status := "active"; metadata := md;
                       message_count := 0 |} ]))).
Proof.
  intros w1 conversationId.
  unfold ConversationManager.createConversation, bind, try_catch, uuidv4.
  rewrite executeQuery_single by (discriminate || reflexivity).
  change (request_fails (after_uuid w) 1) with (request_fails w 1).
  destruct (request_fails w 1); reflexivity.
Qed.

Lemma getConversation_run conversationId (w : World) :
  ConversationManager.getConversation conversationId w =
    if request_fails w 1 then (Throws RequestError, after_request w (store w))
    else (Returns (option_map ConversationManager.conversation_of_row
                     (visible conversationId (store w))),
          after_request w (store w)).
Proof.
  unfold ConversationManager.getConversation, bind, try_catch.
  rewrite executeQuery_single by (discriminate || reflexivity).
  destruct (request_fails w 1); [reflexivity|].
  unfold visible; simpl.
  destruct (filter _ _); reflexivity.
Qed.

(** [getConversationHistory] throws on every call. *)
Lemma getConversationHistory_run this conversationId limit offset (w : World) :
  ConversationManager.getConversationHistory this conversationId limit offset w
  = (Throws RequestError, after_request w (store w)).
Proof.
  unfold ConversationManager.getConversationHistory, bind, try_catch.
  rewrite executeQuery_history. reflexivity.
Qed.

Lemma buildConversationContext_run this cfg conversationId includeSystemPrompt
      (w : World) :
  ConversationManager.buildConversationContext this cfg conversationId
    includeSystemPrompt w
  = (Throws RequestError, after_request w (store w)).
Proof.
  unfold ConversationManager.buildConversationContext, bind, try_catch.
  rewrite getConversationHistory_run. reflexivity.
Qed.

Lemma updateConversationStatus_run conversationId newStatus md (w : World) :
  ConversationManager.updateConversationStatus conversationId newStatus md w =
    if request_fails w 1 then (Throws RequestError, after_request w (store w))
    else
      let updated :=
        with_conversations (store w)
          (update_where (is_conversation conversationId)
             (set_status (request_time w) newStatus
                (ConversationManager.given_metadata md))
             (Conversations (store w))) in
      if count_where (is_conversation conversationId) (Conversations (store w)) =? 0
      then (Throws (mkError "Conversation not found"), after_request w updated)
      else (Returns tt, after_request w updated).
Proof.
  unfold ConversationManager.updateConversationStatus, bind, try_catch.
  rewrite executeQuery_single by (discriminate || reflexivity).
  destruct (request_fails w 1); [reflexivity|].
  simpl. destruct (count_where _ _ =? 0); reflexivity.
Qed.

Lemma getUserConversations_run userId limit offset (w : World) :
  ConversationManager.getUserConversations userId limit offset w =
    if request_fails w 1 then (Throws RequestError, after_request w (store w))
    else (Returns
            (map ConversationManager.summary_of_row
               (offset_limit offset limit
                  (order_by_desc updated_at
                     (filter (visible_for_user userId) (Conversations (store w)))))),
          after_request w (store w)).
Proof.
  unfold ConversationManager.getUserConversations, bind, try_catch.
  rewrite executeQuery_single by (discriminate || reflexivity).
  destruct (request_fails w 1); reflexivity.
Qed.

Lemma cleanupOldConversations_run zone this (w : World) :
  let cutoffDate := ConversationManager.cutoff zone this (clock w) in
  ConversationManager.cleanupOldConversations zone this w =
    if request_fails w 1 then (Throws RequestError, after_request w (store w))
    else (Returns (count_where (expired cutoffDate) (Conversations (store w))),
          after_request w
            (with_conversations (store w)
               (update_where (expired cutoffDate)
                  (set_status (request_time w) "deleted" None)
                  (Conversations (store w))))).
Proof.
  intros cutoffDate.
  unfold ConversationManager.cleanupOldConversations, bind, try_catch, Date_now.
  rewrite executeQuery_single by (discriminate || reflexivity).
  destruct (request_fails w 1); reflexivity.
Qed.

End Requests.

(** ** ORDER BY and row limits *)

Section Ordering.
Import Database.
Context {A : Type} (key : A -> Z).

Lemma insert_desc_permutation (x : A) (l : list A) :
  Permutation (insert_desc key x l) (x :: l).
Proof.
  induction l as [|y l IH]; simpl.
  - apply Permutation_refl.
  - destruct (key y <=? key x).
    + apply Permutation_refl.
    + apply perm_trans with (y :: x :: l).
      * apply perm_skip, IH.
      * apply perm_swap.
Qed.

Lemma order_by_desc_permutation (l : list A) :
  Permutation (order_by_desc key l) l.
Proof.
  induction l as [|x l IH]; simpl.
  - apply perm_nil.
  - apply perm_trans with (x :: order_by_desc key l).
    + apply insert_desc_permutation.
    + apply perm_skip, IH.
Qed.

Lemma order_by_desc_length (l : list A) :
  List.length (order_by_desc key l) = List.length l.
Proof. apply Permutation_length, order_by_desc_permutation. Qed.

Lemma insert_desc_sorted (x : A) (l : list A) :
  StronglySorted (descending key) l -> StronglySorted (descending key) (insert_desc key x l).
Proof.
  induction 1 as [|y l Hl IH Hy]; simpl.
  - constructor; constructor.
  - destruct (key y <=? key x) eqn:E.
    + constructor.
      * constructor; assumption.
      * apply Z.leb_le in E. constructor; [exact E|].
        eapply Forall_impl; [|exact Hy].
        unfold descending; intros; lia.
    + constructor; [exact IH|].
      apply Z.leb_gt in E.
      eapply Permutation_Forall.
      * apply Permutation_sym, insert_desc_permutation.
      * constructor; [unfold descending; lia | exact Hy].
Qed.

Lemma order_by_desc_sorted (l : list A) :
  StronglySorted (descending key) (order_by_desc key l).
Proof.
  induction l as [|x l IH]; simpl.
  - constructor.
  - apply insert_desc_sorted, IH.
Qed.

Lemma sorted_firstn (R : A -> A -> Prop) (n : nat) (l : list A) :
  StronglySorted R l -> StronglySorted R (firstn n l).
Proof.
  intros H. revert n.
  induction H as [|x l Hl IH Hx]; intros [|n]; simpl; try constructor.
  - apply IH.
  - rewrite <- (firstn_skipn n l) in Hx. now apply Forall_app in Hx.
Qed.

Lemma sorted_skipn (R : A -> A -> Prop) (n : nat) (l : list A) :
  StronglySorted R l -> StronglySorted R (skipn n l).
Proof.
  intros H. revert n.
  induction H as [|x l Hl IH Hx]; intros [|n]; simpl; try constructor;
    try assumption.
  apply IH.
Qed.

(** A page of an ordered result is ordered. *)
Lemma offset_limit_sorted (R : A -> A -> Prop) (offset limit : Z) (l : list A) :
  StronglySorted R l -> StronglySorted R (offset_limit offset limit l).
Proof.
  intros H. unfold offset_limit. now apply sorted_firstn, sorted_skipn.
Qed.

Lemma offset_limit_all (limit : Z) (l : list A) :
  Z.of_nat (List.length l) <= limit -> offset_limit 0 limit l = l.
Proof.
  intros H. unfold offset_limit. simpl.
  apply firstn_all2. lia.
Qed.

End Ordering.

(** ** Worlds in which every request completes *)

Section Calm.
Import Database Persisted Scenario.

Lemma calm_request (w : World) (n : nat) :
  calm w -> request_fails w n = false.
Proof.
  unfold calm, request_fails, next_tick.
  destruct (script w) as [|t rest]; [reflexivity|].
  intros H. inversion H as [|? ? Ht _]; subst. now rewrite Ht.
Qed.

Lemma calm_after_request (w : World) (t : Tables) :
  calm w -> calm (after_request w t).
Proof.
  unfold calm, after_request; simpl.
  destruct (script w); simpl; [constructor|].
  intros H. now inversion H.
Qed.

Lemma calm_after_uuid (w : World) : calm w -> calm (after_uuid w).
Proof. intros H; exact H. Qed.

End Calm.

Ltac calm_world :=
  repeat (apply calm_after_request || apply calm_after_uuid); assumption.

(** ** The add-message batch on the persisted views *)

Section AddMessage.
Import Database Persisted Scenario.

Lemma filter_map_stable {A : Type} (p : A -> bool) (f : A -> A) (l : list A) :
  (forall r, p (f r) = p r) -> filter p (map f l) = map f (filter p l).
Proof.
  intros H. induction l as [|r l IH]; simpl.
  - reflexivity.
  - rewrite H. destruct (p r); simpl; now rewrite IH.
Qed.

Lemma map_on_filtered {A : Type} (p q : A -> bool) (f : A -> A) (l : list A) :
  (forall r, p r = true -> q r = true) ->
  map (fun r => if q r then f r else r) (filter p l) = map f (filter p l).
Proof.
  intros H. induction l as [|r l IH]; simpl.
  - reflexivity.
  - destruct (p r) eqn:E; simpl; [|exact IH].
    rewrite (H r E), IH. reflexivity.
Qed.

Lemma visible_is_conversation cid r :
  visible_conversation cid r = true -> is_conversation cid r = true.
Proof. unfold visible_conversation. now intros [H _]%andb_prop. Qed.

Lemma visible_with_message cid now row t :
  m_conversation_id row = cid ->
  visible cid (with_message now row t) =
  option_map (bump_message_count now) (visible cid t).
Proof.
  intros <-.
  unfold visible, with_message, update_where; simpl.
  rewrite filter_map_stable.
  - rewrite map_on_filtered by apply visible_is_conversation.
    destruct (filter _ _); reflexivity.
  - intros r. destruct (is_conversation _ r); reflexivity.
Qed.

Lemma messages_with_message cid now row t :
  m_conversation_id row = cid ->
  messages cid (with_message now row t) = messages cid t ++ [row].
Proof.
  intros <-.
  unfold messages, with_message; simpl.
  rewrite filter_app; simpl.
  unfold is_message_of at 2. now rewrite String.eqb_refl.
Qed.

Lemma request_time_ge (w : World) : clock w <= request_time w.
Proof. unfold request_time. lia. Qed.

Lemma addMessages_calm cid calls :
  forall w outcomes w',
    calm w -> addMessages cid calls w = (outcomes, w') -> calm w'.
Proof.
  induction calls as [|c rest IH]; intros w outcomes w' Hcalm Hrun; simpl in Hrun.
  - now inversion Hrun; subst.
  - rewrite addMessage_run, (calm_request _ _ Hcalm) in Hrun.
    match type of Hrun with
    | context [addMessages cid rest ?w1] =>
        assert (Hcalm1 : calm w1) by calm_world
    end.
    destruct (addMessages cid rest _) as [outs w2] eqn:Hrest.
    inversion Hrun; subst; clear Hrun.
    exact (IH _ _ _ Hcalm1 Hrest).
Qed.

(** The effect of a series of calls when every request completes: every
    call returns, the counter of the conversation has grown by the number
    of calls, and exactly their messages have been appended, in the order
    of the calls. *)
Lemma addMessages_effect cid calls :
  forall w outcomes w',
    calm w ->
    addMessages cid calls w = (outcomes, w') ->
    List.length (returned outcomes) = List.length calls
    /\ exists appended,
         messages cid (store w') = messages cid (store w) ++ appended
         /\ map (fun r => payload (ConversationManager.message_of_row r)) appended
            = map payload (returned outcomes)
         /\ option_map message_count (visible cid (store w'))
            = option_map
                (fun r => message_count r + Z.of_nat (List.length calls))
                (visible cid (store w)).
Proof.
  induction calls as [|c rest IH]; intros w outcomes w' Hcalm Hrun; simpl in Hrun.
  - inversion Hrun; subst. split; [reflexivity|]. exists []. simpl.
    rewrite app_nil_r.
    split; [reflexivity|]. split; [reflexivity|].
    destruct (visible cid (store w')); simpl; [|reflexivity].
    f_equal. lia.
  - rewrite addMessage_run, (calm_request _ _ Hcalm) in Hrun.
    match type of Hrun with
    | context [addMessages cid rest ?w1] =>
        assert (Hcalm1 : calm w1) by calm_world
    end.
    destruct (addMessages cid rest _) as [outs w2] eqn:Hrest.
    inversion Hrun; subst; clear Hrun.
    destruct (IH _ _ _ Hcalm1 Hrest)
      as (Hall & appended & Hmsgs & Hpay & Hcount).
    set (row := message_row (request_time w) (uuid_of (uuid_counter w)) cid
                  (call_role c) (call_content c) (call_metadata c)) in *.
    cbn [store after_request] in Hmsgs, Hcount.
    rewrite messages_with_message in Hmsgs by reflexivity.
    rewrite visible_with_message in Hcount by reflexivity.
    split; [simpl; now rewrite Hall|].
    exists (row :: appended).
    split; [rewrite Hmsgs, <- app_assoc; reflexivity|].
    split; [simpl; rewrite Hpay; reflexivity|].
    rewrite Hcount. cbn [List.length].
    destruct (visible cid (store w)); simpl; [|reflexivity].
    f_equal. lia.
Qed.

End AddMessage.

(** ** C1: message counter and history *)

Section Counter.
Import Database Persisted Scenario.

Lemma no_rows_no_visible cid (l : list ConversationRow) :
  filter (is_conversation cid) l = [] ->
  filter (visible_conversation cid) l = [].
Proof.
  induction l as [|r l IH]; simpl; [reflexivity|].
  unfold visible_conversation at 1.
  destruct (is_conversation cid r); simpl; [discriminate|exact IH].
Qed.

Lemma visible_after_insert cid (t : Tables) (row : ConversationRow) :
  rows cid t = [] ->
  conversation_id row = cid ->
  status row = "active" ->
  visible cid (with_conversations t (Conversations t ++ [row])) = Some row.
Proof.
  intros Hrows Hid Hstatus.
  unfold visible. cbn [Conversations with_conversations].
  rewrite filter_app, (no_rows_no_visible _ _ Hrows).
  cbn [filter app]. unfold visible_conversation, is_conversation, not_deleted.
  rewrite Hid, Hstatus, String.eqb_refl. reflexivity.
Qed.

(** C1. The counter half of the claim holds when every request completes:
    after [createConversation] under an unused identifier and N
    [addMessage] calls, all N calls have returned, [getConversation]
    reports [messageCount = N] and exactly their N messages are stored, in
    call order. The other two halves fail.

    The history is never returned: [getConversationHistory] throws on
    every call, whatever its arguments and whatever the tables hold,
    because the engine refuses a query with both TOP and OFFSET.

    The batch is not atomic: BEGIN/COMMIT TRANSACTION without XACT_ABORT,
    TRY/CATCH or ROLLBACK does not undo a batch in which one statement
    raised an error. When the INSERT raises it, [addMessage] throws with
    the counter incremented and no message stored; when the UPDATE raises
    it, [addMessage] throws with the message stored and the counter as it
    was. In the series [Examples.after_calls] two calls return, three
    messages are stored, the counter is 2, and the history throws. *)
Theorem addMessage_history_refused_batch_torn :
  (forall userId md calls (w0 w1 w2 : World) conv outcomes,
     calm w0 ->
     ConversationManager.createConversation userId md w0 = (Returns conv, w1) ->
     unused (Conversation.conversationId conv) (store w0) ->
     addMessages (Conversation.conversationId conv) calls w1 = (outcomes, w2) ->
     let cid := Conversation.conversationId conv in
     List.length (returned outcomes) = List.length calls
     /\ map (fun r => payload (ConversationManager.message_of_row r))
          (messages cid (store w2))
        = map payload (returned outcomes)
     /\ exists c w3,
          ConversationManager.getConversation cid w2 = (Returns (Some c), w3)
          /\ Conversation.messageCount c = Z.of_nat (List.length calls))
  /\ (forall (this : ConversationManager.t) conversationId limit offset
             (w : World),
        exists w',
          ConversationManager.getConversationHistory this conversationId limit
            offset w = (Throws RequestError, w')
          /\ store w' = store w)
  /\ (forall conversationId role content metadata (w : World),
        fate (next_tick w) = FailsAt 1 ->
        exists w',
          ConversationManager.addMessage conversationId role content metadata w
          = (Throws RequestError, w')
          /\ Messages (store w') = Messages (store w)
          /\ Conversations (store w')
             = update_where (is_conversation conversationId)
                 (bump_message_count (request_time w))
                 (Conversations (store w)))
  /\ (forall conversationId role content metadata (w : World),
        fate (next_tick w) = FailsAt 2 ->
        exists w',
          ConversationManager.addMessage conversationId role content metadata w
          = (Throws RequestError, w')
          /\ Messages (store w')
             = Messages (store w)
                 ++ [ message_row (request_time w) (uuid_of (uuid_counter w))
                        conversationId role content metadata ]
          /\ Conversations (store w') = Conversations (store w))
  /\ (let w := snd Examples.after_calls in
      List.length (returned (fst Examples.after_calls)) = 2%nat
      /\ List.length (messages Examples.first_id (store w)) = 3%nat
      /\ option_map message_count (visible Examples.first_id (store w)) = Some 2
      /\ fst (ConversationManager.getConversationHistory Examples.manager
                Examples.first_id (Some 10) 0 w) = Throws RequestError).
Proof.
  split; [|split; [|split; [|split]]].
  - intros userId md calls w0 w1 w2 conv outcomes Hcalm Hcreate [Hrows Hmsgs0]
           Hadds cid.
    rewrite createConversation_run, (calm_request _ _ Hcalm) in Hcreate.
    inversion Hcreate; subst conv w1; clear Hcreate.
    subst cid. cbn [Conversation.conversationId] in *.
    set (cid := uuid_of (uuid_counter w0)) in *. clearbody cid.
    match type of Hadds with
    | addMessages _ _ ?w1 = _ => assert (Hcalm1 : calm w1) by calm_world
    end.
    destruct (addMessages_effect _ _ _ _ _ Hcalm1 Hadds)
      as (Hall & appended & Hmsgs & Hpay & Hcount).
    cbn [store after_request] in Hmsgs, Hcount.
    change (messages cid (with_conversations (store w0) _))
      with (messages cid (store w0)) in Hmsgs.
    rewrite Hmsgs0 in Hmsgs. simpl in Hmsgs.
    rewrite visible_after_insert in Hcount by (assumption || reflexivity).
    cbn [option_map message_count] in Hcount.
    split; [exact Hall|]. split; [now rewrite Hmsgs|].
    assert (Hcalm2 : calm w2) by exact (addMessages_calm _ _ _ _ _ Hcalm1 Hadds).
    rewrite getConversation_run, (calm_request _ _ Hcalm2).
    destruct (visible cid (store w2)) as [r|]; [|discriminate].
    simpl in Hcount. injection Hcount as Hr.
    eexists _, _. split; [reflexivity|]. simpl. lia.
  - intros this cid limit offset w. rewrite getConversationHistory_run.
    eexists. split; reflexivity.
  - intros cid role content md w Hfate.
    rewrite addMessage_run. unfold request_fails. rewrite Hfate.
    eexists. split; [reflexivity|]. split; reflexivity.
  - intros cid role content md w Hfate.
    rewrite addMessage_run. unfold request_fails. rewrite Hfate.
    eexists. split; [reflexivity|]. split; reflexivity.
  - vm_compute. repeat split; reflexivity.
Qed.

End Counter.

(** ** C3: the context handed to the response generator *)

Section Context.
Import Database Persisted Scenario.

(** The prompts served are the ones of version v2.0, the only version
    there is, unless the version asked for is a name inherited from
    [Object.prototype]: then nothing is served. *)
Lemma getSystemPrompt_cases cfg type version :
  AiConfig.getSystemPrompt cfg type version
  = if inherited (string_or version (AiConfig.systemPromptVersion cfg))
    then None
    else Some (AiConfig.select AiConfig.prompts_v2_0 type).
Proof.
  unfold AiConfig.getSystemPrompt, get, AiConfig.SYSTEM_PROMPTS.
  cbn [own_property].
  destruct (String.eqb "v2.0" _) eqn:E.
  - apply String.eqb_eq in E. rewrite <- E. reflexivity.
  - destruct (inherited _); reflexivity.
Qed.

(** C3. [buildConversationContext] never returns a context. Its first
    step is [getConversationHistory], whose query the engine refuses, so
    it throws on every call, with or without system prompt, whatever the
    conversation holds, and leaves the tables as they were. On the
    conversation just created in [Examples.quiet], which has no message,
    it throws where the claim promises the system prompt alone. *)
Theorem buildConversationContext_never_returns :
  (forall (this : ConversationManager.t) (cfg : AiConfig.AI_CONFIG_t)
          (conversationId : string) (includeSystemPrompt : bool) (w : World),
     exists w',
       ConversationManager.buildConversationContext this cfg conversationId
         includeSystemPrompt w = (Throws RequestError, w')
       /\ store w' = store w)
  /\ (exists conv w1,
        ConversationManager.createConversation (Some "u1") JNull Examples.quiet
        = (Returns conv, w1)
        /\ Conversation.conversationId conv = Examples.first_id
        /\ messages Examples.first_id (store w1) = []
        /\ fst (ConversationManager.buildConversationContext Examples.manager
                  (AiConfig.AI_CONFIG Examples.env) Examples.first_id true w1)
           = Throws RequestError).
Proof.
  split.
  - intros this cfg cid include w. rewrite buildConversationContext_run.
    eexists. split; reflexivity.
  - eexists _, _. split; [vm_compute; reflexivity|].
    repeat split; reflexivity.
Qed.

End Context.

(** ** C4 and C9: the response generator *)

Section Generator.
Import Database Persisted Scenario.

Lemma latest_content_user (history : list Turn.t) (role message : string) :
  AIService.latest_content
    (history ++ [ {| Turn.role := role; Turn.content := Str message |} ])
  = Str message.
Proof.
  unfold AIService.latest_content. rewrite rev_unit. simpl.
  unfold or_else, truthy.
  destruct (String.eqb message "") eqn:E; simpl; [|reflexivity].
  apply String.eqb_eq in E. now subst.
Qed.

Lemma simulateAIResponse_user history role message (w : World) :
  AIService.simulateAIResponse
    (Some (history ++ [ {| Turn.role := role; Turn.content := Str message |} ])) w
  = (Returns (AIService.canned_response message), w).
Proof.
  unfold AIService.simulateAIResponse.
  now rewrite latest_content_user.
Qed.

(** [simulateAIResponse] never touches the world. *)
Lemma simulateAIResponse_stateless context (w : World) :
  snd (AIService.simulateAIResponse context w) = w.
Proof.
  unfold AIService.simulateAIResponse.
  destruct context as [turns|]; [|reflexivity].
  destruct (AIService.latest_content turns); reflexivity.
Qed.

Lemma generateAIResponse_user this history role message (w : World) :
  AIService.generateAIResponse this
    (Some (history ++ [ {| Turn.role := role; Turn.content := Str message |} ])) w
  = (Returns
       {| AIService.AIResponse.content := Some (AIService.canned_response message);
          AIService.AIResponse.responseTime := 0;
          AIService.AIResponse.tokenCount :=
            AIService.estimateTokenCount (AIService.canned_response message);
          AIService.AIResponse.model := AiConfig.model (AIService.AI_CONFIG this);
          AIService.AIResponse.error := false |}, w).
Proof.
  unfold AIService.generateAIResponse, bind, try_catch, Date_now.
  rewrite simulateAIResponse_user. unfold ret.
  now rewrite Z.sub_diag.
Qed.

(** C9. [generateAIResponse] returns for every input and never throws.
    When [simulateAIResponse] throws, the result is flagged as an error,
    its token count is 100 and its content is what [getSystemPrompt]
    serves as error prompt: the fixed apology, for every configured
    prompt version that is not a name inherited from [Object.prototype]
    (for such a name the content is [undefined]). When
    [simulateAIResponse] returns a text, that text is the content. The
    world is left as it was. *)
Theorem generateAIResponse_never_throws :
  forall (this : AIService.t) (conversationContext : option (list Turn.t))
         (w : World),
  exists r,
    AIService.generateAIResponse this conversationContext w = (Returns r, w)
    /\ (forall e w1,
          AIService.simulateAIResponse conversationContext w = (Throws e, w1) ->
          AIService.AIResponse.content r
          = AiConfig.getSystemPrompt (AIService.AI_CONFIG this)
              AiConfig.type_error None
          /\ (inherited (AiConfig.systemPromptVersion (AIService.AI_CONFIG this))
              = false ->
              AIService.AIResponse.content r
              = Some (AiConfig.error AiConfig.prompts_v2_0))
          /\ (inherited (AiConfig.systemPromptVersion (AIService.AI_CONFIG this))
              = true ->
              AIService.AIResponse.content r = None)
          /\ AIService.AIResponse.tokenCount r = 100
          /\ AIService.AIResponse.error r = true)
    /\ (forall text w1,
          AIService.simulateAIResponse conversationContext w = (Returns text, w1) ->
          AIService.AIResponse.content r = Some text
          /\ AIService.AIResponse.error r = false)
    /\ (forall env,
          this = AIService.constructor env ->
          AiConfig.AI_SYSTEM_PROMPT_VERSION env = None ->
          inherited (AiConfig.systemPromptVersion (AIService.AI_CONFIG this))
          = false).
Proof.
  intros this context w.
  unfold AIService.generateAIResponse, bind, try_catch, Date_now.
  pose proof (simulateAIResponse_stateless context w) as Hw.
  assert (Hdefault :
            forall env,
              this = AIService.constructor env ->
              AiConfig.AI_SYSTEM_PROMPT_VERSION env = None ->
              inherited (AiConfig.systemPromptVersion (AIService.AI_CONFIG this))
              = false).
  { intros env -> Hnone.
    cbn [AIService.constructor AIService.AI_CONFIG AiConfig.AI_CONFIG
         AiConfig.systemPromptVersion].
    rewrite Hnone. reflexivity. }
  destruct (AIService.simulateAIResponse context w) as [[text|e] w1];
    simpl in Hw; subst w1; unfold ret; simpl.
  - eexists. split; [reflexivity|]. split; [|split; [|exact Hdefault]].
    + intros e w1 H. discriminate.
    + intros text' w1 H. inversion H; subst. split; reflexivity.
  - eexists. split; [reflexivity|]. split; [|split; [|exact Hdefault]].
    + intros e' w1 H. cbn [AIService.AIResponse.content
                            AIService.AIResponse.tokenCount
                            AIService.AIResponse.error].
      rewrite getSystemPrompt_cases. cbn [string_or].
      split; [reflexivity|].
      split; [intros ->; reflexivity|].
      split; [intros ->; reflexivity|]. split; reflexivity.
    + intros text w1 H. discriminate.
Qed.

Lemma generateAIResponse_never_throws_witness :
  exists r,
    AIService.generateAIResponse Examples.service
      (Some [ {| Turn.role := "user"; Turn.content := Number 5 |} ])
      Examples.quiet = (Returns r, Examples.quiet)
    /\ AIService.AIResponse.content r
       = Some (AiConfig.error AiConfig.prompts_v2_0).
Proof.
  destruct (generateAIResponse_never_throws Examples.service
              (Some [ {| Turn.role := "user"; Turn.content := Number 5 |} ])
              Examples.quiet) as (r & Hrun & Hthrow & _ & Hdefault).
  exists r. split; [exact Hrun|].
  destruct (Hthrow _ _ eq_refl) as (_ & Hcontent & _).
  apply Hcontent. exact (Hdefault Examples.env eq_refl eq_refl).
Defined.

End Generator.

(** ** C5: a chat exchange *)

Section Chat.
Import Database Persisted Scenario.

Lemma given_some (conversationId : string) :
  conversationId <> "" -> AIService.given (Some conversationId) = Some conversationId.
Proof.
  intros H. unfold AIService.given.
  destruct (String.eqb conversationId "") eqn:E; [|reflexivity].
  apply String.eqb_eq in E. contradiction.
Qed.

Lemma given_inv conversationId cid :
  AIService.given conversationId = Some cid ->
  conversationId = Some cid /\ cid <> "".
Proof.
  unfold AIService.given. destruct conversationId as [id|]; [|discriminate].
  destruct (String.eqb id "") eqn:E; [discriminate|].
  intros H; inversion H; subst. split; [reflexivity|].
  intros ->. discriminate.
Qed.

(** A call on a conversation identifier throws, and writes nothing: the
    lookup fails, or finds nothing, or is followed by the history query
    that the engine refuses. *)
Lemma processChatMessage_existing_throws this message cid userId context
      (w : World) :
  cid <> "" ->
  exists e w',
    AIService.processChatMessage this message (Some cid) userId context w
    = (Throws e, w')
    /\ store w' = store w.
Proof.
  intros Hcid.
  unfold AIService.processChatMessage, bind, try_catch.
  rewrite (given_some _ Hcid), getConversation_run.
  destruct (request_fails w 1).
  - eexists _, _. split; reflexivity.
  - destruct (visible cid (store w)) as [c|]; cbn [option_map throw].
    + rewrite buildConversationContext_run. eexists _, _. split; reflexivity.
    + eexists _, _. split; reflexivity.
Qed.

(** A call without a conversation identifier that returns. *)
Lemma processChatMessage_new this message conversationId userId context
      (w w' : World) r :
  AIService.given conversationId = None ->
  AIService.processChatMessage this message conversationId userId context w
  = (Returns r, w') ->
  let cid := uuid_of (uuid_counter w) in
  AIService.ChatResult.conversationId r = cid
  /\ AIService.ChatResult.response r = AIService.canned_response message
  /\ AIService.ChatMetadata.messageCount (AIService.ChatResult.metadata r) = 2
  /\ (unused cid (store w) ->
      option_map message_count (visible cid (store w')) = Some 2).
Proof.
  intros Hnone Hrun cid.
  unfold AIService.processChatMessage, bind, try_catch in Hrun.
  rewrite Hnone in Hrun.
  rewrite createConversation_run in Hrun.
  destruct (request_fails w 1); [discriminate|].
  cbn [ret throw Date_now Conversation.conversationId] in Hrun.
  rewrite addMessage_run in Hrun.
  destruct (request_fails _ 4); [discriminate|].
  rewrite generateAIResponse_user in Hrun.
  cbn [AIService.AIResponse.content] in Hrun.
  rewrite addMessage_run in Hrun.
  destruct (request_fails _ 4); [discriminate|].
  inversion Hrun; subst r w'; clear Hrun.
  cbn [AIService.ChatResult.conversationId AIService.ChatResult.response
       AIService.ChatResult.metadata AIService.ChatMetadata.messageCount
       AIService.AIResponse.content Conversation.messageCount
       store after_request after_uuid].
  fold cid.
  split; [reflexivity|]. split; [reflexivity|]. split; [reflexivity|].
  intros [Hrows _].
  rewrite !visible_with_message by reflexivity.
  rewrite visible_after_insert by (assumption || reflexivity).
  reflexivity.
Qed.

(** On a calm world a call without a conversation identifier returns. *)
Lemma processChatMessage_new_returns this message userId context (w : World) :
  calm w ->
  exists r w',
    AIService.processChatMessage this message None userId context w
    = (Returns r, w')
    /\ calm w'.
Proof.
  intros Hcalm.
  unfold AIService.processChatMessage, bind, try_catch.
  cbn [AIService.given].
  rewrite createConversation_run, calm_request by calm_world.
  cbn [ret throw Date_now Conversation.conversationId].
  rewrite addMessage_run, calm_request by calm_world.
  rewrite generateAIResponse_user.
  cbn [AIService.AIResponse.content].
  rewrite addMessage_run, calm_request by calm_world.
  eexists _, _. split; [reflexivity|]. calm_world.
Qed.

(** Whatever the conversation, the response of a call that returns is
    the canned response to its message. *)
Lemma processChatMessage_response this message conversationId userId context
      (w w' : World) r :
  AIService.processChatMessage this message conversationId userId context w
  = (Returns r, w') ->
  AIService.ChatResult.response r = AIService.canned_response message.
Proof.
  intros Hrun.
  destruct (AIService.given conversationId) as [cid|] eqn:Hgiven.
  - destruct (given_inv _ _ Hgiven) as [-> Hcid].
    destruct (processChatMessage_existing_throws this message cid userId context
                w Hcid) as (e & w1 & Hthrows & _).
    rewrite Hthrows in Hrun. discriminate Hrun.
  - now destruct (processChatMessage_new _ _ _ _ _ _ _ _ Hgiven Hrun)
      as (_ & Hresponse & _).
Qed.

(** C5. A [processChatMessage] call without conversation identifier that
    returns carries the identifier of the conversation it opened and the
    response text, reports [messageCount = 0 + 2], and leaves a count of 2
    persisted; on a world where every request completes it does return.
    These are the only calls that return: a call on a conversation
    identifier always throws and writes nothing, since it reads the
    history, whose query the engine refuses. So two successive calls on
    the same identifier do not raise the persisted count by 4: after
    [Examples.first_chat] has opened a conversation and reported 2,
    [Examples.second_chat] on the identifier it returned throws, and the
    persisted count stays 2. *)
Theorem processChatMessage_second_call_throws :
  (forall this message conversationId userId context (w w' : World) r,
     AIService.given conversationId = None ->
     AIService.processChatMessage this message conversationId userId context w
     = (Returns r, w') ->
     AIService.ChatResult.conversationId r = uuid_of (uuid_counter w)
     /\ AIService.ChatResult.response r = AIService.canned_response message
     /\ AIService.ChatMetadata.messageCount (AIService.ChatResult.metadata r)
        = 0 + 2
     /\ (unused (uuid_of (uuid_counter w)) (store w) ->
         option_map message_count
           (visible (AIService.ChatResult.conversationId r) (store w'))
         = Some 2))
  /\ (forall this message userId context (w : World),
        calm w ->
        exists r w',
          AIService.processChatMessage this message None userId context w
          = (Returns r, w'))
  /\ (forall this message cid userId context (w : World),
        cid <> "" ->
        exists e w',
          AIService.processChatMessage this message (Some cid) userId context w
          = (Throws e, w')
          /\ store w' = store w)
  /\ (exists r1 w1,
        Examples.first_chat = (Returns r1, w1)
        /\ AIService.ChatResult.conversationId r1 = Examples.first_id
        /\ AIService.ChatMetadata.messageCount (AIService.ChatResult.metadata r1)
           = 2
        /\ option_map message_count (visible Examples.first_id (store w1))
           = Some 2
        /\ fst Examples.second_chat = Throws RequestError
        /\ option_map message_count
             (visible Examples.first_id (store (snd Examples.second_chat)))
           = Some 2).
Proof.
  split; [|split; [|split]].
  - intros this message conversationId userId context w w' r Hnone Hrun.
    destruct (processChatMessage_new _ _ _ _ _ _ _ _ Hnone Hrun)
      as (Hid & Hresponse & Hcount & Hpersisted).
    rewrite Hid. repeat split; assumption.
  - intros this message userId context w Hcalm.
    destruct (processChatMessage_new_returns this message userId context w Hcalm)
      as (r & w' & Hrun & _).
    now exists r, w'.
  - intros this message cid userId context w Hcid.
    exact (processChatMessage_existing_throws this message cid userId context
             w Hcid).
  - eexists _, _. split; [vm_compute; reflexivity|].
    vm_compute. repeat split; reflexivity.
Qed.

End Chat.

(** ** C4: the keyword classifier *)

Section Classifier.
Import Database Persisted Scenario.

Lemma canned_response_lowered (message message' : string) :
  toLowerCase message' = toLowerCase message ->
  AIService.canned_response message' = AIService.canned_response message.
Proof. unfold AIService.canned_response. now intros ->. Qed.

(** C4. The response depends on nothing but the lower-cased latest
    message, and the world is left untouched. The tests are tried in
    order: a message that mentions "property" or "house" gets the property
    paragraph; otherwise one that mentions "price" or "market" the pricing
    paragraph; otherwise "schedule" or "viewing" the scheduling paragraph;
    otherwise "agent" or "realtor" the agent paragraph; otherwise the
    generic greeting. Every [processChatMessage] call that returns carries
    this response to its message; for "I need a house" it contains the
    word "property". *)
Theorem simulateAIResponse_keyword_classifier :
  forall (history : list Turn.t) (role message : string) (w : World),
    let mentions (word : string) := includes (toLowerCase message) word in
    exists response,
      AIService.simulateAIResponse
        (Some (history ++ [ {| Turn.role := role; Turn.content := Str message |} ])) w
      = (Returns response, w)
      /\ (mentions "property" || mentions "house" = true ->
          response = AIService.property_paragraph)
      /\ (mentions "property" || mentions "house" = false ->
          mentions "price" || mentions "market" = true ->
          response = AIService.pricing_paragraph)
      /\ (mentions "property" || mentions "house" = false ->
          mentions "price" || mentions "market" = false ->
          mentions "schedule" || mentions "viewing" = true ->
          response = AIService.scheduling_paragraph)
      /\ (mentions "property" || mentions "house" = false ->
          mentions "price" || mentions "market" = false ->
          mentions "schedule" || mentions "viewing" = false ->
          mentions "agent" || mentions "realtor" = true ->
          response = AIService.agent_paragraph)
      /\ (mentions "property" || mentions "house" = false ->
          mentions "price" || mentions "market" = false ->
          mentions "schedule" || mentions "viewing" = false ->
          mentions "agent" || mentions "realtor" = false ->
          response = AIService.generic_greeting)
      /\ (forall history' role' message' (w' : World),
            toLowerCase message' = toLowerCase message ->
            AIService.simulateAIResponse
              (Some (history' ++
                       [ {| Turn.role := role'; Turn.content := Str message' |} ])) w'
            = (Returns response, w'))
      /\ (forall this conversationId userId context (w0 w1 : World) r,
            AIService.processChatMessage this message conversationId userId
              context w0 = (Returns r, w1) ->
            AIService.ChatResult.response r = response)
      /\ (message = "I need a house" -> includes response "property" = true).
Proof.
  intros history role message w mentions.
  exists (AIService.canned_response message).
  split; [apply simulateAIResponse_user|].
  subst mentions. cbv beta.
  unfold AIService.canned_response at 1 2 3 4 5.
  split; [now intros ->|].
  split; [now intros -> ->|].
  split; [now intros -> -> ->|].
  split; [now intros -> -> -> ->|].
  split; [now intros -> -> -> ->|].
  split; [|split].
  - intros history' role' message' w' Hlow.
    rewrite simulateAIResponse_user.
    now rewrite (canned_response_lowered _ _ Hlow).
  - intros this conversationId userId context w0 w1 r Hrun.
    exact (processChatMessage_response _ _ _ _ _ _ _ _ Hrun).
  - intros Hmsg. subst message. vm_compute. reflexivity.
Qed.

Lemma simulateAIResponse_keyword_classifier_witness :
  includes
    (AIService.ChatResult.response
       (Examples.value_of Examples.no_chat_result (fst Examples.first_chat)))
    "property" = true
  /\ AIService.ChatResult.response
       (Examples.value_of Examples.no_chat_result (fst Examples.price_chat))
     = AIService.pricing_paragraph.
Proof.
  split.
  - destruct (simulateAIResponse_keyword_classifier [] "user" "I need a house"
                Examples.quiet)
      as (response & _ & _ & _ & _ & _ & _ & _ & Hchat & Hhouse).
    rewrite (Hchat Examples.service None (Some "u1") (JObject []) Examples.quiet
               (snd Examples.first_chat)
               (Examples.value_of Examples.no_chat_result (fst Examples.first_chat))).
    + apply Hhouse. reflexivity.
    + vm_compute; reflexivity.
  - destruct (simulateAIResponse_keyword_classifier [] "user" "what about price"
                Examples.quiet)
      as (response & _ & _ & Hprice & _ & _ & _ & _ & Hchat & _).
    rewrite (Hchat Examples.service None (Some "u1") (JObject []) Examples.quiet
               (snd Examples.price_chat)
               (Examples.value_of Examples.no_chat_result (fst Examples.price_chat))).
    + apply Hprice; vm_compute; reflexivity.
    + vm_compute; reflexivity.
Defined.

End Classifier.

(** ** C7: retention *)

Section Retention.
Import Database Persisted Scenario.

Lemma update_where_pointwise {A : Type} (p : A -> bool) (f : A -> A) (l : list A) :
  Forall2 (fun before after => after = if p before then f before else before)
    l (update_where p f l).
Proof.
  induction l as [|r l IH]; simpl; constructor; [reflexivity|exact IH].
Qed.

Lemma expired_spec cutoffDate r :
  expired cutoffDate r = true <->
  created_at r < cutoffDate /\ status r <> "deleted".
Proof.
  unfold expired, not_deleted.
  rewrite andb_true_iff, Z.ltb_lt, negb_true_iff, String.eqb_neq. reflexivity.
Qed.

(** Without a clock change between the two ends of the retention window
    the cut-off lies whole days of 24 hours back. *)
Lemma setDate_days_back_steady (zone : TimeZone) (t n : Z) :
  offset_at_local zone (t + offset_at_utc zone t - n * msPerDay)
  = offset_at_utc zone t ->
  setDate_days_back zone t n = t - n * msPerDay.
Proof.
  unfold setDate_days_back, msPerDay. cbv zeta. intros ->. lia.
Qed.

(** C7. When its request completes, [cleanupOldConversations] rewrites
    exactly the rows created before the cut-off that are not soft-deleted
    yet: each gets status 'deleted' and a fresh update instant, every
    other row stays as it was, and the number returned is the number of
    rows rewritten. Afterwards every conversation created before the
    cut-off is soft-deleted. The cut-off is the current instant moved back
    by the retention in calendar days of the process's time zone: whole
    days of 24 hours when the zone's offset is the same at both ends, and
    off by the clock change otherwise. With a retention of 90 days, in
    any zone whose clock change over the window is under a day, a
    conversation created 91 days ago (or earlier) ends up soft-deleted
    and one created 89 days ago (or later) is unchanged. *)
Theorem cleanupOldConversations_soft_deletes_expired :
  forall (zone : TimeZone) (this : ConversationManager.t) (w : World),
    request_fails w 1 = false ->
    let days := ConversationManager.dataRetentionDays this in
    let cutoffDate := setDate_days_back zone (clock w) days in
    let clock_change := cutoffDate - (clock w - days * msPerDay) in
    let mutated (r : ConversationRow) :=
      (created_at r <? cutoffDate) && negb (String.eqb (status r) "deleted") in
    exists n w',
      ConversationManager.cleanupOldConversations zone this w = (Returns n, w')
      /\ n = Z.of_nat (List.length (filter mutated (Conversations (store w))))
      /\ Messages (store w') = Messages (store w)
      /\ (offset_at_local zone
            (clock w + offset_at_utc zone (clock w) - days * msPerDay)
          = offset_at_utc zone (clock w) ->
          clock_change = 0)
      /\ Forall2
           (fun before after =>
              (mutated before = true ->
               after <> before
               /\ status after = "deleted"
               /\ updated_at after = request_time w
               /\ conversation_id after = conversation_id before
               /\ user_id after = user_id before
               /\ created_at after = created_at before
               /\ metadata after = metadata before
               /\ message_count after = message_count before)
              /\ (mutated before = false -> after = before)
              /\ (created_at before < cutoffDate -> status after = "deleted")
              /\ (cutoffDate <= created_at before -> after = before)
              /\ (days = 90 ->
                  - msPerDay < clock_change < msPerDay ->
                  (created_at before <= clock w - 91 * msPerDay ->
                   status after = "deleted")
                  /\ (clock w - 89 * msPerDay <= created_at before ->
                      after = before)))
           (Conversations (store w)) (Conversations (store w')).
Proof.
  intros zone this w Hok days cutoffDate clock_change mutated.
  rewrite cleanupOldConversations_run, Hok.
  eexists _, _. split; [reflexivity|].
  split; [reflexivity|]. split; [reflexivity|].
  split.
  { intros Hsteady. unfold clock_change, cutoffDate.
    rewrite (setDate_days_back_steady _ _ _ Hsteady). lia. }
  cbn [store after_request Conversations with_conversations].
  eapply Forall2_impl; [|apply update_where_pointwise].
  intros before after ->.
  change (expired (ConversationManager.cutoff zone this (clock w)) before)
    with (mutated before).
  assert (Hspec : mutated before = true <->
                  created_at before < cutoffDate /\ status before <> "deleted")
    by apply expired_spec.
  destruct (mutated before) eqn:E.
  - destruct (proj1 Hspec eq_refl) as [Hold Hlive].
    split; [intros _|split; [discriminate|split; [reflexivity|split]]].
    + split; [|repeat split; reflexivity].
      intros Heq. apply Hlive. rewrite <- Heq. reflexivity.
    + intros Hle. lia.
    + intros H90 Hchange. split; [reflexivity|].
      intros Hle. unfold clock_change in Hchange. rewrite H90 in Hchange.
      unfold msPerDay in *. lia.
  - split; [discriminate|split; [reflexivity|split; [|split]]].
    + intros Hold.
      destruct (String.eqb (status before) "deleted") eqn:Es.
      * now apply String.eqb_eq in Es.
      * exfalso. apply String.eqb_neq in Es.
        assert (false = true) by (apply Hspec; split; assumption).
        discriminate.
    + reflexivity.
    + intros H90 Hchange. split; [|reflexivity].
      intros Hle.
      destruct (String.eqb (status before) "deleted") eqn:Es.
      * now apply String.eqb_eq in Es.
      * exfalso. apply String.eqb_neq in Es.
        assert (false = true).
        { apply Hspec; split; [|assumption].
          unfold clock_change in Hchange. rewrite H90 in Hchange.
          unfold msPerDay in *. lia. }
        discriminate.
Qed.

Lemma cleanupOldConversations_soft_deletes_expired_witness :
  (exists w',
     ConversationManager.cleanupOldConversations UTC Examples.manager
       Examples.aged = (Returns 1, w')
     /\ map status (Conversations (store w')) = [ "deleted"; "active"; "deleted" ])
  /\ (exists w',
        ConversationManager.cleanupOldConversations Examples.eastern
          Examples.manager Examples.aged = (Returns 1, w')
        /\ map status (Conversations (store w'))
           = [ "deleted"; "active"; "deleted" ]).
Proof.
  split.
  - destruct (cleanupOldConversations_soft_deletes_expired
                UTC Examples.manager Examples.aged eq_refl)
      as (n & w' & Hrun & Hn & _).
    exists w'. split.
    + rewrite Hrun, Hn. reflexivity.
    + revert Hrun. vm_compute. intros H. inversion H. reflexivity.
  - destruct (cleanupOldConversations_soft_deletes_expired
                Examples.eastern Examples.manager Examples.aged eq_refl)
      as (n & w' & Hrun & Hn & _).
    exists w'. split.
    + rewrite Hrun, Hn. reflexivity.
    + revert Hrun. vm_compute. intros H. inversion H. reflexivity.
Defined.

End Retention.

(** ** C8 and C10: status updates *)

Section Status.
Import Database Persisted Scenario.

Lemma count_where_zero {A : Type} (p : A -> bool) (l : list A) :
  count_where p l = 0 <-> filter p l = [].
Proof.
  unfold count_where. destruct (filter p l); simpl List.length; split; intros H;
    try reflexivity; discriminate.
Qed.

Lemma count_where_nonneg {A : Type} (p : A -> bool) (l : list A) :
  0 <= count_where p l.
Proof. unfold count_where. lia. Qed.

(** C8. [updateConversationStatus] throws 'Conversation not found' exactly
    when its UPDATE ran and affected no row. When the UPDATE affected at
    least one row the call returns, and every row of the conversation
    carries the new status, the instant of the request as update instant
    and, if metadata was passed and is truthy, the new metadata (metadata
    that is [null], [false], 0 or the empty string is not written), while
    all other rows are unchanged. *)
Theorem updateConversationStatus_not_found_iff_no_row :
  forall (conversationId newStatus : string) (newMetadata : option Json)
         (w : World),
    let affected :=
      count_where (is_conversation conversationId) (Conversations (store w)) in
    ((exists w',
        ConversationManager.updateConversationStatus conversationId newStatus
          newMetadata w = (Throws (mkError "Conversation not found"), w'))
     <-> request_fails w 1 = false /\ affected = 0)
    /\ (request_fails w 1 = false -> 0 < affected ->
        exists w',
          ConversationManager.updateConversationStatus conversationId newStatus
            newMetadata w = (Returns tt, w')
          /\ Forall2
               (fun before after =>
                  if String.eqb (conversation_id before) conversationId
                  then status after = newStatus
                       /\ updated_at after = request_time w
                       /\ metadata after
                          = match newMetadata with
                            | Some m => if truthy_json m then m
                                        else metadata before
                            | None => metadata before
                            end
                       /\ conversation_id after = conversation_id before
                       /\ user_id after = user_id before
                       /\ created_at after = created_at before
                       /\ message_count after = message_count before
                  else after = before)
               (Conversations (store w)) (Conversations (store w'))).
Proof.
  intros cid newStatus md w affected.
  rewrite updateConversationStatus_run.
  pose proof (count_where_nonneg (is_conversation cid) (Conversations (store w))) as Hpos.
  fold affected in Hpos |- *.
  destruct (request_fails w 1).
  - split.
    + split; [intros [w' H]; discriminate | intros [H _]; discriminate].
    + discriminate.
  - cbv zeta. destruct (affected =? 0) eqn:E.
    + apply Z.eqb_eq in E. split.
      * split; [intros _; split; [reflexivity|exact E] | intros _; eexists; reflexivity].
      * intros _ H. lia.
    + apply Z.eqb_neq in E. split.
      * split; [intros [w' H]; discriminate | intros [_ H]; contradiction].
      * intros _ _. eexists. split; [reflexivity|].
        cbn [store after_request Conversations with_conversations].
        eapply Forall2_impl; [|apply update_where_pointwise].
        intros before after ->. unfold is_conversation.
        destruct (String.eqb (conversation_id before) cid);
          [|reflexivity].
        cbn [status updated_at metadata conversation_id user_id created_at
             message_count set_status].
        unfold ConversationManager.given_metadata.
        destruct md as [m|]; [destruct (truthy_json m)|];
          repeat split; reflexivity.
Qed.

Lemma updateConversationStatus_not_found_iff_no_row_witness :
  exists w',
    ConversationManager.updateConversationStatus "recent" "archived" None
      Examples.aged = (Returns tt, w')
    /\ map status (Conversations (store w')) = [ "active"; "archived"; "deleted" ].
Proof.
  destruct (proj2 (updateConversationStatus_not_found_iff_no_row
                     "recent" "archived" None Examples.aged))
    as (w' & Hrun & _).
  - reflexivity.
  - reflexivity.
  - exists w'. split; [exact Hrun|].
    revert Hrun. vm_compute. intros H. inversion H. reflexivity.
Defined.

Lemma in_filter_nonempty {A : Type} (p : A -> bool) (l : list A) (r : A) :
  In r l -> p r = true -> filter p l <> [].
Proof.
  intros Hin Hp Hnil.
  assert (H : In r (filter p l)) by (apply filter_In; split; assumption).
  rewrite Hnil in H. exact H.
Qed.

Lemma set_status_visible cid now newStatus md (l : list ConversationRow) :
  newStatus <> "deleted" ->
  filter (visible_conversation cid)
    (update_where (is_conversation cid) (set_status now newStatus md) l)
  = map (set_status now newStatus md) (filter (is_conversation cid) l).
Proof.
  intros Hlive. induction l as [|r l IH]; simpl; [reflexivity|].
  unfold visible_conversation at 1.
  destruct (is_conversation cid r) eqn:E; simpl.
  - unfold is_conversation in E |- *. cbn [conversation_id set_status].
    rewrite E. unfold not_deleted. cbn [status set_status].
    apply String.eqb_neq in Hlive. rewrite Hlive. simpl.
    f_equal. exact IH.
  - rewrite E. simpl. exact IH.
Qed.

(** C10. [updateConversationStatus] does not look at the current status.
    On a conversation whose rows are all soft-deleted, which
    [getConversation] reports as absent, a status update whose request
    completes returns without error and overwrites the status; once it is
    set to 'active' (or anything but 'deleted') [getConversation] finds
    the conversation again, and [getUserConversations] of its user, with
    offset 0 and a limit that covers the table, lists it. *)
Theorem updateConversationStatus_revives_soft_deleted :
  forall (conversationId : string) (w : World) (r : ConversationRow),
    In r (Conversations (store w)) ->
    conversation_id r = conversationId ->
    (forall r', In r' (Conversations (store w)) ->
                conversation_id r' = conversationId -> status r' = "deleted") ->
    request_fails w 1 = false ->
    ConversationManager.getConversation conversationId w
    = (Returns None, after_request w (store w))
    /\ forall newStatus newMetadata,
        exists w',
          ConversationManager.updateConversationStatus conversationId newStatus
            newMetadata w = (Returns tt, w')
          /\ Forall (fun after => conversation_id after = conversationId ->
                                  status after = newStatus)
               (Conversations (store w'))
          /\ (newStatus <> "deleted" ->
              request_fails w' 1 = false ->
              (exists c w'',
                 ConversationManager.getConversation conversationId w'
                 = (Returns (Some c), w'')
                 /\ Conversation.conversationId c = conversationId
                 /\ Conversation.status c = newStatus)
              /\ (forall limit,
                    Z.of_nat (List.length (Conversations (store w))) <= limit ->
                    exists listed w'',
                      ConversationManager.getUserConversations (user_id r) limit 0 w'
                      = (Returns listed, w'')
                      /\ exists c, In c listed
                                   /\ Conversation.conversationId c = conversationId
                                   /\ Conversation.status c = newStatus)).
Proof.
  intros cid w r Hin Hid Hdeleted Hok.
  assert (Hr : is_conversation cid r = true)
    by (unfold is_conversation; rewrite Hid; apply String.eqb_refl).
  split.
  - (* absent before *)
    rewrite getConversation_run, Hok. unfold visible.
    replace (filter (visible_conversation cid) (Conversations (store w))) with
      (@nil ConversationRow); [reflexivity|].
    symmetry. clear Hin.
    induction (Conversations (store w)) as [|x l IH]; simpl; [reflexivity|].
    unfold visible_conversation at 1, is_conversation, not_deleted.
    destruct (String.eqb (conversation_id x) cid) eqn:E; simpl.
    + apply String.eqb_eq in E.
      rewrite (Hdeleted x (or_introl eq_refl) E). simpl.
      apply IH. intros; apply Hdeleted; [right|]; assumption.
    + apply IH. intros; apply Hdeleted; [right|]; assumption.
  - intros newStatus md.
    rewrite updateConversationStatus_run, Hok. cbv zeta.
    destruct (count_where (is_conversation cid) (Conversations (store w)) =? 0) eqn:E.
    { apply Z.eqb_eq, count_where_zero in E.
      exfalso. exact (in_filter_nonempty _ _ _ Hin Hr E). }
    eexists. split; [reflexivity|].
    cbn [store after_request Conversations with_conversations].
    split.
    + unfold update_where. apply Forall_map, Forall_forall.
      intros x _. unfold is_conversation.
      destruct (String.eqb (conversation_id x) cid) eqn:Ex; [reflexivity|].
      intros Hx. apply String.eqb_neq in Ex. contradiction.
    + intros Hlive Hok'.
      set (revived := set_status (request_time w) newStatus
                        (ConversationManager.given_metadata md) r).
      assert (Hvis : In revived
                       (filter (visible_conversation cid)
                          (update_where (is_conversation cid)
                             (set_status (request_time w) newStatus
                                (ConversationManager.given_metadata md))
                             (Conversations (store w))))).
      { rewrite set_status_visible by assumption.
        apply in_map, filter_In. split; assumption. }
      split.
      * rewrite getConversation_run, Hok'. unfold visible.
        cbn [store after_request Conversations with_conversations].
        rewrite set_status_visible by assumption.
        destruct (filter (is_conversation cid) (Conversations (store w)))
          as [|x l] eqn:Ef.
        { exfalso. exact (in_filter_nonempty _ _ _ Hin Hr Ef). }
        cbn [map hd_error option_map].
        eexists _, _. split; [reflexivity|].
        assert (Hx : In x (filter (is_conversation cid) (Conversations (store w))))
          by (rewrite Ef; left; reflexivity).
        apply filter_In in Hx. destruct Hx as [_ Hx].
        unfold is_conversation in Hx. apply String.eqb_eq in Hx.
        split; [exact Hx|reflexivity].
      * intros limit Hlimit.
        rewrite getUserConversations_run, Hok'.
        cbn [store after_request Conversations with_conversations].
        eexists _, _. split; [reflexivity|].
        exists (ConversationManager.summary_of_row revived).
        split; [|split; [exact Hid|reflexivity]].
        apply in_map.
        rewrite offset_limit_all.
        -- eapply Permutation_in;
             [apply Permutation_sym, order_by_desc_permutation|].
           apply filter_In. split.
           ++ unfold update_where. apply in_map_iff. exists r.
              rewrite Hr. split; [reflexivity|exact Hin].
           ++ unfold visible_for_user, not_deleted, revived.
              cbn [user_id status set_status].
              rewrite String.eqb_refl.
              apply String.eqb_neq in Hlive. now rewrite Hlive.
        -- rewrite order_by_desc_length.
           eapply Z.le_trans; [|exact Hlimit].
           apply inj_le.
           eapply Nat.le_trans; [apply filter_length_le|].
           unfold update_where. now rewrite length_map.
Qed.

Lemma updateConversationStatus_revives_soft_deleted_witness :
  exists w',
    ConversationManager.updateConversationStatus "gone" "active" None
      Examples.aged = (Returns tt, w')
    /\ exists c w'',
         ConversationManager.getConversation "gone" w' = (Returns (Some c), w'')
         /\ Conversation.status c = "active".
Proof.
  destruct (updateConversationStatus_revives_soft_deleted
              "gone" Examples.aged (Examples.conversation_row "gone" 400 "deleted"))
    as [_ Hupdate].
  - right; right; left; reflexivity.
  - reflexivity.
  - intros r' [<-|[<-|[<-|[]]]]; (discriminate || reflexivity).
  - reflexivity.
  - destruct (Hupdate "active" None) as (w' & Hrun & _ & Hagain).
    exists w'. split; [exact Hrun|].
    destruct Hagain as [(c & w'' & Hget & _ & Hstatus) _].
    + discriminate.
    + revert Hrun. vm_compute. intros H. inversion H. reflexivity.
    + now exists c, w''.
Defined.

End Status.

(** ** C6: market analysis without data *)

Section Market.
Import Database Persisted Scenario.

(** Whenever the request completes the aggregate has its one row, so the
    guard on an empty record set never fires: with no matching listing
    the call returns the analysis of nothing. *)
Lemma getMarketAnalysis_no_match location propertyType (w : World) :
  request_fails w 1 = false ->
  filter (in_market (request_time w) location propertyType)
    (Properties (store w)) = [] ->
  BrokerService.getMarketAnalysis location (Some propertyType) w
  = (Returns (Examples.empty_analysis location propertyType (request_time w)),
     after_request w (store w)).
Proof.
  intros Hok Hnone.
  unfold BrokerService.getMarketAnalysis, bind, try_catch.
  rewrite executeQuery_single by (discriminate || reflexivity).
  rewrite Hok. cbn [exec_statement recordset]. rewrite Hnone.
  reflexivity.
Qed.

(** C6 (the code departs from the claim). The market holds one listing,
    in Dallas; no row matches location "Austin". [getMarketAnalysis]
    does not fail: it returns an analysis with zero listings, averages
    of 0 and no minimum or maximum. *)
Theorem getMarketAnalysis_zero_rows_returns_analysis :
  filter (in_market (request_time Examples.market) "Austin" "residential")
    (Properties (store Examples.market)) = []
  /\ BrokerService.getMarketAnalysis "Austin" None Examples.market
     = (Returns (Examples.empty_analysis "Austin" "residential"
                   (request_time Examples.market)),
        after_request Examples.market (store Examples.market))
  /\ forall e w',
       BrokerService.getMarketAnalysis "Austin" None Examples.market
       <> (Throws e, w').
Proof.
  assert (Hnone : filter (in_market (request_time Examples.market)
                            "Austin" "residential")
                    (Properties (store Examples.market)) = [])
    by (vm_compute; reflexivity).
  assert (Hrun : BrokerService.getMarketAnalysis "Austin" None Examples.market
                 = (Returns (Examples.empty_analysis "Austin" "residential"
                               (request_time Examples.market)),
                    after_request Examples.market (store Examples.market)))
    by (apply (getMarketAnalysis_no_match "Austin" "residential" Examples.market);
        [reflexivity|exact Hnone]).
  split; [exact Hnone|]. split; [exact Hrun|].
  intros e w' H. rewrite Hrun in H. discriminate.
Qed.

End Market.

(** ** Worked scenarios *)

Section Scenarios.
Import Database Persisted Scenario.

(** In [flaky] the second of three [addMessage] calls fails: its UPDATE
    raises an error after its INSERT ran. The call throws, yet its message
    is persisted at the commit that follows, without an increment. *)
Example flaky_series :
  map (fun outcome => match outcome with Returns _ => true | Throws _ => false end)
      (fst Examples.after_calls) = [ true; false; true ]
  /\ map content (Messages (store (snd Examples.after_calls)))
     = [ "I need a house"; "lost"; "what about price" ]
  /\ map message_count (Conversations (store (snd Examples.after_calls))) = [ 2 ].
Proof. vm_compute. repeat split; reflexivity. Qed.

(** What the same batch leaves behind by the way its request goes wrong:
    an error raised by the INSERT leaves the increment alone, an error
    raised by the UPDATE the message alone, and a request cut short
    leaves nothing. *)
Example torn_batches :
  let t := store (snd Examples.after_create) in
  let batch :=
    [ BEGIN_TRANSACTION;
      insert_message "m" Examples.first_id "user" "hello" JNull 2;
      update_message_count Examples.first_id;
      COMMIT_TRANSACTION ] in
  let left (f : Fate) :=
    let '(outcome, t') :=
      run_batch 0 f 0 batch t None
        {| recordset := NoRecordset; rowsAffected := [] |} false in
    (match outcome with Returns _ => true | Throws _ => false end,
     List.length (Messages t'), map message_count (Conversations t')) in
  left Completes = (true, 1%nat, [ 1 ])
  /\ left (FailsAt 1) = (false, 0%nat, [ 1 ])
  /\ left (FailsAt 2) = (false, 1%nat, [ 0 ])
  /\ left (AbortsAt 2) = (false, 0%nat, [ 0 ])
  /\ left (FailsAt 3) = (false, 0%nat, [ 0 ]).
Proof. vm_compute. repeat split; reflexivity. Qed.

(** A status update on an identifier no row carries. *)
Example update_missing_conversation :
  fst (ConversationManager.updateConversationStatus "missing" "paused" None
         Examples.aged)
  = Throws (mkError "Conversation not found").
Proof. reflexivity. Qed.

(** Metadata that is falsy is not written by a status update. *)
Example falsy_metadata_not_written :
  map metadata
    (Conversations
       (store (snd (ConversationManager.updateConversationStatus "recent"
                      "paused" (Some (JString "")) Examples.aged))))
  = [ JObject []; JObject []; JObject [] ]
  /\ map metadata
       (Conversations
          (store (snd (ConversationManager.updateConversationStatus "recent"
                         "paused" (Some (JString "vip")) Examples.aged))))
     = [ JObject []; JString "vip"; JObject [] ].
Proof. vm_compute. split; reflexivity. Qed.

(** The first test that matches decides: a message about the price of a
    house gets the property paragraph. Capitals do not matter. *)
Example first_match_wins :
  AIService.canned_response "What is the PRICE of this House?"
  = AIService.property_paragraph
  /\ AIService.canned_response "Any REALTOR around?" = AIService.agent_paragraph
  /\ AIService.canned_response "" = AIService.generic_greeting.
Proof. vm_compute. repeat split; reflexivity. Qed.

(** Two exchanges in [quiet]: the first opens a conversation and reports
    2; the second, on the identifier the first returned, throws, and so
    does reading the history. *)
Example two_exchanges :
  map (fun chat =>
         option_map
           (fun r => AIService.ChatMetadata.messageCount
                       (AIService.ChatResult.metadata r))
           (match fst chat with Returns r => Some r | Throws _ => None end))
      [ Examples.first_chat; Examples.second_chat ] = [ Some 2; None ]
  /\ fst (ConversationManager.getConversationHistory Examples.manager
            Examples.first_id (Some 10) 0 (snd Examples.second_chat))
     = Throws RequestError.
Proof. vm_compute. repeat split; reflexivity. Qed.

(** With a prompt version that every object inherits, the error prompt is
    [undefined], and so is the content of a failed generation. *)
Example inherited_prompt_version :
  AiConfig.getSystemPrompt (AIService.AI_CONFIG Examples.odd_service)
    AiConfig.type_error None = None
  /\ option_map AIService.AIResponse.content
       (match fst (AIService.generateAIResponse Examples.odd_service None
                     Examples.quiet) with
        | Returns r => Some r
        | Throws _ => None
        end) = Some None.
Proof. vm_compute. split; reflexivity. Qed.

(** Across the day the clocks are set back, 90 calendar days are 90 days
    and one hour: a conversation created 90 days and half an hour before
    [Examples.today] is past the cut-off in UTC and not yet in
    [Examples.eastern]. *)
Example calendar_days :
  let created := Examples.today - 90 * msPerDay - 1800000 in
  (created <? ConversationManager.cutoff UTC Examples.manager Examples.today)
  = true
  /\ (created <? ConversationManager.cutoff Examples.eastern Examples.manager
                   Examples.today) = false.
Proof. vm_compute. split; reflexivity. Qed.

(** The absorption rate is rounded from doubles: with 29 of 200 listings
    sold, the quotient 0.145 times 100 is the double just below 14.5,
    which rounds to 14, where the exact value 14.5 would round to 15. *)
Example absorption_rate_of_doubles :
  Math_round (Number_multiply (Number_divide (inject_Z 29) (inject_Z 200))
                (inject_Z 100)) = 14
  /\ Math_round (inject_Z 29 / inject_Z 200 * inject_Z 100)%Q = 15.
Proof. vm_compute. split; reflexivity. Qed.

End Scenarios.

(* ===================================================================== *)
(** * Further properties of the conversation manager *)
(* ===================================================================== *)

Section Lookup.
Import Database Persisted Scenario.

(** X1. A conversation that [createConversation] has just inserted under
    an unused identifier is found by [getConversation]: same identifier,
    user ('anonymous' when none or an empty one was given), status
    'active', metadata, and a message count of 0; its update instant is
    its creation instant. *)
Theorem createConversation_then_getConversation :
  forall userId md (w0 w1 : World) conv,
    ConversationManager.createConversation userId md w0 = (Returns conv, w1) ->
    unused (Conversation.conversationId conv) (store w0) ->
    request_fails w1 1 = false ->
    exists found w2,
      ConversationManager.getConversation (Conversation.conversationId conv) w1
      = (Returns (Some found), w2)
      /\ Conversation.conversationId found = Conversation.conversationId conv
      /\ Conversation.userId found = Conversation.userId conv
      /\ Conversation.userId found = Some (string_or userId "anonymous")
      /\ Conversation.status found = "active"
      /\ Conversation.status conv = "active"
      /\ Conversation.metadata found = md
      /\ Conversation.metadata conv = md
      /\ Conversation.messageCount found = 0
      /\ Conversation.messageCount conv = 0
      /\ Conversation.updatedAt found = Some (Conversation.createdAt found).
Proof.
  intros userId md w0 w1 conv Hcreate [Hrows _] Hok.
  rewrite createConversation_run in Hcreate.
  destruct (request_fails w0 1); [discriminate|].
  inversion Hcreate; subst conv w1; clear Hcreate.
  cbn [Conversation.conversationId] in *.
  rewrite getConversation_run, Hok.
  cbn [store after_request].
  rewrite visible_after_insert by (assumption || reflexivity).
  eexists _, _. split; [reflexivity|].
  repeat split; reflexivity.
Qed.

Lemma createConversation_then_getConversation_witness :
  exists found w2,
    ConversationManager.getConversation Examples.first_id
      (snd Examples.after_create) = (Returns (Some found), w2)
    /\ Conversation.userId found = Some "u1"
    /\ Conversation.messageCount found = 0.
Proof.
  destruct (createConversation_then_getConversation (Some "u1") JNull
              Examples.flaky (snd Examples.after_create) Examples.created)
    as (found & w2 & Hget & _ & _ & Huser & _ & _ & _ & _ & Hcount & _).
  - vm_compute; reflexivity.
  - split; vm_compute; reflexivity.
  - vm_compute; reflexivity.
  - exists found, w2. repeat split; assumption.
Defined.

(** X2. Reading never writes: whatever the outcome, [getConversation],
    [getConversationHistory], [getUserConversations] and
    [buildConversationContext] leave every table as it was. *)
Theorem reads_leave_tables_unchanged :
  forall (this : ConversationManager.t) (cfg : AiConfig.AI_CONFIG_t)
         (conversationId userId : string) (limit : option Z)
         (pageSize offset : Z) (includeSystemPrompt : bool) (w : World),
    store (snd (ConversationManager.getConversation conversationId w)) = store w
    /\ store (snd (ConversationManager.getConversationHistory this conversationId
                     limit offset w)) = store w
    /\ store (snd (ConversationManager.getUserConversations userId pageSize
                     offset w)) = store w
    /\ store (snd (ConversationManager.buildConversationContext this cfg
                     conversationId includeSystemPrompt w)) = store w.
Proof.
  intros this cfg cid userId limit pageSize offset includeSystemPrompt w.
  split; [|split; [|split]].
  - rewrite getConversation_run. destruct (request_fails w 1); reflexivity.
  - rewrite getConversationHistory_run. reflexivity.
  - rewrite getUserConversations_run. destruct (request_fails w 1); reflexivity.
  - rewrite buildConversationContext_run. reflexivity.
Qed.

End Lookup.

Section Listing.
Import Database Persisted Scenario.

Lemma in_offset_limit {A : Type} (offset limit : Z) (l : list A) (x : A) :
  In x (offset_limit offset limit l) -> In x l.
Proof.
  unfold offset_limit. intros H.
  rewrite <- (firstn_skipn (Z.to_nat offset) l). apply in_or_app. right.
  rewrite <- (firstn_skipn (Z.to_nat limit) (skipn (Z.to_nat offset) l)).
  apply in_or_app. now left.
Qed.

(** X5. When its request completes, [getUserConversations] lists rows of
    the table that belong to the user and are not soft-deleted, most
    recently updated first, never more than [limit] of them; with offset 0
    and a limit that covers them it lists all of them. *)
Theorem getUserConversations_lists_visible_recent_first :
  forall (userId : string) (limit offset : Z) (w : World),
    request_fails w 1 = false ->
    exists listed w',
      ConversationManager.getUserConversations userId limit offset w
      = (Returns (map ConversationManager.summary_of_row listed), w')
      /\ (forall r, In r listed ->
                    In r (Conversations (store w))
                    /\ user_id r = userId /\ status r <> "deleted")
      /\ StronglySorted (descending updated_at) listed
      /\ (List.length listed <= Z.to_nat limit)%nat
      /\ (offset = 0 ->
          Z.of_nat (List.length (filter (visible_for_user userId)
                                   (Conversations (store w)))) <= limit ->
          Permutation listed
            (filter (visible_for_user userId) (Conversations (store w)))).
Proof.
  intros userId limit offset w Hok.
  rewrite getUserConversations_run, Hok.
  eexists _, _. split; [reflexivity|].
  split; [|split; [|split]].
  - intros r Hr. apply in_offset_limit in Hr.
    eapply Permutation_in in Hr; [|apply order_by_desc_permutation].
    apply filter_In in Hr. destruct Hr as [Hin Hvis].
    unfold visible_for_user, not_deleted in Hvis.
    apply andb_prop in Hvis. destruct Hvis as [Hu Hs].
    apply String.eqb_eq in Hu. apply negb_true_iff, String.eqb_neq in Hs.
    repeat split; assumption.
  - apply offset_limit_sorted, order_by_desc_sorted.
  - unfold offset_limit. apply firstn_le_length.
  - intros -> Hcover. rewrite offset_limit_all.
    + apply order_by_desc_permutation.
    + now rewrite order_by_desc_length.
Qed.

Lemma getUserConversations_lists_visible_recent_first_witness :
  exists listed w',
    ConversationManager.getUserConversations "u1" 10 0 Examples.aged
    = (Returns (map ConversationManager.summary_of_row listed), w')
    /\ List.length listed = 2%nat.
Proof.
  destruct (getUserConversations_lists_visible_recent_first "u1" 10 0
              Examples.aged eq_refl)
    as (listed & w' & Hrun & _ & _ & _ & Hall).
  exists listed, w'. split; [exact Hrun|].
  rewrite (Permutation_length (Hall eq_refl ltac:(vm_compute; discriminate))).
  reflexivity.
Defined.

End Listing.

(* ===================================================================== *)
(** * Further properties of the chat exchange *)
(* ===================================================================== *)

Section Exchange.
Import Database Persisted Scenario.

Lemma update_where_untouched {A : Type} (p : A -> bool) (f : A -> A)
      (l : list A) :
  filter p l = [] -> update_where p f l = l.
Proof.
  induction l as [|x l IH]; simpl; [reflexivity|].
  destruct (p x); [discriminate|]. intros H. now rewrite IH.
Qed.

(** What a returning call that opens a conversation leaves behind. *)
Lemma processChatMessage_new_effect this message conversationId userId context
      (w w' : World) r :
  AIService.given conversationId = None ->
  AIService.processChatMessage this message conversationId userId context w
  = (Returns r, w') ->
  exists t0 t1 t2 id1 id2 md1 md2,
    let cid := uuid_of (uuid_counter w) in
    t1 <= t2
    /\ store w'
       = with_message t2
           (message_row t2 id2 cid "assistant"
              (AIService.canned_response message) md2)
           (with_message t1 (message_row t1 id1 cid "user" message md1)
              (with_conversations (store w)
                 (Conversations (store w) ++
                    [ {| conversation_id := cid;
                         user_id := string_or userId "anonymous";
                         created_at := t0; updated_at := t0;
                         status := "active"; metadata := context;
                         message_count := 0 |} ])))
    /\ AIService.ChatResult.conversationId r = cid
    /\ AIService.ChatResult.response r = AIService.canned_response message
    /\ AIService.ChatMetadata.tokenCount (AIService.ChatResult.metadata r)
       = AIService.estimateTokenCount (AIService.canned_response message).
Proof.
  intros Hnone Hrun.
  unfold AIService.processChatMessage, bind, try_catch in Hrun.
  rewrite Hnone in Hrun.
  rewrite createConversation_run in Hrun.
  destruct (request_fails w 1); [discriminate|].
  cbn [ret throw Date_now Conversation.conversationId] in Hrun.
  rewrite addMessage_run in Hrun.
  destruct (request_fails _ 4); [discriminate|].
  rewrite generateAIResponse_user in Hrun.
  cbn [AIService.AIResponse.content] in Hrun.
  rewrite addMessage_run in Hrun.
  destruct (request_fails _ 4); [discriminate|].
  inversion Hrun; subst r w'; clear Hrun.
  eexists _, _, _, _, _, _, _. cbv zeta.
  split; [|split; [reflexivity|split; [reflexivity|split; reflexivity]]].
  eapply Z.le_trans; [|apply request_time_ge].
  cbn [clock after_request after_uuid]. apply Z.le_refl.
Qed.

(** X6. A returning call that opens a conversation appends exactly two
    messages to the table, in this order: the user's message and the
    assistant's response, both under the identifier the call returns,
    each with the token estimate of its content; the estimate of the
    response is the [tokenCount] the call reports. When the identifier
    drawn was in use by no row, the call adds one conversation row, for
    the user given ('anonymous' when none is), 'active', carrying the
    context as metadata and a count of 2, and touches no other row. The
    listings are untouched. *)
Theorem processChatMessage_appends_user_then_assistant :
  forall this message conversationId userId context (w w' : World) r,
    AIService.given conversationId = None ->
    AIService.processChatMessage this message conversationId userId context w
    = (Returns r, w') ->
    let cid := AIService.ChatResult.conversationId r in
    exists user assistant,
      Messages (store w') = Messages (store w) ++ [ user; assistant ]
      /\ m_conversation_id user = cid
      /\ Database.role user = "user"
      /\ Database.content user = message
      /\ token_count user = ConversationManager.estimateTokenCount message
      /\ m_conversation_id assistant = cid
      /\ Database.role assistant = "assistant"
      /\ Database.content assistant = AIService.ChatResult.response r
      /\ token_count assistant
         = AIService.ChatMetadata.tokenCount (AIService.ChatResult.metadata r)
      /\ m_created_at user <= m_created_at assistant
      /\ Properties (store w') = Properties (store w)
      /\ (unused cid (store w) ->
          exists row,
            Conversations (store w') = Conversations (store w) ++ [ row ]
            /\ conversation_id row = cid
            /\ user_id row = string_or userId "anonymous"
            /\ status row = "active"
            /\ metadata row = context
            /\ message_count row = 2).
Proof.
  intros this message conversationId userId context w w' r Hnone Hrun cid.
  destruct (processChatMessage_new_effect _ _ _ _ _ _ _ _ Hnone Hrun)
    as (t0 & t1 & t2 & id1 & id2 & md1 & md2 & Ht & Hstore & Hid & Hresp & Htok).
  subst cid. rewrite Hstore, Hresp, Htok, Hid.
  set (cid := uuid_of (uuid_counter w)) in *. clearbody cid.
  eexists _, _. cbn [Messages with_message with_conversations].
  split; [rewrite <- app_assoc; reflexivity|].
  repeat (split; [reflexivity|]).
  split; [exact Ht|]. split; [reflexivity|].
  intros [Hrows _].
  cbn [Conversations with_message with_conversations m_conversation_id
       message_row].
  unfold update_where. rewrite !map_app.
  fold (update_where (is_conversation cid) (bump_message_count t1)
          (Conversations (store w))).
  rewrite (update_where_untouched _ _ _ Hrows).
  fold (update_where (is_conversation cid) (bump_message_count t2)
          (Conversations (store w))).
  rewrite (update_where_untouched _ _ _ Hrows).
  cbn [map]. unfold is_conversation at 2. cbn [conversation_id].
  rewrite String.eqb_refl.
  unfold is_conversation. cbn [conversation_id bump_message_count].
  rewrite String.eqb_refl.
  eexists. split; [reflexivity|].
  cbn [conversation_id user_id status metadata message_count bump_message_count].
  repeat split; reflexivity.
Qed.

Lemma processChatMessage_appends_user_then_assistant_witness :
  exists user assistant,
    Messages (store (snd Examples.first_chat)) = [ user; assistant ]
    /\ Database.content user = "I need a house"
    /\ Database.role assistant = "assistant"
    /\ map message_count (Conversations (store (snd Examples.first_chat))) = [ 2 ].
Proof.
  destruct (processChatMessage_appends_user_then_assistant Examples.service
              "I need a house" None (Some "u1") (JObject [])
              Examples.quiet (snd Examples.first_chat)
              (Examples.value_of Examples.no_chat_result (fst Examples.first_chat)))
    as (user & assistant & Hm & _ & _ & Hc & _ & _ & Hr & _ & _ & _ & _ & Hrow).
  - reflexivity.
  - vm_compute; reflexivity.
  - exists user, assistant.
    split; [exact Hm|]. split; [exact Hc|]. split; [exact Hr|].
    destruct Hrow as (row & Hconv & _ & _ & _ & _ & Hcount).
    + split; vm_compute; reflexivity.
    + rewrite Hconv. change ([ message_count row ] = [ 2 ]). now rewrite Hcount.
Defined.

(** X7. On an identifier that [getConversation] reports absent (no row,
    or soft-deleted rows only) [processChatMessage] throws and writes
    nothing; when its first request completes the error is 'Conversation
    not found'. *)
Theorem processChatMessage_absent_conversation :
  forall this message cid userId context (w : World),
    cid <> "" ->
    visible cid (store w) = None ->
    exists e w',
      AIService.processChatMessage this message (Some cid) userId context w
      = (Throws e, w')
      /\ store w' = store w
      /\ (request_fails w 1 = false -> e = mkError "Conversation not found").
Proof.
  intros this message cid userId context w Hcid Hnone.
  unfold AIService.processChatMessage, bind, try_catch.
  rewrite (given_some _ Hcid), getConversation_run, Hnone.
  destruct (request_fails w 1); cbn [option_map throw];
    eexists _, _; repeat split; try reflexivity.
  discriminate.
Qed.

Lemma processChatMessage_absent_conversation_witness :
  exists w',
    AIService.processChatMessage Examples.service "hello" (Some "gone") None
      JNull Examples.aged = (Throws (mkError "Conversation not found"), w')
    /\ store w' = store Examples.aged.
Proof.
  destruct (processChatMessage_absent_conversation Examples.service "hello"
              "gone" None JNull Examples.aged)
    as (e & w' & Hrun & Hstore & He).
  - discriminate.
  - reflexivity.
  - exists w'. rewrite <- (He eq_refl). split; assumption.
Defined.

End Exchange.

Section PartialWrite.
Import Database Persisted Scenario.

Lemma visible_bumped cid now (t : Tables) :
  visible cid
    (with_conversations t
       (update_where (is_conversation cid) (bump_message_count now)
          (Conversations t)))
  = option_map (bump_message_count now) (visible cid t).
Proof.
  unfold visible, update_where. cbn [Conversations with_conversations].
  rewrite filter_map_stable
    by (intros r; destruct (is_conversation cid r); reflexivity).
  rewrite map_on_filtered by apply visible_is_conversation.
  destruct (filter _ _); reflexivity.
Qed.

(** A call that opens a conversation and appends the user's message, and
    whose third request fails. *)
Lemma processChatMessage_new_third_fails this message conversationId userId
      context (w : World) t1 t2 t3 rest k :
  AIService.given conversationId = None ->
  script w = t1 :: t2 :: t3 :: rest ->
  fate t1 = Completes -> fate t2 = Completes ->
  fate t3 = FailsAt k \/ fate t3 = AbortsAt k ->
  (k < 4)%nat ->
  exists w' created_at user_at assistant_at id1 id2 md1 md2,
    let cid := uuid_of (uuid_counter w) in
    AIService.processChatMessage this message conversationId userId context w
    = (Throws RequestError, w')
    /\ store w'
       = torn_message (fate t3) assistant_at
           (message_row assistant_at id2 cid "assistant"
              (AIService.canned_response message) md2)
           (with_message user_at (message_row user_at id1 cid "user" message md1)
              (with_conversations (store w)
                 (Conversations (store w) ++
                    [ {| conversation_id := cid;
                         user_id := string_or userId "anonymous";
                         created_at := created_at; updated_at := created_at;
                         status := "active"; metadata := context;
                         message_count := 0 |} ]))).
Proof.
  intros Hnone Hscript H1 H2 H3 Hk.
  unfold AIService.processChatMessage, bind, try_catch.
  rewrite Hnone, createConversation_run.
  assert (R1 : request_fails w 1 = false)
    by (unfold request_fails, next_tick; rewrite Hscript, H1; reflexivity).
  rewrite R1. cbn [ret throw Date_now Conversation.conversationId].
  rewrite addMessage_run.
  match goal with
  | |- context [request_fails ?w1 4] =>
      assert (R2 : request_fails w1 4 = false)
        by (unfold request_fails, next_tick;
            cbn [script after_request after_uuid]; rewrite Hscript;
            cbn [tl]; rewrite H2; reflexivity);
      rewrite R2
  end.
  rewrite generateAIResponse_user. cbn [AIService.AIResponse.content].
  rewrite addMessage_run.
  match goal with
  | |- context [request_fails ?w2 4] =>
      assert (N3 : next_tick w2 = t3)
        by (unfold next_tick; cbn [script after_request after_uuid];
            rewrite Hscript; reflexivity);
      assert (R3 : request_fails w2 4 = true)
        by (unfold request_fails; rewrite N3; apply Nat.ltb_lt in Hk;
            destruct H3 as [-> | ->]; exact Hk);
      rewrite R3, N3
  end.
  cbn [throw].
  eexists _, _, _, _, _, _, _, _. cbv zeta.
  split; [reflexivity|].
  cbn [store after_request after_uuid]. reflexivity.
Qed.

(** X8. The steps of an exchange are not one transaction. When a call
    opens a conversation, appends the user's message, and the request
    that appends the assistant's message fails, [processChatMessage]
    throws, and the new conversation and the user's message stay
    persisted. What the failed request itself leaves depends on how it
    went wrong: nothing, so that the counter is 1; or, when one of its
    statements raised an error, the assistant's message without its
    increment, or the increment (a counter of 2) without the message. *)
Theorem processChatMessage_keeps_user_message_on_failure :
  forall this message conversationId userId context (w : World) t1 t2 t3 rest k,
    AIService.given conversationId = None ->
    unused (uuid_of (uuid_counter w)) (store w) ->
    script w = t1 :: t2 :: t3 :: rest ->
    fate t1 = Completes -> fate t2 = Completes ->
    fate t3 = FailsAt k \/ fate t3 = AbortsAt k ->
    (k < 4)%nat ->
    let cid := uuid_of (uuid_counter w) in
    exists w' user,
      AIService.processChatMessage this message conversationId userId context w
      = (Throws RequestError, w')
      /\ m_conversation_id user = cid
      /\ Database.role user = "user"
      /\ Database.content user = message
      /\ (exists row, visible cid (store w') = Some row)
      /\ match fate t3 with
         | FailsAt 1 =>
             Messages (store w') = Messages (store w) ++ [ user ]
             /\ option_map message_count (visible cid (store w')) = Some 2
         | FailsAt 2 =>
             (exists assistant,
                Messages (store w') = Messages (store w) ++ [ user; assistant ]
                /\ Database.role assistant = "assistant")
             /\ option_map message_count (visible cid (store w')) = Some 1
         | _ =>
             Messages (store w') = Messages (store w) ++ [ user ]
             /\ option_map message_count (visible cid (store w')) = Some 1
         end.
Proof.
  intros this message conversationId userId context w t1 t2 t3 rest k
         Hnone [Hrows _] Hscript H1 H2 H3 Hk cid.
  destruct (processChatMessage_new_third_fails this message conversationId
              userId context w t1 t2 t3 rest k Hnone Hscript H1 H2 H3 Hk)
    as (w' & t_created & t_user & t_assistant & id1 & id2 & md1 & md2 & Hrun
        & Hstore).
  cbv zeta in Hrun, Hstore. fold cid in Hrun, Hstore, Hrows.
  clearbody cid.
  set (user := message_row t_user id1 cid "user" message md1) in *.
  set (assistant := message_row t_assistant id2 cid "assistant"
                      (AIService.canned_response message) md2) in *.
  set (row := {| conversation_id := cid;
                 user_id := string_or userId "anonymous";
                 created_at := t_created; updated_at := t_created;
                 status := "active"; metadata := context;
                 message_count := 0 |}) in *.
  set (created := with_conversations (store w) (Conversations (store w) ++ [row]))
    in *.
  assert (Hv : visible cid (with_message t_user user created)
               = Some (bump_message_count t_user row)).
  { rewrite visible_with_message by reflexivity.
    unfold created. rewrite visible_after_insert
      by (assumption || reflexivity). reflexivity. }
  assert (Hm : Messages (with_message t_user user created)
               = Messages (store w) ++ [ user ]) by reflexivity.
  exists w', user. split; [exact Hrun|].
  split; [reflexivity|]. split; [reflexivity|]. split; [reflexivity|].
  rewrite Hstore. unfold torn_message.
  destruct H3 as [H3 | H3]; rewrite H3.
  - destruct k as [|[|[|k]]].
    + rewrite Hv, Hm. split; [eexists; reflexivity|]. split; reflexivity.
    + change (m_conversation_id assistant) with cid.
      rewrite visible_bumped, Hv.
      split; [eexists; reflexivity|]. split; reflexivity.
    + assert (Hv2 : visible cid
                      (with_messages (with_message t_user user created)
                         (Messages (with_message t_user user created)
                            ++ [ assistant ]))
                    = Some (bump_message_count t_user row)) by exact Hv.
      rewrite Hv2. split; [eexists; reflexivity|].
      split; [|reflexivity].
      exists assistant. split; [|reflexivity].
      cbn [Messages with_messages]. rewrite Hm, <- app_assoc. reflexivity.
    + rewrite Hv, Hm. split; [eexists; reflexivity|]. split; reflexivity.
  - rewrite Hv, Hm. split; [eexists; reflexivity|]. split; reflexivity.
Qed.

Lemma processChatMessage_keeps_user_message_on_failure_witness :
  exists w' user assistant,
    AIService.processChatMessage Examples.service "hello" None None JNull
      {| store := empty; clock := Examples.today; uuid_counter := 7;
         script := [ Examples.tick 5; Examples.tick 5;
                     Examples.failing_tick 5 2 ] |}
    = (Throws RequestError, w')
    /\ Messages (store w') = [ user; assistant ]
    /\ Database.content user = "hello"
    /\ map message_count (Conversations (store w')) = [ 1 ].
Proof.
  destruct (processChatMessage_keeps_user_message_on_failure Examples.service
              "hello" None None JNull
              {| store := empty; clock := Examples.today; uuid_counter := 7;
                 script := [ Examples.tick 5; Examples.tick 5;
                             Examples.failing_tick 5 2 ] |}
              (Examples.tick 5) (Examples.tick 5) (Examples.failing_tick 5 2)
              [] 2%nat)
    as (w' & user & Hrun & _ & _ & Hc & _ & (assistant & Hm & _) & _);
    try reflexivity.
  - split; reflexivity.
  - left; reflexivity.
  - repeat constructor.
  - exists w', user, assistant.
    split; [exact Hrun|]. split; [exact Hm|]. split; [exact Hc|].
    revert Hrun. vm_compute. intros H. inversion H. reflexivity.
Defined.

(** X9. [addMessage] does not look at the status of the conversation: on
    a conversation whose rows are all soft-deleted, a call whose batch
    completes returns, appends the message and increments the counter of
    every row of the conversation, which stays absent for
    [getConversation]. *)
Theorem addMessage_ignores_soft_deletion :
  forall conversationId role content metadata (w : World) (r : ConversationRow),
    In r (Conversations (store w)) ->
    conversation_id r = conversationId ->
    visible conversationId (store w) = None ->
    request_fails w 4 = false ->
    exists m w',
      ConversationManager.addMessage conversationId role content metadata w
      = (Returns m, w')
      /\ messages conversationId (store w')
         = messages conversationId (store w)
             ++ [ message_row (Message.createdAt m) (Message.messageId m)
                    conversationId role content metadata ]
      /\ map message_count (rows conversationId (store w'))
         = map (fun n => n + 1) (map message_count (rows conversationId (store w)))
      /\ rows conversationId (store w') <> []
      /\ visible conversationId (store w') = None.
Proof.
  intros cid role content md w r Hin Hid Hnone Hok.
  rewrite addMessage_run, Hok.
  eexists _, _. split; [reflexivity|].
  cbn [store after_request after_uuid Message.createdAt Message.messageId].
  split; [apply messages_with_message; reflexivity|].
  split; [|split].
  - unfold rows. cbn [Conversations with_message m_conversation_id message_row].
    unfold update_where. rewrite filter_map_stable
      by (intros x; destruct (is_conversation cid x) eqn:E; exact E).
    rewrite (map_on_filtered (is_conversation cid) (is_conversation cid))
      by trivial.
    rewrite !map_map. reflexivity.
  - unfold rows. cbn [Conversations with_message m_conversation_id message_row].
    unfold update_where. rewrite filter_map_stable
      by (intros x; destruct (is_conversation cid x) eqn:E; exact E).
    intros Hnil. apply map_eq_nil in Hnil.
    apply (in_filter_nonempty (is_conversation cid) _ r Hin); [|exact Hnil].
    unfold is_conversation. rewrite Hid. apply String.eqb_refl.
  - rewrite visible_with_message by reflexivity. now rewrite Hnone.
Qed.

Lemma addMessage_ignores_soft_deletion_witness :
  exists m w',
    ConversationManager.addMessage "gone" "user" "anyone?" JNull Examples.aged
    = (Returns m, w')
    /\ map message_count (rows "gone" (store w')) = [ 4 ].
Proof.
  destruct (addMessage_ignores_soft_deletion "gone" "user" "anyone?" JNull
              Examples.aged (Examples.conversation_row "gone" 400 "deleted"))
    as (m & w' & Hrun & _ & Hcount & _).
  - right; right; left; reflexivity.
  - reflexivity.
  - reflexivity.
  - reflexivity.
  - exists m, w'. split; [exact Hrun|]. rewrite Hcount. reflexivity.
Defined.

End PartialWrite.

Section SoftDeletion.
Import Database Persisted Scenario.

Lemma all_deleted_invisible cid (l : list ConversationRow) :
  (forall r, In r l -> conversation_id r = cid -> status r = "deleted") ->
  filter (visible_conversation cid) l = [].
Proof.
  induction l as [|x l IH]; intros H; simpl; [reflexivity|].
  rewrite IH by (intros; apply H; [right|]; assumption).
  unfold visible_conversation, is_conversation, not_deleted.
  destruct (String.eqb (conversation_id x) cid) eqn:E; [|reflexivity].
  apply String.eqb_eq in E.
  now rewrite (H x (or_introl eq_refl) E).
Qed.

Lemma cleanup_keeps_recent cid cutoffDate now (l : list ConversationRow) :
  (forall r, In r l -> conversation_id r = cid -> cutoffDate <= created_at r) ->
  filter (visible_conversation cid)
    (update_where (expired cutoffDate) (set_status now "deleted" None) l)
  = filter (visible_conversation cid) l.
Proof.
  induction l as [|x l IH]; intros Hnew; [reflexivity|].
  cbn [update_where map filter].
  fold (update_where (expired cutoffDate) (set_status now "deleted" None) l).
  rewrite IH by (intros; apply Hnew; [right|]; assumption).
  destruct (expired cutoffDate x) eqn:E; [|reflexivity].
  unfold visible_conversation, is_conversation.
  cbn [conversation_id set_status].
  destruct (String.eqb (conversation_id x) cid) eqn:Ei; [|reflexivity].
  exfalso. apply String.eqb_eq in Ei.
  pose proof (Hnew x (or_introl eq_refl) Ei) as Hle.
  unfold expired in E. apply andb_prop in E. destruct E as [E _].
  apply Z.ltb_lt in E. lia.
Qed.

(** X10. Soft deletion by age hides a conversation and keeps its
    messages. After a [cleanupOldConversations] that returned, a
    conversation whose rows were all created before the cut-off (the
    current instant moved back by the retention in calendar days of the
    process's time zone) is absent for [getConversation], a conversation
    with no row before the cut-off is reported as before, and the table
    of messages is as it was. *)
Theorem cleanupOldConversations_hides_but_keeps_messages :
  forall (zone : TimeZone) (this : ConversationManager.t) (w w1 : World) (n : Z),
    ConversationManager.cleanupOldConversations zone this w = (Returns n, w1) ->
    request_fails w1 1 = false ->
    let cutoffDate :=
      setDate_days_back zone (clock w)
        (ConversationManager.dataRetentionDays this) in
    Messages (store w1) = Messages (store w)
    /\ forall conversationId,
         ((forall r, In r (Conversations (store w)) ->
                     conversation_id r = conversationId ->
                     created_at r < cutoffDate) ->
          exists w2,
            ConversationManager.getConversation conversationId w1
            = (Returns None, w2))
         /\ ((forall r, In r (Conversations (store w)) ->
                        conversation_id r = conversationId ->
                        cutoffDate <= created_at r) ->
             exists w2,
               ConversationManager.getConversation conversationId w1
               = (Returns (option_map ConversationManager.conversation_of_row
                             (visible conversationId (store w))), w2)).
Proof.
  intros zone this w w1 n Hrun Hok cutoffDate.
  rewrite cleanupOldConversations_run in Hrun.
  destruct (request_fails w 1); [discriminate|].
  inversion Hrun; subst n w1; clear Hrun.
  change (ConversationManager.cutoff zone this (clock w)) with cutoffDate
    in Hok |- *.
  split; [reflexivity|].
  intros cid. split.
  - intros Hold. rewrite getConversation_run, Hok.
    eexists. unfold visible.
    cbn [store after_request Conversations with_conversations].
    rewrite all_deleted_invisible; [reflexivity|].
    intros r Hr Hid. unfold update_where in Hr.
    apply in_map_iff in Hr. destruct Hr as (x & Hx & Hin).
    destruct (expired cutoffDate x) eqn:E; subst r; [reflexivity|].
    destruct (String.eqb (status x) "deleted") eqn:Es;
      [now apply String.eqb_eq in Es|].
    exfalso. unfold expired, not_deleted in E. rewrite Es in E.
    pose proof (Hold x Hin Hid) as Hlt. apply Z.ltb_lt in Hlt.
    rewrite Hlt in E. discriminate.
  - intros Hnew. rewrite getConversation_run, Hok.
    eexists. unfold visible.
    cbn [store after_request Conversations with_conversations].
    now rewrite cleanup_keeps_recent.
Qed.

Lemma cleanupOldConversations_hides_but_keeps_messages_witness :
  exists w2,
    ConversationManager.getConversation "old"
      (snd (ConversationManager.cleanupOldConversations Examples.eastern
              Examples.manager Examples.aged))
    = (Returns None, w2).
Proof.
  refine (proj1 (proj2 (cleanupOldConversations_hides_but_keeps_messages
                          Examples.eastern Examples.manager Examples.aged
                          (snd (ConversationManager.cleanupOldConversations
                                  Examples.eastern Examples.manager
                                  Examples.aged))
                          1 _ _) "old") _).
  - vm_compute; reflexivity.
  - vm_compute; reflexivity.
  - intros r [<-|[<-|[<-|[]]]]; vm_compute; (reflexivity || discriminate).
Defined.

(** X11. Setting the status to 'deleted' by hand is a soft deletion too:
    after an [updateConversationStatus] to 'deleted' that returned,
    [getConversation] reports the conversation absent, while every row of
    it is still stored, and the table of messages is as it was. *)
Theorem updateConversationStatus_deleted_hides :
  forall (conversationId : string) (newMetadata : option Json) (w w1 : World),
    ConversationManager.updateConversationStatus conversationId "deleted"
      newMetadata w = (Returns tt, w1) ->
    request_fails w1 1 = false ->
    (exists w2,
       ConversationManager.getConversation conversationId w1
       = (Returns None, w2))
    /\ rows conversationId (store w1) <> []
    /\ List.length (rows conversationId (store w1))
       = List.length (rows conversationId (store w))
    /\ Messages (store w1) = Messages (store w).
Proof.
  intros cid md w w1 Hrun Hok.
  rewrite updateConversationStatus_run in Hrun.
  destruct (request_fails w 1); [discriminate|].
  cbv zeta in Hrun.
  destruct (count_where _ _ =? 0) eqn:Hcount; [discriminate|].
  inversion Hrun; subst w1; clear Hrun.
  assert (Hrows :
            rows cid
              (with_conversations (store w)
                 (update_where (is_conversation cid)
                    (set_status (request_time w) "deleted"
                       (ConversationManager.given_metadata md))
                    (Conversations (store w))))
            = map (set_status (request_time w) "deleted"
                     (ConversationManager.given_metadata md))
                (rows cid (store w))).
  { unfold rows, update_where. cbn [Conversations with_conversations].
    rewrite filter_map_stable
      by (intros x; destruct (is_conversation cid x) eqn:E;
          [unfold is_conversation in *; exact E | exact E]).
    now rewrite (map_on_filtered (is_conversation cid) (is_conversation cid)). }
  split; [|split; [|split]].
  - rewrite getConversation_run, Hok. eexists. unfold visible.
    cbn [store after_request Conversations with_conversations].
    rewrite all_deleted_invisible; [reflexivity|].
    intros r Hr Hid. unfold update_where in Hr.
    apply in_map_iff in Hr. destruct Hr as (x & Hx & Hin).
    destruct (is_conversation cid x) eqn:E; subst r; [reflexivity|].
    unfold is_conversation in E. apply String.eqb_neq in E. contradiction.
  - cbn [store after_request]. rewrite Hrows.
    intros Hnil. apply map_eq_nil in Hnil.
    apply Z.eqb_neq in Hcount. apply Hcount.
    unfold count_where. unfold rows in Hnil. now rewrite Hnil.
  - cbn [store after_request]. rewrite Hrows. apply length_map.
  - reflexivity.
Qed.

Lemma updateConversationStatus_deleted_hides_witness :
  exists w2,
    ConversationManager.getConversation "recent"
      (snd (ConversationManager.updateConversationStatus "recent" "deleted"
              None Examples.aged))
    = (Returns None, w2).
Proof.
  refine (proj1 (updateConversationStatus_deleted_hides
                   "recent" None Examples.aged
                   (snd (ConversationManager.updateConversationStatus "recent"
                           "deleted" None Examples.aged)) _ _)).
  - vm_compute; reflexivity.
  - vm_compute; reflexivity.
Defined.

End SoftDeletion.

Section Responses.
Import Database Persisted Scenario.

Lemma canned_response_cases (message : string) :
  In (AIService.canned_response message)
     [ AIService.property_paragraph; AIService.pricing_paragraph;
       AIService.scheduling_paragraph; AIService.agent_paragraph;
       AIService.generic_greeting ].
Proof.
  unfold AIService.canned_response.
  repeat match goal with
         | |- context [if ?b then _ else _] => destruct b
         end; simpl; tauto.
Qed.

(** X12. A chat exchange that returns answers with one of the five canned
    paragraphs and never with the apology, nor with whatever else is
    configured as error prompt: the fallback of [generateAIResponse]
    cannot be reached from [processChatMessage]. *)
Theorem processChatMessage_never_apologises :
  forall this message conversationId userId context (w w' : World) r,
    AIService.processChatMessage this message conversationId userId context w
    = (Returns r, w') ->
    In (AIService.ChatResult.response r)
       [ AIService.property_paragraph; AIService.pricing_paragraph;
         AIService.scheduling_paragraph; AIService.agent_paragraph;
         AIService.generic_greeting ]
    /\ AIService.ChatResult.response r <> AiConfig.error AiConfig.prompts_v2_0
    /\ Some (AIService.ChatResult.response r)
       <> AiConfig.getSystemPrompt (AIService.AI_CONFIG this)
            AiConfig.type_error None.
Proof.
  intros this message cid userId context w w' r Hrun.
  rewrite (processChatMessage_response _ _ _ _ _ _ _ _ Hrun).
  split; [apply canned_response_cases|].
  assert (Hdiffer : AIService.canned_response message
                    <> AiConfig.error AiConfig.prompts_v2_0).
  { pose proof (canned_response_cases message) as H.
    destruct H as [<-|[<-|[<-|[<-|[<-|[]]]]]]; vm_compute; discriminate. }
  split; [exact Hdiffer|].
  rewrite getSystemPrompt_cases.
  destruct (inherited _); [discriminate|].
  intros H. injection H as H. exact (Hdiffer H).
Qed.

Lemma processChatMessage_never_apologises_witness :
  Some (AIService.ChatResult.response
          (Examples.value_of Examples.no_chat_result (fst Examples.first_chat)))
  <> AiConfig.getSystemPrompt (AIService.AI_CONFIG Examples.service)
       AiConfig.type_error None.
Proof.
  refine (proj2 (proj2 (processChatMessage_never_apologises Examples.service
                          "I need a house" None (Some "u1") (JObject [])
                          Examples.quiet (snd Examples.first_chat)
                          (Examples.value_of Examples.no_chat_result
                             (fst Examples.first_chat)) _))).
  vm_compute; reflexivity.
Defined.

End Responses.

Section Estimate.

Lemma str_length_append (a b : string) :
  str_length (a ++ b)%string = str_length a + str_length b.
Proof.
  unfold str_length. rewrite <- Nat2Z.inj_add. f_equal.
  induction a as [|c a IH]; simpl; [reflexivity|]. now rewrite IH.
Qed.

Lemma estimate_closed_form (text : string) :
  ConversationManager.estimateTokenCount text = (str_length text + 3) / 4.
Proof. apply Math_ceil_quarter. Qed.

(** X13. The token estimate is 0 for the empty text only, never
    under-counts a quarter of the length, grows with the length, and the
    estimate of a concatenation is at most the sum of the estimates and
    falls short of it by at most 1. *)
Theorem estimateTokenCount_arithmetic :
  forall a b : string,
    (ConversationManager.estimateTokenCount a = 0 <-> a = "")
    /\ str_length a <= 4 * ConversationManager.estimateTokenCount a
    /\ (str_length a <= str_length b ->
        ConversationManager.estimateTokenCount a
        <= ConversationManager.estimateTokenCount b)
    /\ ConversationManager.estimateTokenCount (a ++ b)%string
       <= ConversationManager.estimateTokenCount a
          + ConversationManager.estimateTokenCount b
    /\ ConversationManager.estimateTokenCount a
       + ConversationManager.estimateTokenCount b
       <= ConversationManager.estimateTokenCount (a ++ b)%string + 1.
Proof.
  intros a b.
  pose proof (Math_ceil_quarter_bounds (str_length a)) as Ha.
  pose proof (Math_ceil_quarter_bounds (str_length b)) as Hb.
  pose proof (Math_ceil_quarter_bounds (str_length (a ++ b)%string)) as Hab.
  cbv zeta in Ha, Hb, Hab. rewrite str_length_append in Hab.
  unfold ConversationManager.estimateTokenCount.
  rewrite str_length_append.
  assert (Hna : 0 <= str_length a) by (unfold str_length; lia).
  split; [|split; [|split; [|split]]]; try lia.
  split.
  - intros H0. rewrite H0 in Ha.
    destruct a as [|c a]; [reflexivity|].
    unfold str_length in Ha. simpl String.length in Ha. lia.
  - intros ->. reflexivity.
Qed.

Lemma estimateTokenCount_arithmetic_witness :
  ConversationManager.estimateTokenCount "abcd"
  <= ConversationManager.estimateTokenCount "abcde".
Proof.
  apply (proj1 (proj2 (proj2 (estimateTokenCount_arithmetic "abcd" "abcde")))).
  vm_compute. discriminate.
Defined.

End Estimate.

(* ===================================================================== *)
(** * Voice settings and configuration *)
(* ===================================================================== *)

Section VoiceSettings.

Lemma out_of_unit_range_spec (value : option Q) :
  Voice.out_of_unit_range value = false <-> Voice.within_unit_range value.
Proof.
  unfold Voice.out_of_unit_range, Voice.within_unit_range.
  destruct value as [q|]; [|tauto].
  destruct (Qcompare q 0) eqn:E0; destruct (Qcompare q 1) eqn:E1;
    rewrite ?Qle_alt, ?E0, ?E1;
    pose proof (Qcompare_antisym q 0) as Ha; rewrite E0 in Ha; simpl in Ha;
    rewrite <- ?Ha;
    split; intros H; try discriminate; try (split; discriminate);
    try (destruct H as [H1 H2]; congruence).
Qed.

(** X14. [validateVoiceSettings] reports no error exactly when every one
    of stability, similarity boost and style that is set lies between 0
    and 1; it reports at most one error per field, and [useSpeakerBoost]
    plays no part. *)
Theorem validateVoiceSettings_empty_iff_in_range :
  forall settings : Voice.Settings,
    (Voice.validateVoiceSettings settings = [] <->
     Voice.within_unit_range (Voice.stability settings)
     /\ Voice.within_unit_range (Voice.similarityBoost settings)
     /\ Voice.within_unit_range (Voice.style settings))
    /\ (List.length (Voice.validateVoiceSettings settings) <= 3)%nat
    /\ forall flag,
         Voice.validateVoiceSettings
           {| Voice.stability := Voice.stability settings;
              Voice.similarityBoost := Voice.similarityBoost settings;
              Voice.style := Voice.style settings;
              Voice.useSpeakerBoost := flag |}
         = Voice.validateVoiceSettings settings.
Proof.
  intros settings.
  split; [|split; [|reflexivity]].
  - rewrite <- !out_of_unit_range_spec.
    unfold Voice.validateVoiceSettings.
    destruct (Voice.out_of_unit_range (Voice.stability settings));
      destruct (Voice.out_of_unit_range (Voice.similarityBoost settings));
      destruct (Voice.out_of_unit_range (Voice.style settings));
      simpl; split; intros H; try discriminate; try reflexivity;
      try (repeat split; reflexivity);
      destruct H as (H1 & H2 & H3); discriminate.
  - unfold Voice.validateVoiceSettings.
    destruct (Voice.out_of_unit_range (Voice.stability settings));
      destruct (Voice.out_of_unit_range (Voice.similarityBoost settings));
      destruct (Voice.out_of_unit_range (Voice.style settings));
      simpl; lia.
Qed.

Lemma validateVoiceSettings_empty_iff_in_range_witness :
  Voice.within_unit_range (Some (1 # 2))
  /\ List.length
       (Voice.validateVoiceSettings (Voice.preset (1 # 2) (3 # 2) (-1 # 2)))
     = 2%nat.
Proof.
  split; [|reflexivity].
  apply (proj1 (proj1 (proj1 (validateVoiceSettings_empty_iff_in_range
                                (Voice.preset (1 # 2) (1 # 2) (1 # 2))))
                  eq_refl)).
Defined.

Lemma baseSettings_cases (q : string) :
  (q = "high" /\ Voice.baseSettings q = Voice.preset (8 # 10) (8 # 10) (2 # 10)
   /\ inherited q = false)
  \/ (q = "medium" /\ Voice.baseSettings q = Voice.preset (75 # 100) (75 # 100) 0
      /\ inherited q = false)
  \/ (q = "fast" /\ Voice.baseSettings q = Voice.preset (7 # 10) (7 # 10) 0
      /\ inherited q = false)
  \/ (~ In q [ "high"; "medium"; "fast" ] /\ inherited q = true
      /\ Voice.baseSettings q = Voice.no_settings)
  \/ (~ In q [ "high"; "medium"; "fast" ] /\ inherited q = false
      /\ Voice.baseSettings q = Voice.preset (75 # 100) (75 # 100) 0).
Proof.
  unfold Voice.baseSettings, get, Voice.qualitySettings. cbn [own_property].
  destruct (String.eqb "high" q) eqn:E1.
  { apply String.eqb_eq in E1. subst q. left. repeat split; reflexivity. }
  destruct (String.eqb "medium" q) eqn:E2.
  { apply String.eqb_eq in E2. subst q. right; left. repeat split; reflexivity. }
  destruct (String.eqb "fast" q) eqn:E3.
  { apply String.eqb_eq in E3. subst q. right; right; left.
    repeat split; reflexivity. }
  apply String.eqb_neq in E1, E2, E3.
  assert (Hnot : ~ In q [ "high"; "medium"; "fast" ])
    by (intros [H|[H|[H|[]]]]; congruence).
  destruct (inherited q); right; right; right; [left|right];
    repeat split; (exact Hnot || reflexivity).
Qed.

(** X15. In [getVoiceSettings] a key of the custom settings wins over the
    quality preset whatever its value, and the preset over the defaults of
    the environment. The preset is the one named, 'medium' for a name
    that is no key at all, and nothing for a name inherited from
    [Object.prototype]: only then do stability, similarity boost and style
    come from the environment. [useSpeakerBoost] is in no preset and comes
    from the environment unless the custom settings carry it. Hence, for
    a quality that is not an inherited name, the result has exactly the
    validation errors of the custom settings, and none when there are no
    custom settings, whatever the environment. *)
Theorem getVoiceSettings_precedence :
  forall (env : Voice.Env) (quality : option string)
         (customSettings : option Voice.CustomSettings),
    let custom := match customSettings with
                  | Some c => c
                  | None => Voice.no_custom
                  end in
    let q := match quality with Some q => q | None => "medium" end in
    let base := Voice.baseSettings q in
    let result := Voice.getVoiceSettings env quality customSettings in
    (inherited q = true -> base = Voice.no_settings)
    /\ (inherited q = false ->
        exists name,
          In (name, base) Voice.qualitySettings
          /\ (In q [ "high"; "medium"; "fast" ] -> name = q)
          /\ (~ In q [ "high"; "medium"; "fast" ] -> name = "medium"))
    /\ Voice.stability result
       = Voice.override (Voice.custom_stability custom)
           (Voice.or_field (Voice.stability base)
              (Voice.stability (Voice.defaultSettings env)))
    /\ Voice.similarityBoost result
       = Voice.override (Voice.custom_similarityBoost custom)
           (Voice.or_field (Voice.similarityBoost base)
              (Voice.similarityBoost (Voice.defaultSettings env)))
    /\ Voice.style result
       = Voice.override (Voice.custom_style custom)
           (Voice.or_field (Voice.style base)
              (Voice.style (Voice.defaultSettings env)))
    /\ Voice.useSpeakerBoost result
       = Voice.override (Voice.custom_useSpeakerBoost custom)
           (Voice.useSpeakerBoost (Voice.defaultSettings env))
    /\ (inherited q = false ->
        Voice.validateVoiceSettings result
        = Voice.validateVoiceSettings (Voice.seen custom))
    /\ (inherited q = false -> customSettings = None ->
        Voice.validateVoiceSettings result = [])
    /\ (inherited q = true -> customSettings = None ->
        result = Voice.defaultSettings env).
Proof.
  intros env quality customSettings custom q base result.
  assert (Hresult : result
                    = Voice.spread_custom
                        (Voice.spread (Voice.defaultSettings env) base) custom)
    by reflexivity.
  assert (Hpreset :
            forall st sb sy,
              base = Voice.preset st sb sy ->
              Voice.out_of_unit_range (Some st) = false ->
              Voice.out_of_unit_range (Some sb) = false ->
              Voice.out_of_unit_range (Some sy) = false ->
              Voice.validateVoiceSettings result
              = Voice.validateVoiceSettings (Voice.seen custom)
              /\ (customSettings = None -> Voice.validateVoiceSettings result = [])).
  { intros st sb sy Hb Hst Hsb Hsy. rewrite Hresult, Hb. split.
    - unfold Voice.validateVoiceSettings, Voice.seen, Voice.spread_custom,
        Voice.spread, Voice.preset, Voice.no_settings.
      cbn [Voice.stability Voice.similarityBoost Voice.style Voice.or_field].
      destruct (Voice.custom_stability custom),
        (Voice.custom_similarityBoost custom), (Voice.custom_style custom);
        cbn [Voice.override]; rewrite ?Hst, ?Hsb, ?Hsy; reflexivity.
    - intros Hnone. unfold custom. rewrite Hnone.
      unfold Voice.validateVoiceSettings, Voice.spread_custom, Voice.spread,
        Voice.preset, Voice.no_custom.
      cbn [Voice.stability Voice.similarityBoost Voice.style Voice.or_field
           Voice.override Voice.custom_stability Voice.custom_similarityBoost
           Voice.custom_style].
      now rewrite Hst, Hsb, Hsy. }
  assert (Hfields :
            Voice.stability result
            = Voice.override (Voice.custom_stability custom)
                (Voice.or_field (Voice.stability base)
                   (Voice.stability (Voice.defaultSettings env)))
            /\ Voice.similarityBoost result
               = Voice.override (Voice.custom_similarityBoost custom)
                   (Voice.or_field (Voice.similarityBoost base)
                      (Voice.similarityBoost (Voice.defaultSettings env)))
            /\ Voice.style result
               = Voice.override (Voice.custom_style custom)
                   (Voice.or_field (Voice.style base)
                      (Voice.style (Voice.defaultSettings env)))).
  { rewrite Hresult. repeat split; reflexivity. }
  destruct Hfields as (Hf1 & Hf2 & Hf3).
  assert (Hboost :
            Voice.useSpeakerBoost result
            = Voice.override (Voice.custom_useSpeakerBoost custom)
                (Voice.useSpeakerBoost (Voice.defaultSettings env))).
  { rewrite Hresult.
    cbn [Voice.useSpeakerBoost Voice.spread_custom Voice.spread].
    f_equal.
    destruct (baseSettings_cases q)
      as [(_ & Hb & _)|[(_ & Hb & _)|[(_ & Hb & _)|[(_ & _ & Hb)|(_ & _ & Hb)]]]];
      unfold base; rewrite Hb; reflexivity. }
  destruct (baseSettings_cases q)
    as [(Hq & Hb & Hi)|[(Hq & Hb & Hi)|[(Hq & Hb & Hi)|[(Hq & Hi & Hb)
                                                      |(Hq & Hi & Hb)]]]];
    fold base in Hb; rewrite Hi.
  - split; [discriminate|]. split.
    { intros _. exists "high". rewrite Hb. split; [simpl; tauto|].
      split; [intros _; now symmetry|].
      intros Hnot. exfalso. apply Hnot. rewrite Hq. simpl; tauto. }
    split; [exact Hf1|]. split; [exact Hf2|]. split; [exact Hf3|].
    split; [exact Hboost|].
    destruct (Hpreset _ _ _ Hb eq_refl eq_refl eq_refl) as [Hv Hn].
    split; [intros _; exact Hv|]. split; [intros _; exact Hn|discriminate].
  - split; [discriminate|]. split.
    { intros _. exists "medium". rewrite Hb. split; [simpl; tauto|].
      split; [intros _; now symmetry|reflexivity]. }
    split; [exact Hf1|]. split; [exact Hf2|]. split; [exact Hf3|].
    split; [exact Hboost|].
    destruct (Hpreset _ _ _ Hb eq_refl eq_refl eq_refl) as [Hv Hn].
    split; [intros _; exact Hv|]. split; [intros _; exact Hn|discriminate].
  - split; [discriminate|]. split.
    { intros _. exists "fast". rewrite Hb. split; [simpl; tauto|].
      split; [intros _; now symmetry|].
      intros Hnot. exfalso. apply Hnot. rewrite Hq. simpl; tauto. }
    split; [exact Hf1|]. split; [exact Hf2|]. split; [exact Hf3|].
    split; [exact Hboost|].
    destruct (Hpreset _ _ _ Hb eq_refl eq_refl eq_refl) as [Hv Hn].
    split; [intros _; exact Hv|]. split; [intros _; exact Hn|discriminate].
  - split; [intros _; exact Hb|]. split; [discriminate|].
    split; [exact Hf1|]. split; [exact Hf2|]. split; [exact Hf3|].
    split; [exact Hboost|].
    split; [discriminate|]. split; [discriminate|].
    intros _ Hnone. rewrite Hresult, Hb. unfold custom. rewrite Hnone.
    reflexivity.
  - split; [discriminate|]. split.
    { intros _. exists "medium". rewrite Hb. split; [simpl; tauto|].
      split; [intros Hin; contradiction|reflexivity]. }
    split; [exact Hf1|]. split; [exact Hf2|]. split; [exact Hf3|].
    split; [exact Hboost|].
    destruct (Hpreset _ _ _ Hb eq_refl eq_refl eq_refl) as [Hv Hn].
    split; [intros _; exact Hv|]. split; [intros _; exact Hn|discriminate].
Qed.

Lemma getVoiceSettings_precedence_witness :
  Voice.validateVoiceSettings
    (Voice.getVoiceSettings Samples.voice_env (Some "cinematic") None) = []
  /\ Voice.stability
       (Voice.getVoiceSettings Samples.voice_env (Some "cinematic") None)
     = Some (75 # 100)
  /\ Voice.getVoiceSettings Samples.odd_voice_env (Some "constructor") None
     = Voice.defaultSettings Samples.odd_voice_env
  /\ Voice.stability
       (Voice.getVoiceSettings Samples.odd_voice_env (Some "constructor") None)
     = Some 5%Q.
Proof.
  destruct (getVoiceSettings_precedence Samples.voice_env (Some "cinematic") None)
    as (_ & _ & _ & _ & _ & _ & _ & Hvalid & _).
  destruct (getVoiceSettings_precedence Samples.odd_voice_env
              (Some "constructor") None)
    as (_ & _ & _ & _ & _ & _ & _ & _ & Hdefault).
  split; [exact (Hvalid eq_refl eq_refl)|]. split; [reflexivity|].
  split; [exact (Hdefault eq_refl eq_refl)|].
  rewrite (Hdefault eq_refl eq_refl). reflexivity.
Defined.

End VoiceSettings.

Section Configuration.
Import Database.

Lemma outside_spec (lo hi x : Q) :
  Voice.outside lo hi x = false <-> (lo <= x /\ x <= hi)%Q.
Proof.
  unfold Voice.outside.
  change (lo <= x)%Q with (x >= lo)%Q.
  rewrite (Qge_alt x lo), (Qle_alt x hi).
  destruct (Qcompare x lo); destruct (Qcompare x hi);
    split; intros H; try discriminate; try reflexivity;
    try (split; discriminate);
    destruct H as [H1 H2]; congruence.
Qed.

Lemma string_or_nonempty (s : option string) (dflt : string) :
  dflt <> "" -> string_or s dflt <> "".
Proof.
  intros Hd. unfold string_or. destruct s as [v|]; [|exact Hd].
  destruct (String.eqb v "") eqn:E; [exact Hd|].
  now apply String.eqb_neq in E.
Qed.

Lemma issues_nil_app (a b : list string) : a ++ b = [] <-> a = [] /\ b = [].
Proof.
  split.
  - apply app_eq_nil.
  - intros [-> ->]. reflexivity.
Qed.

(** X16. [validateConfiguration] succeeds exactly when the temperature
    lies between 0 and 2, the token limit between 100 and 4000, the
    ElevenLabs key and voice identifier are set, the three default voice
    settings lie between 0 and 1 and the prompt version is 'v2.0' or a
    name inherited from [Object.prototype], which passes the test though
    no prompt is served under it. Otherwise it throws an error whose
    message lists the issues. The issue 'AI_MODEL not configured' can
    never be raised, since the model always has its default; the world is
    left as it was. *)
Theorem validateConfiguration_succeeds_iff :
  forall (aenv : AiConfig.Env) (env : Voice.Env) (w : World),
    let cfg := AiConfig.AI_CONFIG aenv in
    let s := Voice.defaultSettings env in
    (Voice.validateConfiguration aenv env w = (Returns tt, w) <->
     (0 <= AiConfig.temperature cfg /\ AiConfig.temperature cfg <= 2)%Q
     /\ 100 <= parseInt_or (Voice.AI_MAX_TOKENS env) 1000 <= 4000
     /\ Voice.unset (Voice.ELEVENLABS_API_KEY env) = false
     /\ Voice.unset (Voice.ELEVENLABS_VOICE_ID env) = false
     /\ Voice.within_unit_range (Voice.stability s)
     /\ Voice.within_unit_range (Voice.similarityBoost s)
     /\ Voice.within_unit_range (Voice.style s)
     /\ (AiConfig.systemPromptVersion cfg = "v2.0"
         \/ inherited (AiConfig.systemPromptVersion cfg) = true))
    /\ (Voice.validateConfiguration aenv env w = (Returns tt, w)
        \/ Voice.validateConfiguration aenv env w
           = (Throws (mkError ("Configuration validation failed: "
                               ++ Voice.join (Voice.configuration_issues aenv env))%string),
              w))
    /\ ~ In "AI_MODEL not configured" (Voice.configuration_issues aenv env).
Proof.
  intros aenv env w cfg s.
  assert (Hmodel : String.eqb (AiConfig.model cfg) "" = false).
  { apply String.eqb_neq. apply string_or_nonempty. discriminate. }
  assert (Hrun : Voice.validateConfiguration aenv env w = (Returns tt, w)
                 <-> Voice.configuration_issues aenv env = []).
  { unfold Voice.validateConfiguration, try_catch, ret, throw.
    destruct (Voice.configuration_issues aenv env); split; intros H;
      try reflexivity; discriminate. }
  split; [|split].
  - rewrite Hrun. unfold Voice.configuration_issues.
    fold cfg. fold s. rewrite Hmodel.
    rewrite !issues_nil_app.
    rewrite <- !outside_spec.
    change (Voice.within_unit_range (Voice.stability s))
      with (0 <= Voice.number_of (Voice.stability s)
            /\ Voice.number_of (Voice.stability s) <= 1)%Q.
    change (Voice.within_unit_range (Voice.similarityBoost s))
      with (0 <= Voice.number_of (Voice.similarityBoost s)
            /\ Voice.number_of (Voice.similarityBoost s) <= 1)%Q.
    change (Voice.within_unit_range (Voice.style s))
      with (0 <= Voice.number_of (Voice.style s)
            /\ Voice.number_of (Voice.style s) <= 1)%Q.
    rewrite <- !outside_spec.
    assert (Hversion :
              match get AiConfig.SYSTEM_PROMPTS
                      (AiConfig.systemPromptVersion cfg) with
              | Missing => [ ("System prompt version "
                              ++ AiConfig.systemPromptVersion cfg
                              ++ " not found")%string ]
              | _ => []
              end = [] <->
              AiConfig.systemPromptVersion cfg = "v2.0"
              \/ inherited (AiConfig.systemPromptVersion cfg) = true).
    { unfold get, AiConfig.SYSTEM_PROMPTS. cbn [own_property].
      destruct (String.eqb "v2.0" (AiConfig.systemPromptVersion cfg)) eqn:E.
      - apply String.eqb_eq in E. split; [now left|reflexivity].
      - apply String.eqb_neq in E.
        destruct (inherited (AiConfig.systemPromptVersion cfg)).
        + split; [now right|reflexivity].
        + split; [discriminate|]. intros [H|H]; [congruence|discriminate]. }
    rewrite Hversion.
    assert (Htokens :
              (if (parseInt_or (Voice.AI_MAX_TOKENS env) 1000 <? 100)
                  || (4000 <? parseInt_or (Voice.AI_MAX_TOKENS env) 1000)
               then [ "AI_MAX_TOKENS must be between 100 and 4000" ] else [])
              = [] <-> 100 <= parseInt_or (Voice.AI_MAX_TOKENS env) 1000 <= 4000).
    { destruct (parseInt_or (Voice.AI_MAX_TOKENS env) 1000 <? 100) eqn:E1;
        destruct (4000 <? parseInt_or (Voice.AI_MAX_TOKENS env) 1000) eqn:E2;
        simpl; rewrite ?Z.ltb_lt, ?Z.ltb_ge in *;
        split; intros H; try discriminate; try reflexivity; lia. }
    rewrite Htokens.
    destruct (Voice.outside 0 2 (AiConfig.temperature cfg));
      destruct (Voice.unset (Voice.ELEVENLABS_API_KEY env));
      destruct (Voice.unset (Voice.ELEVENLABS_VOICE_ID env));
      destruct (Voice.outside 0 1 (Voice.number_of (Voice.stability s)));
      destruct (Voice.outside 0 1 (Voice.number_of (Voice.similarityBoost s)));
      destruct (Voice.outside 0 1 (Voice.number_of (Voice.style s)));
      split; intros H; decompose [and] H; try discriminate;
      repeat split; (assumption || reflexivity).
  - unfold Voice.validateConfiguration, try_catch, ret, throw.
    destruct (Voice.configuration_issues aenv env); [left|right]; reflexivity.
  - unfold Voice.configuration_issues. fold cfg. rewrite Hmodel.
    rewrite !in_app_iff.
    repeat match goal with
           | |- context [if ?b then _ else _] => destruct b
           end;
      destruct (get AiConfig.SYSTEM_PROMPTS
                  (AiConfig.systemPromptVersion cfg));
      simpl; intuition discriminate.
Qed.

Lemma validateConfiguration_succeeds_iff_witness :
  Voice.validateConfiguration Examples.env Samples.voice_env Examples.quiet
  = (Returns tt, Examples.quiet)
  /\ Voice.validateConfiguration Examples.odd_env Samples.voice_env
       Examples.quiet
     = (Returns tt, Examples.quiet).
Proof.
  split.
  - apply (proj1 (validateConfiguration_succeeds_iff Examples.env
                    Samples.voice_env Examples.quiet)).
    vm_compute. repeat split; (discriminate || (left; reflexivity)).
  - apply (proj1 (validateConfiguration_succeeds_iff Examples.odd_env
                    Samples.voice_env Examples.quiet)).
    vm_compute. repeat split; (discriminate || (right; reflexivity)).
Defined.

End Configuration.

(* ===================================================================== *)
(** * Performance categories *)
(* ===================================================================== *)

Section Categories.

Lemma category_monotone (t : Performance.Threshold) (d1 d2 : Z) :
  d1 <= d2 ->
  Performance.rank (Performance.category t d1)
  <= Performance.rank (Performance.category t d2).
Proof.
  intros H. unfold Performance.category.
  destruct (d1 <=? Performance.good t) eqn:E1;
    destruct (d2 <=? Performance.good t) eqn:E2;
    destruct (d1 <=? Performance.acceptable t) eqn:E3;
    destruct (d2 <=? Performance.acceptable t) eqn:E4;
    try apply Z.leb_le in E1; try apply Z.leb_gt in E1;
    try apply Z.leb_le in E2; try apply Z.leb_gt in E2;
    try apply Z.leb_le in E3; try apply Z.leb_gt in E3;
    try apply Z.leb_le in E4; try apply Z.leb_gt in E4;
    vm_compute; try discriminate; lia.
Qed.

Lemma operation_threshold_cases (operation : string) :
  (inherited operation = true
   /\ forall d, Performance.categorizePerformance operation d = "POOR")
  \/ (inherited operation = false
      /\ exists t,
           (forall d, Performance.categorizePerformance operation d
                      = Performance.category t d)
           /\ 100 <= Performance.good t <= Performance.acceptable t
           /\ Performance.acceptable t <= 8000).
Proof.
  unfold Performance.categorizePerformance, get,
    Performance.operation_thresholds.
  cbn [own_property].
  repeat match goal with
         | |- context [if String.eqb ?a operation then _ else _] =>
             let E := fresh "E" in
             destruct (String.eqb a operation) eqn:E;
             [ apply String.eqb_eq in E; subst operation; right;
               split; [reflexivity|];
               eexists; (split; [intros d; reflexivity|]); simpl; lia
             | clear E ]
         end.
  destruct (inherited operation); [left|right]; split; try reflexivity.
  eexists; (split; [intros d; reflexivity|]); simpl; lia.
Qed.

Lemma route_threshold_bounds (url : string) :
  exists t,
    (forall d, Performance.categorizeRequestPerformance url d
               = Performance.category t d)
    /\ 100 <= Performance.good t <= Performance.acceptable t
    /\ Performance.acceptable t <= 10000.
Proof.
  unfold Performance.categorizeRequestPerformance, Performance.route_thresholds,
    Performance.find_route.
  repeat match goal with
         | |- context [if includes ?a ?b then _ else _] =>
             destruct (includes a b)
         end;
    eexists; (split; [intros d; reflexivity|]); simpl; lia.
Qed.

(** X17. Both performance classifiers are monotone in the duration: a
    longer duration never gets a better category. A duration of at most
    100 ms is 'EXCELLENT' for every URL, and for every operation but the
    names inherited from [Object.prototype], which are 'POOR' at any
    duration. For operations more than 8000 ms, and for requests more
    than 10000 ms, is 'POOR'. A URL that contains '/api/voice' is judged
    by the voice thresholds even when it contains another route as
    well. *)
Theorem performance_categories_monotone :
  forall (operation url : string) (d1 d2 : Z),
    (d1 <= d2 ->
     Performance.rank (Performance.categorizePerformance operation d1)
     <= Performance.rank (Performance.categorizePerformance operation d2))
    /\ (d1 <= d2 ->
        Performance.rank (Performance.categorizeRequestPerformance url d1)
        <= Performance.rank (Performance.categorizeRequestPerformance url d2))
    /\ (d1 <= 100 ->
        (inherited operation = false ->
         Performance.categorizePerformance operation d1 = "EXCELLENT")
        /\ Performance.categorizeRequestPerformance url d1 = "EXCELLENT")
    /\ (inherited operation = true ->
        Performance.categorizePerformance operation d1 = "POOR")
    /\ (8000 < d1 -> Performance.categorizePerformance operation d1 = "POOR")
    /\ (10000 < d1 -> Performance.categorizeRequestPerformance url d1 = "POOR")
    /\ (includes url "/api/voice" = true ->
        Performance.categorizeRequestPerformance url d1
        = Performance.category
            {| Performance.good := 5000; Performance.acceptable := 10000 |} d1).
Proof.
  intros operation url d1 d2.
  destruct (route_threshold_bounds url) as (u & Hu & Hgu & Hau).
  assert (Hroute :
            (d1 <= d2 ->
             Performance.rank (Performance.categorizeRequestPerformance url d1)
             <= Performance.rank (Performance.categorizeRequestPerformance url d2))
            /\ (d1 <= 100 ->
                Performance.categorizeRequestPerformance url d1 = "EXCELLENT")
            /\ (10000 < d1 ->
                Performance.categorizeRequestPerformance url d1 = "POOR")
            /\ (includes url "/api/voice" = true ->
                Performance.categorizeRequestPerformance url d1
                = Performance.category
                    {| Performance.good := 5000;
                       Performance.acceptable := 10000 |} d1)).
  { split; [rewrite !Hu; apply category_monotone|].
    split; [|split].
    - intros H. rewrite Hu. unfold Performance.category.
      assert (E : (d1 <=? Performance.good u) = true) by (apply Z.leb_le; lia).
      now rewrite E.
    - intros H. rewrite Hu. unfold Performance.category.
      assert (E1 : (d1 <=? Performance.good u) = false) by (apply Z.leb_gt; lia).
      assert (E2 : (d1 <=? Performance.acceptable u) = false)
        by (apply Z.leb_gt; lia).
      now rewrite E1, E2.
    - intros H.
      unfold Performance.categorizeRequestPerformance,
        Performance.route_thresholds, Performance.find_route.
      now rewrite H. }
  destruct Hroute as (Hr1 & Hr2 & Hr3 & Hr4).
  destruct (operation_threshold_cases operation)
    as [[Hi Hpoor] | [Hi (t & Ht & Hg & Ha)]].
  - rewrite !Hpoor.
    split; [intros _; apply Z.le_refl|]. split; [exact Hr1|].
    split; [intros H; split; [rewrite Hi; discriminate|exact (Hr2 H)]|].
    split; [reflexivity|]. split; [reflexivity|].
    split; [exact Hr3|exact Hr4].
  - rewrite !Ht.
    split; [apply category_monotone|]. split; [exact Hr1|].
    split; [|split; [rewrite Hi; discriminate|split; [|split; assumption]]].
    + intros H. split; [|exact (Hr2 H)].
      intros _. unfold Performance.category.
      assert (E : (d1 <=? Performance.good t) = true) by (apply Z.leb_le; lia).
      now rewrite E.
    + intros H. unfold Performance.category.
      assert (E1 : (d1 <=? Performance.good t) = false) by (apply Z.leb_gt; lia).
      assert (E2 : (d1 <=? Performance.acceptable t) = false)
        by (apply Z.leb_gt; lia).
      now rewrite E1, E2.
Qed.

Lemma performance_categories_monotone_witness :
  Performance.categorizeRequestPerformance "/api/voice/chat-and-speak" 6000
  = "ACCEPTABLE"
  /\ Performance.categorizePerformance "database-query" 9000 = "POOR"
  /\ Performance.categorizePerformance "database-query" 50 = "EXCELLENT"
  /\ Performance.categorizePerformance "constructor" 50 = "POOR".
Proof.
  destruct (performance_categories_monotone "database-query"
              "/api/voice/chat-and-speak" 9000 9000)
    as (_ & _ & _ & _ & Hpoor & _ & _).
  destruct (performance_categories_monotone "database-query"
              "/api/voice/chat-and-speak" 6000 6000)
    as (_ & _ & _ & _ & _ & _ & Hvoice).
  destruct (performance_categories_monotone "database-query"
              "/api/voice/chat-and-speak" 50 50)
    as (_ & _ & Hfast & _).
  destruct (performance_categories_monotone "constructor"
              "/api/voice/chat-and-speak" 50 50)
    as (_ & _ & _ & Hodd & _).
  split; [rewrite Hvoice; reflexivity|].
  split; [apply Hpoor; reflexivity|].
  split; [|apply Hodd; reflexivity].
  assert (Hle : 50 <= 100) by (intro H; discriminate H).
  exact (proj1 (Hfast Hle) eq_refl).
Defined.

End Categories.

(* ===================================================================== *)
(** * Prompts *)
(* ===================================================================== *)

Section Prompts.
Import Database Persisted Scenario.

(** X18. [getSystemPrompt] has one version of prompts to serve, v2.0:
    for a version, passed or configured, that is no name inherited from
    [Object.prototype] it serves the base prompt for type 'base', the
    conversation prompt for 'conversation' and the apology for 'error',
    never an empty text; a version that is passed wins over the one
    configured unless it is empty. For a version that is an inherited
    name ('constructor', 'toString', ...) it serves nothing, that is,
    [undefined]. *)
Theorem getSystemPrompt_falls_back_to_v2_0 :
  forall (cfg : AiConfig.AI_CONFIG_t) (type : AiConfig.PromptType)
         (version : option string),
    let promptVersion := string_or version (AiConfig.systemPromptVersion cfg) in
    (inherited promptVersion = false ->
     exists text,
       AiConfig.getSystemPrompt cfg type version = Some text
       /\ text = match type with
                 | AiConfig.type_base => AiConfig.base AiConfig.prompts_v2_0
                 | AiConfig.type_conversation =>
                     AiConfig.conversation AiConfig.prompts_v2_0
                 | AiConfig.type_error => AiConfig.error AiConfig.prompts_v2_0
                 end
       /\ text <> "")
    /\ (inherited promptVersion = true ->
        AiConfig.getSystemPrompt cfg type version = None)
    /\ (forall v, version = Some v -> v <> "" -> promptVersion = v)
    /\ (version = None -> promptVersion = AiConfig.systemPromptVersion cfg).
Proof.
  intros cfg type version promptVersion.
  rewrite getSystemPrompt_cases. fold promptVersion.
  split; [|split; [|split]].
  - intros ->. eexists. split; [reflexivity|].
    destruct type; split; (reflexivity || (vm_compute; discriminate)).
  - intros ->. reflexivity.
  - intros v -> Hv. unfold promptVersion, string_or.
    apply String.eqb_neq in Hv. now rewrite Hv.
  - intros ->. reflexivity.
Qed.

Lemma getSystemPrompt_falls_back_to_v2_0_witness :
  AiConfig.getSystemPrompt (AiConfig.AI_CONFIG Examples.env)
    AiConfig.type_error (Some "v9")
  = Some (AiConfig.error AiConfig.prompts_v2_0)
  /\ AiConfig.getSystemPrompt (AiConfig.AI_CONFIG Examples.env)
       AiConfig.type_base (Some "toString") = None.
Proof.
  destruct (getSystemPrompt_falls_back_to_v2_0 (AiConfig.AI_CONFIG Examples.env)
              AiConfig.type_error (Some "v9")) as (Hserved & _).
  destruct (getSystemPrompt_falls_back_to_v2_0 (AiConfig.AI_CONFIG Examples.env)
              AiConfig.type_base (Some "toString")) as (_ & Hnone & _).
  split; [|exact (Hnone eq_refl)].
  destruct (Hserved eq_refl) as (text & Hrun & -> & _). exact Hrun.
Defined.

End Prompts.

(* ===================================================================== *)
(** * Market analysis *)
(* ===================================================================== *)

Section MarketFigures.
Import Database Persisted Scenario.





End MarketFigures.

(* ===================================================================== *)
(** * Listings, showings and agents *)
(* ===================================================================== *)

Section Broker.
Import Database Persisted.

Lemma fails_here_first (g : Database.World) :
  fails_here (fate (next_tick g)) 0 = request_fails g 1.
Proof.
  unfold request_fails. destruct (fate (next_tick g)) as [|[|k]|[|k]]; reflexivity.
Qed.

Lemma listings_executeQuery_run {R : Type}
      (statement : Z -> Listings.Store -> Listings.Store * R) (w : Listings.World) :
  Listings.executeQuery statement w =
    let g := Listings.gateway w in
    let after := after_request g (store g) in
    if request_fails g 1
    then (Throws RequestError,
          {| Listings.market := Listings.market w; Listings.gateway := after |})
    else (Returns (snd (statement (request_time g) (Listings.market w))),
          {| Listings.market := fst (statement (request_time g) (Listings.market w));
             Listings.gateway := after |}).
Proof.
  unfold Listings.executeQuery. rewrite fails_here_first.
  cbv zeta. destruct (request_fails (Listings.gateway w) 1); [reflexivity|].
  destruct (statement _ _); reflexivity.
Qed.

(** X21. When its request completes, [searchProperties] returns objects
    built from rows of the table that are 'active' or 'pending', priced
    within [minPrice, maxPrice] (0 and 10,000,000 when not given), of the
    type asked for ('residential' when none is given, any type for 'all')
    and with at least the bedrooms asked for (a count of 0 asks for
    nothing). They come newest listing first, at most [limit] of them (20
    when not given); [totalFound] is the number of objects returned; no
    object carries a latitude; and the tables are left as they were. *)
Theorem searchProperties_results :
  forall (c : Listings.SearchCriteria) (w : Listings.World),
    request_fails (Listings.gateway w) 1 = false ->
    exists rows result w',
      Listings.searchProperties c w = (Returns result, w')
      /\ Listings.market w' = Listings.market w
      /\ Listings.SearchResult.properties result
         = map Listings.property_of_row rows
      /\ Listings.SearchResult.totalFound result
         = Z.of_nat (List.length (Listings.SearchResult.properties result))
      /\ (List.length rows
          <= Z.to_nat (Listings.default_to (Listings.c_limit c) 20%Z))%nat
      /\ StronglySorted
           (descending (fun r => listing_date (Listings.core r))) rows
      /\ (forall p, In p (Listings.SearchResult.properties result) ->
                    Listings.Property.latitude p = None)
      /\ (forall r, In r rows ->
            In r (Listings.Properties (Listings.market w))
            /\ (p_status (Listings.core r) = "active"
                \/ p_status (Listings.core r) = "pending")
            /\ Listings.default_to (Listings.c_minPrice c) 0
               <= listing_price (Listings.core r)
               <= Listings.default_to (Listings.c_maxPrice c) 10000000
            /\ (Listings.c_propertyType c = None ->
                property_type (Listings.core r) = "residential")
            /\ (forall t, Listings.c_propertyType c = Some t ->
                          t <> "" -> t <> "all" ->
                          property_type (Listings.core r) = t)
            /\ (forall b, Listings.c_bedrooms c = Some b -> b <> 0 ->
                          b <= Listings.bedrooms r)).
Proof.
  intros c w Hok.
  unfold Listings.searchProperties, Listings.try_catch, Listings.bind.
  rewrite listings_executeQuery_run. cbv zeta. rewrite Hok.
  cbn [Listings.select_properties fst snd Listings.Date_now Listings.ret].
  eexists _, _, _. split; [reflexivity|].
  cbn [Listings.market Listings.SearchResult.properties
       Listings.SearchResult.totalFound].
  split; [reflexivity|]. split; [reflexivity|]. split; [reflexivity|].
  split; [unfold offset_limit; apply firstn_le_length|].
  split; [apply offset_limit_sorted, order_by_desc_sorted|].
  split.
  - intros p Hp. apply in_map_iff in Hp. destruct Hp as (r & <- & _).
    reflexivity.
  - intros r Hr. apply in_offset_limit in Hr.
    eapply Permutation_in in Hr; [|apply order_by_desc_permutation].
    apply filter_In in Hr. destruct Hr as [Hin Hcond].
    unfold Listings.search_condition in Hcond.
    repeat (apply andb_prop in Hcond; destruct Hcond as [Hcond ?]).
    split; [exact Hin|]. split.
    { unfold Listings.available in Hcond.
      apply orb_prop in Hcond. destruct Hcond as [E|E];
        apply String.eqb_eq in E; [now left|now right]. }
    split.
    { match goal with
      | Hp : (_ <=? _) && (_ <=? _) = true |- _ =>
          apply andb_prop in Hp; destruct Hp as [Hlo Hhi];
          apply Z.leb_le in Hlo, Hhi; lia
      end. }
    split.
    { intros Hnone.
      match goal with
      | Ht : Listings.when (Listings.type_filter _) _ = true |- _ =>
          rewrite Hnone in Ht; cbn in Ht; now apply String.eqb_eq in Ht
      end. }
    split.
    { intros t Ht Hne Hall.
      match goal with
      | Hw : Listings.when (Listings.type_filter _) _ = true |- _ =>
          rewrite Ht in Hw; cbn [Listings.default_to] in Hw;
          unfold Listings.type_filter in Hw;
          apply String.eqb_neq in Hne, Hall; rewrite Hne, Hall in Hw;
          cbn in Hw; now apply String.eqb_eq in Hw
      end. }
    intros b Hb Hnz.
    match goal with
    | Hw : Listings.when (Listings.given_integer (Listings.c_bedrooms c)) _ = true
      |- _ =>
        rewrite Hb in Hw; unfold Listings.given_integer in Hw;
        apply Z.eqb_neq in Hnz; rewrite Hnz in Hw;
        cbn [Listings.when] in Hw; now apply Z.leb_le in Hw
    end.
Qed.

Lemma searchProperties_results_witness :
  exists rows result w',
    Listings.searchProperties Samples.any_criteria Samples.broker
    = (Returns result, w')
    /\ Listings.SearchResult.properties result
       = map Listings.property_of_row rows
    /\ Listings.SearchResult.totalFound result = 2.
Proof.
  destruct (searchProperties_results Samples.any_criteria Samples.broker eq_refl)
    as (rows & result & w' & Hrun & _ & Hprops & Htotal & _).
  exists rows, result, w'. split; [exact Hrun|]. split; [exact Hprops|].
  revert Hrun. vm_compute. intros H. inversion H. reflexivity.
Defined.

(** X22. [scheduleShowing] writes at most one row, and only for a
    property that is 'active' or 'pending'. When it returns, exactly one
    showing has been appended, with status 'requested', the property and
    identifier given in the details, the agent assigned to the property
    and the time slot asked for ('afternoon' when none is given). When it
    throws, no table has changed; for a property that is missing, sold or
    otherwise unavailable it throws 'Property not found or not available
    for showing' as soon as its lookup has completed. *)
Theorem scheduleShowing_requested_or_nothing :
  forall (propertyId : string) (clientInfo : Listings.ClientInfo)
         (preferredDate : Z) (timeSlot : option string) (w : Listings.World),
    let candidates :=
      filter (fun r => String.eqb (Listings.property_id r) propertyId
                       && Listings.available r)
        (Listings.Properties (Listings.market w)) in
    match Listings.scheduleShowing propertyId clientInfo preferredDate timeSlot w with
    | (Returns details, w') =>
        exists property showing,
          hd_error candidates = Some property
          /\ Listings.PropertyShowings (Listings.market w')
             = Listings.PropertyShowings (Listings.market w) ++ [ showing ]
          /\ Listings.Properties (Listings.market w')
             = Listings.Properties (Listings.market w)
          /\ Listings.Agents (Listings.market w')
             = Listings.Agents (Listings.market w)
          /\ Listings.s_status showing = "requested"
          /\ Listings.ShowingDetails.status details = "requested"
          /\ Listings.showing_id showing = Listings.ShowingDetails.showingId details
          /\ Listings.s_property_id showing = propertyId
          /\ Listings.ShowingDetails.propertyId details = propertyId
          /\ Listings.s_agent_id showing = Listings.agent_id property
          /\ Listings.ShowingDetails.agentId details = Listings.agent_id property
          /\ Listings.time_slot showing
             = Listings.default_to timeSlot "afternoon"
          /\ Listings.preferred_date showing = preferredDate
          /\ Listings.client_name showing = Listings.clientName clientInfo
    | (Throws e, w') =>
        Listings.market w' = Listings.market w
        /\ (request_fails (Listings.gateway w) 1 = false ->
            candidates = [] ->
            e = mkError "Property not found or not available for showing")
    end
    /\ (request_fails (Listings.gateway w) 1 = false ->
        candidates = [] ->
        exists w',
          Listings.scheduleShowing propertyId clientInfo preferredDate timeSlot w
          = (Throws (mkError "Property not found or not available for showing"),
             w'))
    /\ (request_fails (Listings.gateway w) 1 = false ->
        candidates <> [] ->
        request_fails
          (after_uuid (after_request (Listings.gateway w)
                         (store (Listings.gateway w)))) 1 = false ->
        exists details w',
          Listings.scheduleShowing propertyId clientInfo preferredDate timeSlot w
          = (Returns details, w')).
Proof.
  intros propertyId clientInfo preferredDate timeSlot w candidates.
  unfold Listings.scheduleShowing, Listings.try_catch, Listings.bind.
  rewrite listings_executeQuery_run. cbv zeta.
  destruct (request_fails (Listings.gateway w) 1) eqn:Hok.
  - cbn [Listings.throw Listings.market]. split; [split|split].
    + reflexivity.
    + discriminate.
    + discriminate.
    + discriminate.
  - cbn [Listings.select_available_property fst snd]. fold candidates.
    destruct candidates as [|property rest] eqn:Ec.
    + cbn [Listings.throw Listings.market]. split; [split|split].
      * reflexivity.
      * reflexivity.
      * intros _ _. eexists. reflexivity.
      * intros _ Hne. now contradiction Hne.
    + cbn [Listings.uuidv4 Listings.market Listings.gateway].
      rewrite listings_executeQuery_run. cbv zeta.
      cbn [Listings.gateway Listings.market].
      destruct (request_fails (after_uuid _) 1).
      * cbn [Listings.throw Listings.market].
        split; [split; [reflexivity|discriminate]|].
        split; [discriminate|]. intros _ _ Habs. discriminate Habs.
      * cbn [Listings.insert_showing fst snd Listings.Date_now Listings.ret
             Listings.market Listings.PropertyShowings Listings.Properties
             Listings.Agents].
        split; [|split; [discriminate|]].
        -- eexists property, _. split; [reflexivity|].
           repeat (split; [reflexivity|]). reflexivity.
        -- intros _ _ _. eexists _, _. reflexivity.
Qed.

Lemma scheduleShowing_requested_or_nothing_witness :
  (exists w',
     Listings.scheduleShowing "p2" Samples.client 5 None Samples.broker
     = (Throws (mkError "Property not found or not available for showing"), w'))
  /\ (exists details w',
        Listings.scheduleShowing "p1" Samples.client 5 None Samples.broker
        = (Returns details, w')).
Proof.
  split.
  - apply (proj1 (proj2 (scheduleShowing_requested_or_nothing
                           "p2" Samples.client 5 None Samples.broker)));
      reflexivity.
  - apply (proj2 (proj2 (scheduleShowing_requested_or_nothing
                           "p1" Samples.client 5 None Samples.broker)));
      [reflexivity | discriminate | reflexivity].
Defined.

Lemma split_comma_from_nonempty (text current : string) :
  Listings.split_comma_from current text <> [].
Proof.
  revert current. induction text as [|c rest IH]; intros current; simpl.
  - discriminate.
  - destruct (Ascii.eqb c ","%char); [discriminate | apply IH].
Qed.

Lemma agent_languages_nonempty (r : Listings.AgentRow) :
  Listings.Agent.languages (Listings.agent_of_row r) <> [].
Proof.
  unfold Listings.agent_of_row. cbn [Listings.Agent.languages].
  destruct (Listings.given_string (Listings.languages r)).
  - apply split_comma_from_nonempty.
  - discriminate.
Qed.

Lemma sorted_map {A B : Type} (f : A -> B) (R : B -> B -> Prop) (l : list A) :
  StronglySorted (fun a b => R (f a) (f b)) l -> StronglySorted R (map f l).
Proof.
  induction 1 as [|x l Hl IH Hx]; simpl; constructor.
  - exact IH.
  - rewrite Forall_map. exact Hx.
Qed.

(** X23. When its request completes, [getAgentInfo] changes no table.
    Called with a non-empty identifier it returns one agent or null: null
    exactly when no row with status 'active' carries that identifier, and
    otherwise an agent with that identifier built from such a row. Called
    without identifier (or with an empty one) it returns the whole roster:
    one entry per row that is 'active' and featured, highest
    [total_sales_ytd] first. Every agent returned lists at least one
    language. *)
Theorem getAgentInfo_one_or_roster :
  forall (agentId : option string) (w : Listings.World),
    request_fails (Listings.gateway w) 1 = false ->
    exists info w',
      Listings.getAgentInfo agentId w = (Returns info, w')
      /\ Listings.market w' = Listings.market w
      /\ match Listings.given_string agentId with
         | Some id =>
             exists found,
               info = Listings.OneAgent found
               /\ (found = None <->
                   forall r, In r (Listings.Agents (Listings.market w)) ->
                             Listings.agent_active r = true ->
                             Listings.a_agent_id r <> id)
               /\ (forall a, found = Some a ->
                     Listings.Agent.agentId a = id
                     /\ Listings.Agent.languages a <> []
                     /\ exists r,
                          In r (Listings.Agents (Listings.market w))
                          /\ Listings.agent_active r = true
                          /\ a = Listings.agent_of_row r)
         | None =>
             exists agents rows,
               info = Listings.Roster agents
               /\ agents = map Listings.agent_of_row rows
               /\ Permutation rows
                    (filter (fun r => Listings.agent_active r && Listings.featured r)
                       (Listings.Agents (Listings.market w)))
               /\ StronglySorted (descending Listings.Agent.totalSalesYTD) agents
               /\ Forall (fun a => Listings.Agent.languages a <> []) agents
         end.
Proof.
  intros agentId w Hok.
  unfold Listings.getAgentInfo, Listings.try_catch, Listings.bind.
  destruct (Listings.given_string agentId) as [id|].
  - rewrite listings_executeQuery_run. cbv zeta. rewrite Hok.
    cbn [Listings.select_agent fst snd Listings.ret Listings.market].
    eexists _, _. split; [reflexivity|]. split; [reflexivity|].
    set (matching := filter _ _).
    eexists. split; [reflexivity|]. split; [split|].
    + intros Hnone r Hin Hactive Hid.
      assert (Hr : In r matching).
      { apply filter_In. split; [exact Hin|].
        rewrite Hactive. cbn [andb]. now apply String.eqb_eq. }
      destruct matching; [contradiction | discriminate Hnone].
    + intros Hall. destruct matching as [|r rest] eqn:Em; [reflexivity|].
      assert (Hr : In r matching) by (rewrite Em; now left).
      apply filter_In in Hr. destruct Hr as [Hin Hc].
      apply andb_true_iff in Hc. destruct Hc as [Hactive Hid].
      apply String.eqb_eq in Hid. now destruct (Hall r Hin Hactive).
    + intros a Ha. destruct matching as [|r rest] eqn:Em; [discriminate|].
      cbn [map hd_error] in Ha. injection Ha as <-.
      assert (Hr : In r matching) by (rewrite Em; now left).
      apply filter_In in Hr. destruct Hr as [Hin Hc].
      apply andb_true_iff in Hc. destruct Hc as [Hactive Hid].
      apply String.eqb_eq in Hid.
      split; [exact Hid|]. split; [apply agent_languages_nonempty|].
      exists r. now repeat split.
  - rewrite listings_executeQuery_run. cbv zeta. rewrite Hok.
    cbn [Listings.select_featured_agents fst snd Listings.ret Listings.market].
    eexists _, _. split; [reflexivity|]. split; [reflexivity|].
    eexists _, _. split; [reflexivity|]. split; [reflexivity|].
    split; [apply order_by_desc_permutation|]. split.
    + apply sorted_map. apply order_by_desc_sorted.
    + rewrite Forall_map. apply Forall_forall. intros r _.
      apply agent_languages_nonempty.
Qed.

Lemma getAgentInfo_one_or_roster_witness :
  exists info w',
    Listings.getAgentInfo (Some "a3") Samples.broker = (Returns info, w')
    /\ info = Listings.OneAgent None.
Proof.
  destruct (getAgentInfo_one_or_roster (Some "a3") Samples.broker eq_refl)
    as (info & w' & Hrun & _ & _).
  exists info, w'. split; [exact Hrun|].
  revert Hrun. vm_compute. intros H. inversion H. reflexivity.
Defined.

End Broker.

(* ===================================================================== *)
(** ** The chat routes over the services *)
(* ===================================================================== *)

Section Routes.
Import Database Persisted.

Lemma valid_status_cases (status : string) :
  ChatRoutes.includes ChatRoutes.validStatuses status = true ->
  status = "active" \/ status = "paused" \/ status = "completed"
  \/ status = "archived".
Proof.
  unfold ChatRoutes.includes, ChatRoutes.validStatuses. cbn [existsb].
  intros H. repeat (apply orb_true_iff in H; destruct H as [H|H]);
    try discriminate H; apply String.eqb_eq in H; auto.
Qed.

Lemma valid_status_not_deleted (status : string) :
  ChatRoutes.includes ChatRoutes.validStatuses status = true ->
  status <> "deleted".
Proof.
  intros H. destruct (valid_status_cases status H) as [-> | [-> | [-> | ->]]];
    discriminate.
Qed.

Lemma update_keeps_visible cid cid' now newStatus md (l : list ConversationRow) :
  newStatus <> "deleted" ->
  filter (visible_conversation cid') l <> [] ->
  filter (visible_conversation cid')
    (update_where (is_conversation cid) (set_status now newStatus md) l) <> [].
Proof.
  intros Hlive Hsome.
  destruct (filter (visible_conversation cid') l) as [|r rest] eqn:Ef;
    [now contradiction Hsome|].
  assert (Hr : In r (filter (visible_conversation cid') l))
    by (rewrite Ef; now left).
  apply filter_In in Hr. destruct Hr as [Hin Hvis].
  apply (in_filter_nonempty _ _
           (if is_conversation cid r then set_status now newStatus md r else r)).
  - unfold update_where. apply in_map_iff. exists r. split; [reflexivity|exact Hin].
  - destruct (is_conversation cid r); [|exact Hvis].
    unfold visible_conversation, is_conversation, not_deleted in Hvis |- *.
    cbn [conversation_id status set_status].
    apply andb_true_iff in Hvis. destruct Hvis as [Hid _]. rewrite Hid.
    apply String.eqb_neq in Hlive. now rewrite Hlive.
Qed.

(** X24. The handler of PUT /conversation/:id/status always answers. A
    status other than 'active', 'paused', 'completed' or 'archived' (so
    'deleted' too) is answered with 400 before any request to the
    database. An answer of 200 means that the conversation is now
    reported by the lookup, with the status asked for. A conversation
    without any row is answered with 500, not 404, when the request
    completes. Whatever the answer, no conversation that the lookup
    reported before is hidden afterwards: the route cannot soft-delete. *)
Theorem put_conversation_status_cannot_delete :
  forall (conversationId status : string) (metadata : option Json)
         (requestId : option string) (w : World),
    exists response w',
      ChatRoutes.put_conversation_status conversationId status metadata
        requestId w
      = (Returns response, w')
      /\ (ChatRoutes.includes ChatRoutes.validStatuses status = false ->
          ChatRoutes.statusCode response = 400 /\ w' = w)
      /\ (ChatRoutes.statusCode response = 200 ->
          exists row,
            visible conversationId (store w') = Some row
            /\ Database.status row = status)
      /\ (ChatRoutes.includes ChatRoutes.validStatuses status = true ->
          request_fails w 1 = false ->
          rows conversationId (store w) = [] ->
          ChatRoutes.statusCode response = 500 /\ store w' = store w)
      /\ (forall other,
            visible other (store w) <> None ->
            visible other (store w') <> None).
Proof.
  intros cid newStatus md rid w.
  unfold ChatRoutes.put_conversation_status, try_catch, bind.
  destruct (ChatRoutes.includes ChatRoutes.validStatuses newStatus) eqn:Hvalid;
    cbn [negb].
  2:{ cbn [ret]. eexists _, _. split; [reflexivity|].
      split; [intros _; split; reflexivity|].
      split; [discriminate|]. split; [discriminate|]. intros other H; exact H. }
  pose proof (valid_status_not_deleted _ Hvalid) as Hlive.
  rewrite updateConversationStatus_run.
  destruct (request_fails w 1) eqn:Hok.
  { cbn [ret]. eexists _, _. split; [reflexivity|].
    split; [discriminate|]. split; [discriminate|]. split; [discriminate|].
    intros other H; exact H. }
  cbv zeta.
  destruct (count_where (is_conversation cid) (Conversations (store w)) =? 0) eqn:E.
  - apply Z.eqb_eq, count_where_zero in E.
    cbn [ret]. eexists _, _. split; [reflexivity|].
    split; [discriminate|]. split; [discriminate|].
    cbn [ChatRoutes.statusCode ChatRoutes.status_json store after_request].
    split.
    + intros _ _ _. split; [reflexivity|].
      assert (Hsame :
                update_where (is_conversation cid)
                  (set_status (request_time w) newStatus
                     (ConversationManager.given_metadata md))
                  (Conversations (store w))
                = Conversations (store w)).
      { unfold update_where.
        transitivity (map (fun r => r) (Conversations (store w)));
          [|apply map_id].
        apply map_ext_in. intros r Hr.
        destruct (is_conversation cid r) eqn:Er; [|reflexivity].
        exfalso. exact (in_filter_nonempty _ _ _ Hr Er E). }
      rewrite Hsame. now destruct (store w).
    + intros other Hother. unfold visible in *.
      cbn [Conversations with_conversations].
      intros Hnone. apply Hother.
      destruct (filter (visible_conversation other) (Conversations (store w)))
        as [|r rest] eqn:Ef; [reflexivity|].
      exfalso.
      apply (update_keeps_visible cid other (request_time w) newStatus
               (ConversationManager.given_metadata md)
               (Conversations (store w)) Hlive); [rewrite Ef; discriminate|].
      destruct (filter _ (update_where _ _ _)); [reflexivity|discriminate].
  - apply Z.eqb_neq in E.
    cbn [Date_now ret]. eexists _, _. split; [reflexivity|].
    split; [discriminate|].
    cbn [ChatRoutes.statusCode ChatRoutes.json store after_request].
    split; [|split].
    + intros _. unfold visible. cbn [Conversations with_conversations].
      rewrite set_status_visible by exact Hlive.
      destruct (filter (is_conversation cid) (Conversations (store w)))
        as [|r rest] eqn:Ef.
      { exfalso. apply E. apply count_where_zero. exact Ef. }
      cbn [map hd_error]. eexists. split; reflexivity.
    + intros _ _ Hrows. exfalso. apply E. apply count_where_zero. exact Hrows.
    + intros other Hother. unfold visible in *.
      cbn [Conversations with_conversations].
      intros Hnone. apply Hother.
      destruct (filter (visible_conversation other) (Conversations (store w)))
        as [|r rest] eqn:Ef; [reflexivity|].
      exfalso.
      apply (update_keeps_visible cid other (request_time w) newStatus
               (ConversationManager.given_metadata md)
               (Conversations (store w)) Hlive); [rewrite Ef; discriminate|].
      destruct (filter _ (update_where _ _ _)); [reflexivity|discriminate].
Qed.

Lemma put_conversation_status_cannot_delete_witness :
  exists w',
    ChatRoutes.put_conversation_status "recent" "deleted" None None Examples.aged
    = (Returns
         (ChatRoutes.status_json 400
            (ChatRoutes.Failure "Invalid Status"
               "Status must be one of: active, paused, completed, archived"
               None)), w')
    /\ w' = Examples.aged.
Proof.
  destruct (put_conversation_status_cannot_delete "recent" "deleted" None None
              Examples.aged) as (response & w' & Hrun & Hinvalid & _).
  destruct (Hinvalid eq_refl) as [_ Hsame].
  exists w'. split; [|exact Hsame].
  rewrite Hrun. revert Hrun. vm_compute. intros H. inversion H. reflexivity.
Defined.

Lemma processChatMessage_absent_throws this message cid userId context (w : World) :
  cid <> "" ->
  visible cid (store w) = None ->
  exists e w',
    AIService.processChatMessage this message (Some cid) userId context w
    = (Throws e, w')
    /\ store w' = store w.
Proof.
  intros Hcid Hnone.
  unfold AIService.processChatMessage, bind, try_catch.
  rewrite (given_some _ Hcid), getConversation_run, Hnone.
  destruct (request_fails w 1); cbn [option_map throw];
    eexists _, _; split; reflexivity.
Qed.

(** X25. The handler of POST /message always answers, with 200 or 500. It
    answers 200 exactly when [processChatMessage] returns, and then passes
    on its conversation identifier, response and metadata. Every error is
    answered with the same 500 body; in particular a message for a
    conversation that the lookup reports absent is answered with 500
    'Chat Processing Failed', not 404, and nothing is written. *)
Theorem post_message_answers :
  forall (aiService : AIService.t) (message : string)
         (conversationId userId : option string) (context : option Json)
         (requestId : option string) (w : World),
    exists response w',
      ChatRoutes.post_message aiService message conversationId userId context
        requestId w = (Returns response, w')
      /\ match AIService.processChatMessage aiService message conversationId
                 userId (ChatRoutes.context_or_empty context) w with
         | (Returns result, w1) =>
             w' = w1
             /\ ChatRoutes.statusCode response = 200
             /\ ChatRoutes.body response
                = ChatRoutes.ChatReply
                    (AIService.ChatResult.conversationId result)
                    (AIService.ChatResult.response result)
                    (AIService.ChatResult.metadata result) requestId (clock w1)
         | (Throws _, w1) =>
             w' = w1
             /\ response
                = ChatRoutes.status_json 500
                    (ChatRoutes.Failure "Chat Processing Failed"
                       "Unable to process your message at this time" requestId)
         end
      /\ (forall cid,
            conversationId = Some cid -> cid <> "" ->
            visible cid (store w) = None ->
            ChatRoutes.statusCode response = 500 /\ store w' = store w).
Proof.
  intros this message conversationId userId context requestId w.
  unfold ChatRoutes.post_message, try_catch, bind.
  destruct (AIService.processChatMessage this message conversationId userId
              (ChatRoutes.context_or_empty context) w) as [[result|e] w1] eqn:Hrun.
  - cbn [Date_now ret]. eexists _, _. split; [reflexivity|].
    split; [repeat split|].
    intros cid -> Hcid Hnone.
    destruct (processChatMessage_absent_throws this message cid userId
                (ChatRoutes.context_or_empty context) w Hcid Hnone)
      as (e & w2 & Hthrows & _).
    rewrite Hthrows in Hrun. discriminate Hrun.
  - cbn [ret]. eexists _, _. split; [reflexivity|].
    split; [split; reflexivity|].
    intros cid -> Hcid Hnone.
    destruct (processChatMessage_absent_throws this message cid userId
                (ChatRoutes.context_or_empty context) w Hcid Hnone)
      as (e' & w2 & Hthrows & Hstore).
    rewrite Hthrows in Hrun. injection Hrun as _ <-.
    split; [reflexivity|exact Hstore].
Qed.

Lemma post_message_answers_witness :
  exists response w',
    ChatRoutes.post_message Examples.service "hello" (Some "gone") None None
      None Examples.aged = (Returns response, w')
    /\ ChatRoutes.statusCode response = 500
    /\ store w' = store Examples.aged.
Proof.
  destruct (post_message_answers Examples.service "hello" (Some "gone") None
              None None Examples.aged) as (response & w' & Hrun & _ & Habsent).
  exists response, w'. split; [exact Hrun|].
  apply (Habsent "gone"); [reflexivity | discriminate | reflexivity].
Defined.

End Routes.
